(* ===== verification/_CoqProject ===== *)
-Q . S2P
Prelude.v
JsValue.v
Binary64.v
Model.v
Objects.v
ViewState.v
Types.v
Transport.v
Submission.v
Exchange.v
Chart.v
Machine.v
View.v
Raw.v
Integers.v
Component.v
Session.v
Plot.v
Browser.v
Service.v
Refinement.v
