(* ===== verification/Prelude.v ===== *)
(** * Resume Skill Analyzer: a verification development for [src/src/App.tsx]

    ** The program

    [App.tsx] is a single React component.  The user drops a PDF on a file
    picker, types a job description, and clicks a button; the component
    posts both to an analysis service and shows either the returned
    comparison (a pie chart, three lists of skills, four extracted fields)
    or an error message.  Its parts:

    - five state cells ([resume], [jobDescription], [extractedData],
      [isLoading], [error]) with their setters (lines 23-27);
    - the handlers that write them: [onDrop] (32-35), the text area's
      [onChange] (134) and the [async] function [handleSubmit] (38-68),
      which validates, builds the request, awaits the transport, and
      interprets the response inside [try]/[catch]/[finally];
    - [renderPieChart] (70-100), which derives the chart's data;
    - the JSX (102-197), which turns the state into the page, including
      the button's [disabled] guard (140);
    - the declared shape of a result, [ExtractionResult] (8-20).

    The collaborators are libraries or remote: react-dropzone (file
    picker), axios (transport), react-chartjs-2 (chart), React itself and
    the analysis service.

    ** The files, in dependency order

    - [Prelude] (this file): the [result] type for computations that may
      throw, with stdpp's monad notation; [traverse] and [collect] with
      their lemmas; [forallb_Forall]; bounded quantification by
      evaluation ([forallb_seqZ], [by_evaluation_on]); the tactics
      [normalize_app] for lists and [cases_Z], [pow2] for integers; the
      hint database [interface], to which [Machine], [Session] and
      [Component] add the lemmas that show an event or a world to be one
      of the interface.
    - [JsValue]: the run-time values.  TypeScript types are erased, so the
      response body is an arbitrary decoded JSON value [JsValue]; the file
      gives ToBoolean ([truthy]), property reads ([get_prop],
      [get_prop_opt]), ToString, ToNumber and [100 - x] ([js_sub]) on
      binary64 numbers.  Class [Engine] holds what the host decides
      (number/text conversions, wording of [TypeError]s); [sample_engine]
      is an instance for evaluating examples.
    - [Binary64]: the meaning of [num_add] and [num_sub] over exact
      values: the value of a number in units of [2^-1074], rounding to
      nearest even ([rne], [round_number]), the proof that [SpecFloat]'s
      shifts and rounding bits compute it, closure of the valid numbers
      under both operations, and Sterbenz's lemma.
    - [Model]: [ExtractionResult] and [SkillMatch] as records; [decode] is
      the shape check the type annotation stands for, [encode] its inverse.
    - [Objects]: values up to the order of the members of their objects
      ([value_equiv], written [≡]), with the instances that make the
      reads, the conversions and [decode] respect it.
    - [ViewState]: the five cells as the record [ViewState], one setter
      each, [initial_state].
    - [Types]: the declared types as structural types ([Ty],
      [ExtractionResult_ty] for lines 8-20, [extractedData_ty] for line
      25), the typing relation [has_type] with its checker [check_type],
      and [wf_value]: every number of a value is a valid binary64.
    - [Transport]: [FormData], [Request], the [Outcome] of the awaited call
      and the file picker: its contract [dropzone_contract], and the
      picker as an interface (class [Dropzone], laws [DropzoneLaws] and
      [DropzoneTransparent]) with two implementations, [first_accepted]
      and [reject_surplus].
    - [Submission]: [onDrop], [onChange], [validate], and [handleSubmit]
      split at its [await] into [handleSubmit_begin] and
      [handleSubmit_settle] (built from [try_before_await],
      [try_after_await], [catch_block], [finally_block]); [button_click] is
      the handler behind the [disabled] guard [submit_disabled].
    - [Exchange]: what the transport makes of the server's reply
      ([HttpReply], [validateStatus], [axios_post]); the wording of its
      errors is the parameter [Transport].
    - [Chart]: [renderPieChart] and the record handed to the chart widget.
    - [Machine]: worlds (state, requests in flight, log of requests) under
      events ([EvDrop], [EvChange], [EvClick], [EvSettle], and [EvCall] for
      a call of [handleSubmit] that bypasses the button); [fire], [run],
      [reachable], the invariant [ui_inv], and [drain], the service
      settling the requests in flight.
    - [View]: the JSX as the tree [render] computes, and [mount], the
      renderer's treatment of expression children; [page_text] is what the
      user reads.
    - [Raw]: the cell [resume] as JavaScript has it ([ResumeCell]: [null],
      [undefined] or a [File]) kept beside the world ([cell_fire],
      [cell_run]), its erasure [erase] to the option of [ViewState], and
      the event [handleSubmit] receives ([FormEvent], [preventDefault],
      [handleSubmit_on]).
    - [Integers]: the integers up to [2^53 - 1] as binary64 numbers, and
      the engine's conversions on decimal numerals (class [DecimalLaws],
      kept by [sample_engine]).
    - [Component]: [App] as the tree it returns together with the
      functions its handlers are bound to ([handle]), the options passed
      to [useDropzone] (lines 29-36), the user's gestures ([Gesture]) and
      their dispatch on the displayed page ([listeners], [interact]).
    - [Session]: [Machine] and [View] together, with the service's contract
      [conforming_outcome].
    - [Plot]: the contract of the chart widget's input ([two_categories],
      [is_numeric], [is_share]).
    - [Browser]: a visit: the world and the screen ([Browser]), a render
      after every state change ([commit]), gestures and settlements
      ([act], [visit]), the page unmounted for good by a render that
      throws, and a server answering the request in flight ([answer],
      [exchange], [conversation]).
    - [Service]: the service as a machine with a state of its own
      ([Service]), which may answer the same request differently the
      second time; [turn] and [dialogue] are a gesture followed by its
      answer, and sequences of them.
    - [Refinement]: the specified lifecycle machine [spec_step] over
      [SubmissionState], the abstraction [abstract] from worlds, and the
      simulation.

    ** How the model follows the code

    A setter called with a value replaces its cell; the handlers are the
    setter calls of the source in the source's order.  An exception is a
    value: a computation that may throw has type [Throws A], [throw] is
    [Throw], and [try]/[catch]/[finally] are the case analyses in
    [handleSubmit_begin] and [handleSubmit_settle].  The [await] is the
    point where [handleSubmit_begin] returns the request and
    [handleSubmit_settle] later receives the outcome; between the two any
    other handler may run, which [Machine] makes explicit.  Handlers
    themselves run to completion: the program is single-threaded.
    The handlers are reached as the page offers them: [render] names a
    handler in the attributes of the element that carries it, [listeners]
    collects them from the mounted tree, and [interact] calls the function
    [handle] binds to the handler only when an element that is not
    disabled listens.  The component is rendered again after every
    change of its state ([commit]); no error boundary is declared, so a
    render that throws leaves nothing mounted, and [act] does nothing to
    the page from then on.
    JavaScript's implicit conversions are applied where the source applies
    them: [!x] and [a && b] are [truthy] and [js_and], [x.k] on [null]
    throws, [new Error(v)] converts [v] to text, [100 - v] converts [v] to
    a number.

    ** What the theorems show

    - Outcomes of one submission ([Submission]): the final state and the
      requests issued for each case: no file, no text, success, server
      error, malformed body, unreadable body, transport failure; and the
      equivalence of the response handling with a decoding into a tagged
      variant ([classify], [settle_result]).
    - The interface as a state machine ([Machine]): at most one request in
      flight, the loading flag set exactly then, error and result never
      both held, every issued request well formed, clicks in flight
      dropped, settling re-arms the button.  The same fails for direct
      calls of [handleSubmit].
    - Refinement ([Refinement]): every event of the interface is a
      transition of the specified lifecycle machine or a stutter, with
      the guards of the code as validator; not with the specified
      validator.
    - The page as the user acts on it ([Component]): the mounted page
      offers exactly four listeners, the button's disabled exactly when
      [submit_disabled] says so; a gesture on a displayed page is the
      event of [Machine] it stands for, so the worlds gestures lead to
      are worlds the interface reaches and have its invariants.
    - A visit ([Browser]): a crash is final; while the page is mounted
      a visit is a run of [Machine]; against a conforming service the
      page never crashes, and the worlds of the visits are exactly the
      worlds the interface reaches; against a conforming server every
      gesture followed by the server's answer leaves nothing in flight,
      with no more requests issued than clicks; between the click and
      the answer the button is disabled and says so; one click, from
      rest to the page that shows the server's result, or, when the
      exchange fails, to the page that shows the transport's message
      with the button enabled again.
    - A service with state ([Service]): whatever it remembers, if its
      replies conform in every state then every gesture followed by its
      answer leaves nothing in flight; a request refused and then
      accepted ends, after a second click, with the result on the page;
      and a visit issues at most one request for each click: nothing is
      retried or polled.
    - The cell of the file ([Raw]): the option kept by [ViewState] is
      the erasure of the cell in every world, and the guards, the
      button and the page read the cell only through its erasure; the
      cell does leave its declared type [File | null], holding
      [undefined] after a drop without an accepted file.
    - The chart widget's contract ([Plot]): the chart of every result
      of the declared shape has two labels and one dataset of two
      numbers and two colours, the numbers between 0 and 100 when the
      percentage is; a percentage sent as text breaks it.
    - The chart ([Chart], on [Binary64]): the two slices for a well-shaped
      result; for every binary64 percentage from 0 to 100 the second
      slice is again a valid percentage and the two slices add up to
      exactly 100, the rounding of [100 - p] included; for integral
      percentages the second slice is the exact complement; for every
      number above 100 the second slice is negative, nothing being
      clamped.
    - Integers ([Integers]): an integer up to [2^53 - 1] in magnitude
      is a binary64 number whose value is the integer; differences and
      sums of such integers are those of the integers, rounded once, so
      that [100 - k] is the number of the integer [100 - k]; printing
      such an integer and reading a decimal numeral are inverse in the
      sample engine; a percentage sent as a decimal numeral is charted
      as the number it denotes.
    - Arithmetic ([Binary64]): addition and subtraction of finite
      numbers of either sign are the exact operation followed by
      rounding to nearest even, with overflow to infinity; comparison is
      comparison of values; the valid numbers are closed under both
      operations; the difference of two numbers, the greater at most
      twice the lesser, is exact (Sterbenz), which makes [100 - p] exact
      from 50 to 100, as it is for every multiple of [2^-46].
    - Types ([Types], [Session], [Chart]): [check_type] decides
      [has_type]; a value has the type [ExtractionResult] exactly when
      [decode] accepts it; the declared type of the cell of the result
      is an invariant of the interface against a conforming service, and
      is not one otherwise; whatever the service sends, the chart's
      second slice is a valid number.
    - The order of members ([Objects], [Types], [Session]): bodies that
      agree on every member read by name settle into equivalent states,
      with the same typing, and for a conforming answer the same page
      and chart: keeping an object as the list of its members, read by
      the first binding of a key, loses nothing.
    - Termination ([Machine]): settling the requests in flight ends
      with none in flight and without a request issued on the way; the
      interface needs one settlement.
    - The exchange ([Exchange]): a reply outside 200-299, or none, shows
      the transport's message whatever the body says; the server's
      error text is shown only under a success status; the [catch]
      block always receives an [Error], so its fallback text is dead.
    - The file picker ([Machine], against [DropzoneLaws]): with every
      picker that keeps the contract, a drop without an accepted file
      discards the file held.
    - One submission end to end ([Session]): from the click, through a
      conforming answer, to a chart whose slices add up to exactly 100.
    - The page ([View], [Session]): the exact texts shown for a
      well-shaped result; rendering never fails against a conforming
      service; it does fail, uncaught, for a truthy payload of another
      shape.
    - Round trip ([Model]): [decode (encode r) = Some r].

    ** Bounds

    Numbers are binary64 ([SpecFloat] at precision 53, exponent bound
    1024); nothing is approximated by reals.  The theorems on the sum
    and the range of the slices hold for every valid number between 0
    and 100, and the one on negative slices for every number above 100;
    they are proved from the meaning of the operations, not by
    enumeration.  Only the exactness of the complement is stated for a
    finite range in [slices_of_integer_percentage], the 101 integral
    percentages, proved by evaluation on each; [complement_exact] and
    [complement_integer] cover them again without enumeration, the
    latter for every integer up to [2^53 - 1] in magnitude, the bound
    above which not every integer is a binary64 number.  The one definition with fuel is
    [drain]: each unit of fuel settles one request, and
    [drain_terminates] shows that fuel equal to the number of requests
    in flight is enough and that more is not used.  Every other
    recursion is structural.

    ** Not modelled

    The bytes of the HTTP exchange (multi-part encoding, headers on the
    wire, redirects, timeouts), of which only the reply's status and
    decoded body enter; the file picker's own code, of which only the
    contract and two sample pickers enter; the chart's drawing, of which
    only the contract of its input enters; React's
    reconciliation, batching, effects and DOM, of which only the mounted
    tree, its listeners and the unmounting by a render that throws
    enter; CSS; the analysis service, whose code is not in the
    repository: its answers are arbitrary [Outcome]s, or those of an
    arbitrary function from requests to replies, or of an arbitrary
    machine from its state and the request to a reply; what it computes
    from the file and the text is left open, as are delays and several
    replies to one request.  Number-to-text and
    text-to-number conversion and the wording of engine and transport
    errors are parameters ([Engine], [Transport]), with laws for decimal
    numerals of integers only ([DecimalLaws]); fractions, exponents and
    signs in text are not given a meaning.  Of the event [handleSubmit]
    receives only the flag [preventDefault] sets is kept; the browser's
    default action, which it suppresses, is not modelled.  The types of
    the cells other than [extractedData] and [resume] are those of the
    record [ViewState], so nothing is stated of them.  The imports (lines
    1-7) and the export (line 200) bind names and have no behaviour of
    their own.  Of the arithmetic, multiplication, division and square
    root are not given a meaning: the program only subtracts. *)

From Stdlib Require Import ZArith.
From stdpp Require Import base tactics option list strings sets.

(** ** Results of computations that may throw *)

Inductive result (E A : Type) : Type :=
| Ok (a : A)
| Throw (e : E).
Arguments Ok {E A} a.
Arguments Throw {E A} e.

#[global] Instance result_ret {E} : MRet (result E) := fun A a => Ok a.
#[global] Instance result_bind {E} : MBind (result E) := fun A B f m =>
  match m with Ok a => f a | Throw e => Throw e end.

(** [traverse f l]: [f] on every element, left to right, stopping at the
    first that throws. *)
Fixpoint traverse {E A B} (f : A → result E B) (l : list A) : result E (list B) :=
  match l with
  | [] => Ok []
  | x :: rest => b ← f x; bs ← traverse f rest; Ok (b :: bs)
  end.

(** [collect f l]: the same for an [f] that yields lists, concatenated. *)
Fixpoint collect {E A B} (f : A → result E (list B)) (l : list A) : result E (list B) :=
  match l with
  | [] => Ok []
  | x :: rest => b ← f x; bs ← collect f rest; Ok (b ++ bs)
  end.

(** [collect] through a second [collect]: mounting then reading off. *)
Lemma collect_collect {E A B C} (f : A → result E (list B)) (g : B → list C) l :
  (bs ← collect f l; Ok (bs ≫= g)) =
  collect (λ x, b ← f x; Ok (b ≫= g)) l.
Proof.
  induction l as [|x rest IH]; [done|]. simpl. rewrite <-IH.
  destruct (f x); [|done]. simpl.
  destruct (collect f rest); [|done]. simpl. by rewrite bind_app.
Qed.

(** What [traverse] throws, one of the elements threw. *)
Lemma traverse_throw {E A B} (f : A → result E B) (P : E → Prop) l e :
  Forall (λ x, ∀ e, f x = Throw e → P e) l → traverse f l = Throw e → P e.
Proof.
  induction 1 as [|x rest Hx _ IH]; [done|]. simpl.
  destruct (f x) eqn:Hfx; simpl; [|intros [= <-]; eauto].
  destruct (traverse f rest); simpl; [done|]. intros [= <-]. eauto.
Qed.

(** ** Bounded universal statements by evaluation *)

(** A boolean check that holds on every element of a range, evaluated on
    the range, holds on every integer of the range. *)
Lemma forallb_seqZ (f : Z → bool) (lo n : Z) :
  forallb f (seqZ lo n) = true → ∀ k, (lo ≤ k < lo + n)%Z → f k = true.
Proof.
  intros Hall k Hk. rewrite forallb_forall in Hall.
  apply Hall, list_elem_of_In, elem_of_seqZ. lia.
Qed.

(** [by_evaluation_on lo n] proves [f k = true] for [k] in the range of [n]
    integers from [lo], by evaluating [f] on the whole range. *)
Ltac by_evaluation_on lo n :=
  lazymatch goal with
  | |- ?f ?k = true => apply (forallb_seqZ f lo n); [by vm_compute | lia]
  end.

(** A boolean check on every element, against the property it decides
    on each. *)
Lemma forallb_Forall {A} (f : A → bool) (P : A → Prop) (l : list A) :
  Forall (λ x, f x = true ↔ P x) l → forallb f l = true ↔ Forall P l.
Proof.
  induction 1 as [|x l Hx _ IH]; simpl; [done|].
  rewrite andb_true_iff, Forall_cons, Hx, IH. done.
Qed.

(** The hints of the development: the rules of reachability, the
    preservation of the invariants and the inclusions between classes of
    events are added to [interface] by the files that prove them, for
    [eauto with interface]. *)
Create HintDb interface.

(** Brings nested concatenations of lists to one right-nested form. *)
Ltac normalize_app := repeat (rewrite ?app_nil_r, <-?app_assoc; cbn [app]).

(** ** Integers *)

Lemma pow2_pos (k : Z) : (0 ≤ k)%Z → (0 < 2 ^ k)%Z.
Proof. intros Hk. by apply Z.pow_pos_nonneg. Qed.

(** [pow2 k] adds [0 < 2 ^ k] to the context. *)
Ltac pow2 k := pose proof (pow2_pos k ltac:(lia)).

(** Case analysis on the integer comparisons of the goal. *)
Ltac cases_Z :=
  repeat match goal with
  | |- context [(?a <? ?b)%Z] => destruct (Z.ltb_spec a b)
  | |- context [(?a =? ?b)%Z] => destruct (Z.eqb_spec a b)
  | |- context [(?a <=? ?b)%Z] => destruct (Z.leb_spec a b)
  | |- context [(?a ?= ?b)%Z] => destruct (Z.compare_spec a b)
  end.
