(* ===== verification/JsValue.v ===== *)
(** * JsValue: the run-time values the program handles

    [App.tsx] is TypeScript; its types are erased before it runs.  What
    [response.data] holds is whatever the transport decoded from the reply:
    a JSON value.  This file models those values and the ECMAScript
    operations the program applies to them: truthiness ([if (x)], [!x],
    [a && b], [a || b]), property reads ([x.k], [x?.k]), string conversion
    ([new Error(x)], [Array.prototype.join]) and number conversion with
    binary64 subtraction ([100 - x]).

    Numbers are IEEE-754 binary64 values, modelled by the Standard Library's
    [spec_float] at precision 53 and maximal exponent 1024.  The two
    conversions between numbers and decimal text and the wording of the
    engine's [TypeError] messages are left to the [Engine] class: every
    theorem holds for every engine. *)

From Stdlib Require Import ZArith SpecFloat Ascii.
From stdpp Require Import base tactics option list strings pretty.
From S2P Require Import Prelude.

(** ** Numbers: binary64 *)

Definition prec : Z := 53.
Definition emax : Z := 1024.

Definition number : Type := spec_float.

Definition num_of_Z (z : Z) : number := binary_normalize prec emax z 0 false.
Definition num_sub (x y : number) : number := SFsub prec emax x y.
Definition num_add (x y : number) : number := SFadd prec emax x y.
Definition num_div (x y : number) : number := SFdiv prec emax x y.
Definition num_valid (x : number) : bool := valid_binary prec emax x.
Definition num_nan : number := S754_nan.

(** [x <= y] and [x < y] on numbers: false when either is [NaN]. *)
Definition num_leb (x y : number) : bool := SFleb x y.
Definition num_ltb (x y : number) : bool := SFltb x y.

(** ToBoolean on a number: [+0], [-0] and [NaN] are falsy. *)
Definition num_truthy (x : number) : bool :=
  match x with
  | S754_zero _ | S754_nan => false
  | S754_infinity _ | S754_finite _ _ _ => true
  end.

#[global] Instance number_eq_dec : EqDecision number.
Proof. solve_decision. Defined.

(** ** Values *)

Unset Elimination Schemes.
Inductive JsValue : Type :=
| JUndefined
| JNull
| JBool (b : bool)
| JNumber (n : number)
| JString (s : string)
| JArray (items : list JsValue)
| JObject (fields : list (string * JsValue)).
Set Elimination Schemes.

(** Induction on values, with the hypothesis for every item of an array
    and every field of an object. *)
Definition JsValue_ind (P : JsValue → Prop)
    (Hundef : P JUndefined) (Hnull : P JNull)
    (Hbool : ∀ b, P (JBool b)) (Hnum : ∀ n, P (JNumber n))
    (Hstr : ∀ s, P (JString s))
    (Harr : ∀ items, Forall P items → P (JArray items))
    (Hobj : ∀ fields, Forall (λ kv, P kv.2) fields → P (JObject fields)) :
    ∀ v, P v :=
  fix go (v : JsValue) : P v :=
    match v with
    | JUndefined => Hundef
    | JNull => Hnull
    | JBool b => Hbool b
    | JNumber n => Hnum n
    | JString s => Hstr s
    | JArray items =>
        Harr items ((fix all (l : list JsValue) : Forall P l :=
                       match l with
                       | [] => Forall_nil_2 P
                       | x :: r => Forall_cons_2 P x r (go x) (all r)
                       end) items)
    | JObject fields =>
        Hobj fields ((fix all (l : list (string * JsValue)) : Forall (λ kv, P kv.2) l :=
                        match l with
                        | [] => Forall_nil_2 _
                        | kv :: r => Forall_cons_2 _ kv r (go kv.2) (all r)
                        end) fields)
    end.

#[global] Instance JsValue_eq_dec : EqDecision JsValue.
Proof.
  refine (fix go (x y : JsValue) {struct x} : Decision (x = y) :=
    match x, y with
    | JUndefined, JUndefined => left _
    | JNull, JNull => left _
    | JBool a, JBool b => cast_if (decide (a = b))
    | JNumber a, JNumber b => cast_if (decide (a = b))
    | JString a, JString b => cast_if (decide (a = b))
    | JArray a, JArray b => cast_if (@list_eq_dec _ go a b)
    | JObject a, JObject b => cast_if (@list_eq_dec _ (@prod_eq_dec _ _ _ go) a b)
    | _, _ => right _
    end); clear go; abstract congruence.
Defined.

(** The [TypeError]s the engine raises for the operations modelled here. *)
Inductive TypeErrorKind : Type :=
| ReadOfNullish (base : JsValue) (key : string)
| NotAFunction (key : string)
| NoPrimitive.

(** What a [throw] or a rejected promise carries.  [ThrownError] is an
    [Error] object built with a known message ([new Error(m)], the
    transport's error); [ThrownTypeError] is raised by the engine, which
    words its message; [ThrownValue] is any value that is not an [Error]. *)
Inductive Thrown : Type :=
| ThrownError (message : string)
| ThrownTypeError (kind : TypeErrorKind)
| ThrownValue (v : JsValue).

#[global] Instance TypeErrorKind_eq_dec : EqDecision TypeErrorKind.
Proof. solve_decision. Defined.

#[global] Instance Thrown_eq_dec : EqDecision Thrown.
Proof. solve_decision. Defined.

Notation Throws := (result Thrown).

(** The part of the host the program relies on without fixing it. *)
Class Engine : Type := {
  number_to_string : number → string;
  string_to_number : string → number;
  type_error_message : TypeErrorKind → string;
}.

(** ** Truthiness and property reads *)

(** ToBoolean. *)
Definition truthy (v : JsValue) : bool :=
  match v with
  | JUndefined | JNull => false
  | JBool b => b
  | JNumber n => num_truthy n
  | JString s => negb (String.eqb s "")
  | JArray _ | JObject _ => true
  end.

Definition truthy_string (s : string) : bool := negb (String.eqb s "").

Definition is_nullish (v : JsValue) : bool :=
  match v with
  | JUndefined | JNull => true
  | _ => false
  end.

(** The own property [k] of a decoded object: the first binding of [k]. *)
Fixpoint lookup_field (k : string) (fields : list (string * JsValue)) : option JsValue :=
  match fields with
  | [] => None
  | (k', v) :: rest => if String.eqb k k' then Some v else lookup_field k rest
  end.

Definition has_field (k : string) (fields : list (string * JsValue)) : bool :=
  match lookup_field k fields with
  | Some _ => true
  | None => false
  end.

(** [v.k] for a key that no prototype defines (every key the program reads
    is such a key): a [TypeError] on [null] and [undefined], the own
    property of an object, [undefined] on everything else. *)
Definition get_prop (v : JsValue) (k : string) : Throws JsValue :=
  match v with
  | JUndefined | JNull => Throw (ThrownTypeError (ReadOfNullish v k))
  | JObject fields => Ok (default JUndefined (lookup_field k fields))
  | JBool _ | JNumber _ | JString _ | JArray _ => Ok JUndefined
  end.

(** [v?.k]: [undefined] when [v] is [null] or [undefined]. *)
Definition get_prop_opt (v : JsValue) (k : string) : JsValue :=
  match v with
  | JObject fields => default JUndefined (lookup_field k fields)
  | _ => JUndefined
  end.

(** ** Conversions *)

Fixpoint join_strings (sep : string) (parts : list string) : string :=
  match parts with
  | [] => ""
  | [s] => s
  | s :: rest => s +:+ sep +:+ join_strings sep rest
  end.

Section WithEngine.
Context {engine : Engine}.

(** ToString.  An array prints as its elements joined by [","], [null]
    and [undefined] elements as the empty string.  A decoded object
    prints as ["[object Object]"] unless it has an own ["toString"]
    property, which is data and not callable: then no conversion to a
    primitive exists and the engine throws. *)
Fixpoint to_string (v : JsValue) : Throws string :=
  match v with
  | JUndefined => Ok "undefined"
  | JNull => Ok "null"
  | JBool b => Ok (if b then "true" else "false")
  | JNumber n => Ok (number_to_string n)
  | JString s => Ok s
  | JArray items =>
      parts ← traverse (λ x, if is_nullish x then Ok "" else to_string x) items;
      Ok (join_strings "," parts)
  | JObject fields =>
      if has_field "toString" fields
      then Throw (ThrownTypeError NoPrimitive)
      else Ok "[object Object]"
  end.

(** One element of [Array.prototype.join]. *)
Definition join_item (x : JsValue) : Throws string :=
  if is_nullish x then Ok "" else to_string x.

(** [items.join(sep)] on an array. *)
Definition array_join (sep : string) (items : list JsValue) : Throws string :=
  parts ← traverse join_item items; Ok (join_strings sep parts).

(** ToNumber.  Objects and arrays convert through their string. *)
Definition to_number (v : JsValue) : Throws number :=
  match v with
  | JUndefined => Ok num_nan
  | JNull => Ok (num_of_Z 0)
  | JBool b => Ok (num_of_Z (if b then 1 else 0))
  | JNumber n => Ok n
  | JString s => Ok (string_to_number s)
  | JArray _ | JObject _ => s ← to_string v; Ok (string_to_number s)
  end.

(** [a - b]. *)
Definition js_sub (a b : JsValue) : Throws number :=
  x ← to_number a; y ← to_number b; Ok (num_sub x y).

(** [err instanceof Error ? err.message : fallback]. *)
Definition message_or (fallback : string) (err : Thrown) : string :=
  match err with
  | ThrownError m => m
  | ThrownTypeError k => type_error_message k
  | ThrownValue _ => fallback
  end.

(** [new Error(v)] for a [v] that is not [undefined]: the message is
    ToString of [v]; a failing conversion throws in its place. *)
Definition new_Error (v : JsValue) : Thrown :=
  match to_string v with
  | Ok m => ThrownError m
  | Throw e => e
  end.

End WithEngine.

(** ** A sample engine

    For evaluating the model on concrete inputs.  It prints integral
    numbers in decimal, reads decimal numerals without sign or fraction,
    and words its [TypeError]s as V8 does.  Other numbers print as ["NaN"]
    and other text reads as [NaN]: the examples do not use them, and no
    theorem depends on this instance. *)

Definition num_to_Z (x : number) : option Z :=
  match x with
  | S754_zero _ => Some 0%Z
  | S754_finite sg m e =>
      let z := cond_Zopp sg (Z.pos m) in
      if (0 <=? e)%Z then Some (z * 2 ^ e)%Z
      else if (Z.pos m mod 2 ^ (- e) =? 0)%Z then Some (z / 2 ^ (- e))%Z
      else None
  | S754_infinity _ | S754_nan => None
  end.

Definition sample_number_to_string (x : number) : string :=
  match x with
  | S754_infinity false => "Infinity"
  | S754_infinity true => "-Infinity"
  | _ => match num_to_Z x with Some z => pretty z | None => "NaN" end
  end.

Definition digit_of (c : ascii) : option Z :=
  let n := Z.of_N (N_of_ascii c) in
  if ((48 <=? n) && (n <=? 57))%Z then Some (n - 48)%Z else None.

Fixpoint read_digits (acc : Z) (s : string) : option Z :=
  match s with
  | EmptyString => Some acc
  | String c rest =>
      match digit_of c with
      | Some d => read_digits (10 * acc + d)%Z rest
      | None => None
      end
  end.

Definition sample_string_to_number (s : string) : number :=
  match read_digits 0 s with
  | Some z => num_of_Z z
  | None => num_nan
  end.

Definition sample_type_error_message (k : TypeErrorKind) : string :=
  match k with
  | ReadOfNullish base key =>
      "Cannot read properties of "
      +:+ (match base with JNull => "null" | _ => "undefined" end)
      +:+ " (reading '" +:+ key +:+ "')"
  | NotAFunction key => key +:+ " is not a function"
  | NoPrimitive => "Cannot convert object to primitive value"
  end.

Definition sample_engine : Engine :=
  {| number_to_string := sample_number_to_string;
     string_to_number := sample_string_to_number;
     type_error_message := sample_type_error_message |}.

(** ** Facts about values *)

Lemma truthy_not_nullish v : truthy v = true → is_nullish v = false.
Proof. by destruct v. Qed.

Lemma truthy_string_spec s : truthy_string s = true ↔ s ≠ "".
Proof.
  unfold truthy_string. destruct (String.eqb_spec s ""); naive_solver.
Qed.

Lemma get_prop_not_nullish v k :
  is_nullish v = false → get_prop v k = Ok (get_prop_opt v k).
Proof. by destruct v. Qed.

Lemma get_prop_nullish v k :
  is_nullish v = true → get_prop v k = Throw (ThrownTypeError (ReadOfNullish v k)).
Proof. by destruct v. Qed.

Lemma get_prop_truthy v k : truthy v = true → get_prop v k = Ok (get_prop_opt v k).
Proof. intros. by apply get_prop_not_nullish, truthy_not_nullish. Qed.

Section EngineFacts.
Context {engine : Engine}.

Lemma array_join_strings sep (l : list string) :
  array_join sep (JString <$> l) = Ok (join_strings sep l).
Proof.
  unfold array_join.
  assert (traverse join_item (JString <$> l) = Ok l) as ->; [|done].
  induction l as [|s rest IH]; [done|].
  rewrite fmap_cons. cbn [traverse]. by rewrite IH.
Qed.

End EngineFacts.
