(* ===== verification/Binary64.v ===== *)
(** * Binary64: the arithmetic of numbers, as rounding of exact values

    The numbers of [JsValue] are [SpecFloat]'s binary64, and [num_add] and
    [num_sub] are its [SFadd] and [SFsub]: shifts of mantissas, a sticky
    bit, a rounding decision on two bits.  This file says what they
    compute.  The value of a finite number is taken in units of [2^-1074],
    the least positive number, so that every value is an integer;
    [round_units] is round-to-nearest-even on such values and
    [round_number] the number it denotes; [overflow] turns a number beyond
    the greatest exponent into an infinity.

    The lemmas: [SpecFloat]'s right shift computes quotient, rounding bit
    and sticky bit ([iter_shr_1]); its rounding decision is [rne]
    ([round_shr_state]); [binary_round] is [round_number] with [overflow]
    ([binary_round_units]); therefore the sum and the difference of
    finite numbers are zero or the rounded exact sum and difference
    ([num_add_signed], [num_sub_signed], and [num_add_units],
    [num_sub_units] for positive operands).  Comparison of valid numbers
    is comparison of values ([compare_units]); rounding yields valid
    numbers ([round_number_valid], [overflow_round_valid]), so the valid
    numbers are closed under both operations ([num_sub_valid],
    [num_add_valid]); a value that is a multiple of its last place is
    left by rounding ([round_units_exact]), which gives Sterbenz's lemma
    ([sterbenz]).  [Chart] and [Types] use them. *)

From Stdlib Require Import ZArith Lia SpecFloat.
From stdpp Require Import base tactics numbers.
From S2P Require Import Prelude JsValue.

Local Open Scope Z_scope.

(** The value [m * 2^e] in units of [2^-1074]. *)
Definition scaled (m : positive) (e : Z) : Z := Z.pos m * 2 ^ (e + 1074).

(** The value of a finite number in units; 0 for the others. *)
Definition units (x : number) : Z :=
  match x with
  | S754_finite false m e => scaled m e
  | S754_finite true m e => - scaled m e
  | _ => 0
  end.

(** A positive finite number whose exponent is at least the least one. *)
Definition in_units (x : number) : Prop :=
  match x with
  | S754_finite false _ e => -1074 ≤ e
  | _ => False
  end.

(** A finite number of either sign whose exponent is at least the least
    one: the numbers whose value [units] gives. *)
Definition finite_units (x : number) : Prop :=
  match x with
  | S754_finite _ _ e => -1074 ≤ e
  | _ => False
  end.

(** [m / 2^k] rounded to the nearest integer, ties to even. *)
Definition rne (m k : Z) : Z :=
  let q := m / 2 ^ k in
  match 2 * (m mod 2 ^ k) ?= 2 ^ k with
  | Lt => q
  | Eq => if Z.even q then q else q + 1
  | Gt => q + 1
  end.

(** The exponent, in units, of the last place of a value: what is below
    bit 53 from the top is rounded away. *)
Definition ulp_exp (v : Z) : Z := Z.max (Z.log2 v + 1 - 53) 0.

(** A value rounded to a representable one. *)
Definition round_units (v : Z) : Z := rne v (ulp_exp v) * 2 ^ ulp_exp v.

(** The number of sign [s] with mantissa [m] at the place [k]; a mantissa
    that rounding carried to [2^53] moves up one place. *)
Definition pack (s : bool) (m k : Z) : number :=
  if m =? 2 ^ 53 then S754_finite s (Z.to_pos (2 ^ 52)) (k + 1 - 1074)
  else S754_finite s (Z.to_pos m) (k - 1074).

(** The number of sign [s] a magnitude rounds to. *)
Definition round_number (s : bool) (v : Z) : number :=
  pack s (rne v (ulp_exp v)) (ulp_exp v).

(** A number whose exponent is beyond the greatest is an infinity. *)
Definition overflow (x : number) : number :=
  match x with
  | S754_finite s m e => if e <=? 971 then x else S754_infinity s
  | _ => x
  end.

(** The record [shr] holds after [k] shifts of [m]: the quotient, the
    bit shifted out last, and whether anything was shifted out before. *)
Definition shr_state (m k : Z) : shr_record :=
  {| shr_m := m / 2 ^ k;
     shr_r := negb (2 * (m mod 2 ^ k) <? 2 ^ k);
     shr_s := negb ((m mod 2 ^ k =? 0) || (2 * (m mod 2 ^ k) =? 2 ^ k)) |}.

(** ** Digits and exponents *)

Lemma digits2_pos_size p : digits2_pos p = Pos.size p.
Proof. induction p; simpl; congruence. Qed.

Lemma digits2_log2 p : Z.pos (digits2_pos p) = Z.log2 (Z.pos p) + 1.
Proof.
  rewrite digits2_pos_size. destruct p; simpl; rewrite ?Pos2Z.inj_succ; lia.
Qed.

Lemma Zdigits2_log2 m : 0 < m → Zdigits2 m = Z.log2 m + 1.
Proof. destruct m; try lia. intros _. apply digits2_log2. Qed.

Lemma fexp_eq d : fexp prec emax d = Z.max (d - 53) (-1074).
Proof. reflexivity. Qed.

Lemma log2_bounds m : 0 < m → 2 ^ Z.log2 m ≤ m < 2 ^ (Z.log2 m + 1).
Proof. intros Hm. apply Z.log2_spec, Hm. Qed.

(** ** Shifting right *)

Lemma div_mod_double X q r q' b :
  0 < X → 0 ≤ r < X → q = 2 * q' + b → 0 ≤ b < 2 →
  (X * q + r) / (2 * X) = q' ∧ (X * q + r) mod (2 * X) = r + X * b.
Proof.
  intros HX Hr -> Hb.
  assert (0 ≤ r + X * b < 2 * X) by nia.
  split; symmetry.
  - apply (Z.div_unique_pos _ _ _ (r + X * b)); lia.
  - apply (Z.mod_unique_pos _ _ q'); lia.
Qed.

Lemma shr_state_0 m : shr_state m 0 = shr_record_of_loc m loc_Exact.
Proof.
  unfold shr_state. rewrite Z.pow_0_r, Z.div_1_r, Z.mod_1_r. reflexivity.
Qed.

Lemma shr_1_step X q r :
  0 < X → 0 ≤ q → 0 ≤ r < X →
  shr_1 {| shr_m := q; shr_r := negb (2 * r <? X);
           shr_s := negb ((r =? 0) || (2 * r =? X)) |} =
  {| shr_m := (X * q + r) / (2 * X);
     shr_r := negb (2 * ((X * q + r) mod (2 * X)) <? 2 * X);
     shr_s := negb (((X * q + r) mod (2 * X) =? 0)
                    || (2 * ((X * q + r) mod (2 * X)) =? 2 * X)) |}.
Proof.
  intros HX Hq Hr.
  assert (∃ q' b, q = 2 * q' + b ∧ 0 ≤ b < 2 ∧
            shr_1 {| shr_m := q; shr_r := negb (2 * r <? X);
                     shr_s := negb ((r =? 0) || (2 * r =? X)) |} =
            {| shr_m := q'; shr_r := negb (b =? 0); shr_s := negb (r =? 0) |})
    as (q' & b & Hqb & Hb & ->).
  { destruct q as [|[p|p|]|p];
      [exists 0, 0|exists (Z.pos p), 1|exists (Z.pos p), 0|exists 0, 1|lia];
      (split; [lia|split; [lia|]]); simpl; f_equal; cases_Z; simpl; lia. }
  destruct (div_mod_double X q r q' b) as [-> ->]; [lia..|].
  assert (b = 0 ∨ b = 1) as [-> | ->] by lia;
    f_equal; cases_Z; simpl; first [reflexivity | lia].
Qed.

Lemma shr_1_state m k : 0 ≤ m → 0 ≤ k → shr_1 (shr_state m k) = shr_state m (k + 1).
Proof.
  intros Hm Hk. unfold shr_state.
  rewrite Z.pow_add_r, Z.pow_1_r, (Z.mul_comm _ 2) by lia.
  pow2 k. set (X := 2 ^ k) in *.
  pose proof (Z.mod_pos_bound m X) as Hr. pose proof (Z.div_pos m X) as Hq.
  pose proof (Z.div_mod m X) as Hdm.
  set (q := m / X) in *. set (r := m mod X) in *. clearbody q r.
  rewrite Hdm by lia. apply shr_1_step; lia.
Qed.

Lemma iter_pos_iter {A} (f : A → A) p x : SpecFloat.iter_pos f p x = Pos.iter f x p.
Proof.
  revert x. induction p as [p IH|p IH|]; intros x; simpl; [|by rewrite !IH|done].
  by rewrite !IH, !Pos.iter_swap.
Qed.

Lemma iter_shr_1 m p :
  0 ≤ m → SpecFloat.iter_pos shr_1 p (shr_state m 0) = shr_state m (Z.pos p).
Proof.
  intros Hm. rewrite iter_pos_iter.
  induction p as [|p IH] using Pos.peano_ind.
  - apply (shr_1_state m 0); lia.
  - rewrite Pos.iter_succ, IH, Pos2Z.inj_succ. apply shr_1_state; lia.
Qed.

(** [k] shifts of an exact [m], when [k] is positive. *)
Lemma shr_exact m e k :
  0 ≤ m → 0 < k →
  shr (shr_record_of_loc m loc_Exact) e k = (shr_state m k, e + k).
Proof.
  intros Hm Hk. destruct k as [|p|p]; try lia.
  unfold shr. by rewrite <-shr_state_0, iter_shr_1.
Qed.

(** Rounding the shifted record is rounding the quotient to nearest even. *)
Lemma round_shr_state m k :
  round_nearest_even (shr_m (shr_state m k)) (loc_of_shr_record (shr_state m k))
  = rne m k.
Proof.
  unfold rne, shr_state. cbn [shr_m loc_of_shr_record].
  cases_Z; simpl; first [reflexivity | lia].
Qed.

(** ** Rounding to nearest even *)

Lemma rne_exact q k : 0 ≤ k → rne (q * 2 ^ k) k = q.
Proof.
  intros Hk. pow2 k. unfold rne.
  rewrite Z.div_mul, Z.mod_mul by lia. cases_Z; lia.
Qed.

Lemma rne_scale n j k : 0 ≤ j → 0 ≤ k → rne (n * 2 ^ j) (k + j) = rne n k.
Proof.
  intros Hj Hk. pow2 j. pow2 k.
  unfold rne. rewrite Z.pow_add_r by lia.
  rewrite Z.div_mul_cancel_r, Z.mul_mod_distr_r by lia.
  by rewrite Z.mul_assoc, <-Zmult_compare_compat_r by lia.
Qed.

(** The rounded value is within half a place of the value. *)
Lemma rne_error m k :
  0 ≤ k → 2 * Z.abs (rne m k * 2 ^ k - m) ≤ 2 ^ k.
Proof.
  intros Hk. pow2 k. unfold rne.
  set (X := 2 ^ k) in *.
  pose proof (Z.div_mod m X) as Hdm. pose proof (Z.mod_pos_bound m X) as Hr.
  cases_Z; [destruct (Z.even _)|..]; nia.
Qed.

Lemma rne_lower m k : 0 ≤ k → m / 2 ^ k ≤ rne m k.
Proof. intros Hk. unfold rne. cases_Z; [destruct (Z.even _)|..]; lia. Qed.

(** A value within half a place of an even multiple rounds to it. *)
Lemma rne_near q d k :
  0 ≤ k → Z.even q = true → 2 * Z.abs d ≤ 2 ^ k → rne (q * 2 ^ k + d) k = q.
Proof.
  intros Hk Hq Hd. pow2 k. unfold rne.
  set (X := 2 ^ k) in *.
  destruct (Z.le_gt_cases 0 d) as [Hpos | Hneg].
  - assert ((q * X + d) / X = q ∧ (q * X + d) mod X = d) as [-> ->].
    { split; symmetry;
        [apply (Z.div_unique_pos _ _ _ d) | apply (Z.mod_unique_pos _ _ q)]; lia. }
    rewrite Hq. cases_Z; lia.
  - assert ((q * X + d) / X = q - 1 ∧ (q * X + d) mod X = X + d) as [-> ->].
    { split; symmetry;
        [apply (Z.div_unique_pos _ _ _ (X + d)) | apply (Z.mod_unique_pos _ _ (q - 1))]; lia. }
    rewrite Z.even_sub, Hq. simpl. cases_Z; lia.
Qed.

Lemma rne_upper m k : rne m k ≤ m / 2 ^ k + 1.
Proof. unfold rne. cases_Z; [destruct (Z.even _)|..]; lia. Qed.

(** The quotient that keeps the 53 leading bits. *)
Lemma leading_bits m :
  52 ≤ Z.log2 m → 2 ^ 52 ≤ m / 2 ^ (Z.log2 m - 52) < 2 ^ 53.
Proof.
  intros Hd. assert (0 < m) as Hm.
  { destruct (Z.le_gt_cases m 0) as [Hle | ?]; [|done]. apply Z.log2_nonpos in Hle. lia. }
  pose proof (log2_bounds m Hm) as Hb.
  replace (Z.log2 m + 1) with (53 + (Z.log2 m - 52)) in Hb by lia.
  replace (Z.log2 m) with (52 + (Z.log2 m - 52)) in Hb at 1 by lia.
  rewrite !Z.pow_add_r in Hb by lia.
  pow2 (Z.log2 m - 52).
  split; [apply Z.div_le_lower_bound | apply Z.div_lt_upper_bound]; lia.
Qed.

(** ** The rounding of [SpecFloat] *)

(** A mantissa already in its place is not shifted. *)
Lemma shr_fexp_canonical m e :
  fexp prec emax (Zdigits2 m + e) = e →
  shr_fexp prec emax m e loc_Exact = (shr_record_of_loc m loc_Exact, e).
Proof. intros Hc. unfold shr_fexp. by rewrite Hc, Z.sub_diag. Qed.

Lemma shr_fexp_mantissa m e :
  2 ^ 52 ≤ m < 2 ^ 53 → -1074 ≤ e →
  shr_fexp prec emax m e loc_Exact = (shr_record_of_loc m loc_Exact, e).
Proof.
  intros Hm He. apply shr_fexp_canonical.
  rewrite Zdigits2_log2, fexp_eq by lia.
  rewrite (Z.log2_unique m 52) by lia. lia.
Qed.

(** A mantissa carried to [2^53] moves up one place. *)
Lemma shr_fexp_carry e :
  -1074 ≤ e →
  shr_fexp prec emax (2 ^ 53) e loc_Exact = (shr_state (2 ^ 53) 1, e + 1).
Proof.
  intros He. unfold shr_fexp. rewrite fexp_eq.
  replace (Z.max _ _ - e) with 1 by (change (Zdigits2 (2 ^ 53)) with 54; lia).
  apply shr_exact; lia.
Qed.

(** What [binary_round_aux] does after its first rounding. *)
Lemma round_aux_finish s m e :
  2 ^ 52 ≤ m ≤ 2 ^ 53 → -1074 ≤ e →
  (let '(mrs, e') := shr_fexp prec emax m e loc_Exact in
   match shr_m mrs with
   | 0 => S754_zero s
   | Z.pos m' =>
       if e' <=? emax - prec then S754_finite s m' e' else S754_infinity s
   | Z.neg _ => S754_nan
   end) = overflow (pack s m (e + 1074)).
Proof.
  intros Hm He. unfold pack. change (emax - prec) with 971.
  destruct (Z.eqb_spec m (2 ^ 53)) as [-> | Hne].
  - rewrite shr_fexp_carry by done. cbn [shr_state shr_m overflow].
    change (2 ^ 53 / 2 ^ 1) with (Z.pos (Z.to_pos (2 ^ 52))). cbv iota beta.
    by replace (e + 1074 + 1 - 1074) with (e + 1) by lia.
  - rewrite shr_fexp_mantissa by lia.
    destruct m as [|p|p]; try lia. cbn [shr_record_of_loc shr_m overflow].
    rewrite Pos2Z.id. by replace (e + 1074 - 1074) with e by lia.
Qed.

(** Rounding a mantissa that is in its place: nothing changes. *)
Lemma round_aux_canonical s m e :
  fexp prec emax (Z.pos (digits2_pos m) + e) = e →
  binary_round_aux prec emax s (Z.pos m) e loc_Exact = overflow (S754_finite s m e).
Proof.
  intros Hc. unfold binary_round_aux.
  rewrite shr_fexp_canonical by done.
  cbn [shr_record_of_loc shr_m loc_of_shr_record round_nearest_even].
  by rewrite shr_fexp_canonical by done.
Qed.

(** Rounding a mantissa of more than 53 bits: the bits below the 53
    leading ones are rounded away, to nearest even. *)
Lemma round_aux_shift s n e :
  53 ≤ Z.log2 (Z.pos n) → -1074 ≤ e →
  binary_round_aux prec emax s (Z.pos n) e loc_Exact =
  overflow (pack s (rne (Z.pos n) (Z.log2 (Z.pos n) - 52))
                 (Z.log2 (Z.pos n) - 52 + e + 1074)).
Proof.
  intros Hd He. unfold binary_round_aux, shr_fexp.
  rewrite Zdigits2_log2, fexp_eq by lia.
  pose proof (leading_bits (Z.pos n)).
  set (k := Z.log2 (Z.pos n) - 52) in *.
  pose proof (rne_lower (Z.pos n) k). pose proof (rne_upper (Z.pos n) k).
  replace (Z.max _ _ - e) with k by lia.
  replace (k + e + 1074) with (e + k + 1074) by lia.
  rewrite shr_exact by lia. cbv iota beta. rewrite round_shr_state.
  apply round_aux_finish; lia.
Qed.

(** ** Aligning mantissas *)

Lemma iter_xO m d : Z.pos (Pos.iter xO m d) = Z.pos m * 2 ^ Z.pos d.
Proof.
  induction d as [|d IH] using Pos.peano_ind; [simpl; lia|].
  rewrite Pos.iter_succ, Pos2Z.inj_xO, IH, Pos2Z.inj_succ, Z.pow_succ_r; lia.
Qed.

Lemma shl_align_fst m e e' :
  e' ≤ e → Z.pos (fst (shl_align m e e')) = Z.pos m * 2 ^ (e - e').
Proof.
  intros He. unfold shl_align. destruct (e' - e) as [|d|d] eqn:Hd; try lia.
  - replace (e - e') with 0 by lia. simpl fst. lia.
  - replace (e - e') with (Z.pos d) by lia. apply iter_xO.
Qed.

Lemma shl_align_snd m e e' : e' ≤ e → snd (shl_align m e e') = e'.
Proof.
  intros He. unfold shl_align. destruct (e' - e) as [|d|d] eqn:Hd; simpl; lia.
Qed.

Lemma shl_align_above m e e' : e ≤ e' → shl_align m e e' = (m, e).
Proof.
  intros He. unfold shl_align. by destruct (e' - e) as [|d|d] eqn:Hd; try lia.
Qed.

(** An aligned mantissa has the same value. *)
Lemma shl_align_units m e e' :
  -1074 ≤ e' ≤ e → Z.pos (fst (shl_align m e e')) * 2 ^ (e' + 1074) = scaled m e.
Proof.
  intros He. rewrite shl_align_fst by lia. unfold scaled.
  rewrite <-Z.mul_assoc, <-Z.pow_add_r by lia. do 2 f_equal. lia.
Qed.

(** ** Normalisation is rounding *)

Lemma scaled_pos n e : -1074 ≤ e → 0 < scaled n e.
Proof. intros He. pow2 (e + 1074). unfold scaled. nia. Qed.

Lemma scaled_log2 n e :
  -1074 ≤ e → Z.log2 (scaled n e) = Z.log2 (Z.pos n) + e + 1074.
Proof. intros He. unfold scaled. rewrite Z.log2_mul_pow2; lia. Qed.

Lemma binary_round_exact s n e :
  Z.log2 (Z.pos n) ≤ 52 → -1074 ≤ e →
  binary_round prec emax s n e = overflow (round_number s (scaled n e)).
Proof.
  intros Hd He. unfold binary_round, round_number, ulp_exp.
  rewrite scaled_log2, digits2_log2, fexp_eq by done.
  set (f := Z.max _ (-1074)).
  replace (Z.max _ 0) with (f + 1074) by lia.
  pose proof (shl_align_fst n e f) as Hm. pose proof (shl_align_snd n e f) as Hf.
  destruct (shl_align n e f) as [mz ez]. simpl in Hm, Hf. rewrite Hf by lia.
  assert (Z.log2 (Z.pos mz) = Z.log2 (Z.pos n) + (e - f)) as Hlog.
  { rewrite Hm, Z.log2_mul_pow2 by lia. lia. }
  rewrite round_aux_canonical by (rewrite ?digits2_log2, ?fexp_eq; lia).
  replace (scaled n e) with (Z.pos mz * 2 ^ (f + 1074)).
  - rewrite rne_exact by lia. unfold pack.
    assert (Z.pos mz < 2 ^ 53) by (apply Z.log2_lt_pow2; lia).
    destruct (Z.eqb_spec (Z.pos mz) (2 ^ 53)); [lia|]. do 2 f_equal; lia.
  - rewrite Hm by lia. unfold scaled.
    rewrite <-Z.mul_assoc, <-Z.pow_add_r by lia. do 2 f_equal. lia.
Qed.

Lemma binary_round_inexact s n e :
  53 ≤ Z.log2 (Z.pos n) → -1074 ≤ e →
  binary_round prec emax s n e = overflow (round_number s (scaled n e)).
Proof.
  intros Hd He. unfold binary_round, round_number, ulp_exp.
  rewrite scaled_log2, digits2_log2, fexp_eq by done.
  rewrite shl_align_above, round_aux_shift by lia.
  replace (Z.max _ 0) with (Z.log2 (Z.pos n) - 52 + (e + 1074)) by lia.
  unfold scaled. rewrite rne_scale by lia. do 2 f_equal. lia.
Qed.

(** [binary_round] is rounding to nearest even, with overflow. *)
Lemma binary_round_units s n e :
  -1074 ≤ e →
  binary_round prec emax s n e = overflow (round_number s (scaled n e)).
Proof.
  intros He. destruct (Z.le_gt_cases (Z.log2 (Z.pos n)) 52).
  - apply binary_round_exact; lia.
  - apply binary_round_inexact; lia.
Qed.

(** Normalising a non-zero integer at an exponent is rounding its value,
    with its sign. *)
Lemma binary_normalize_units z e :
  z ≠ 0 → -1074 ≤ e →
  binary_normalize prec emax z e false =
  overflow (round_number (z <? 0) (Z.abs z * 2 ^ (e + 1074))).
Proof.
  intros Hz He. destruct z as [|n|n]; [done|..]; by apply binary_round_units.
Qed.

(** ** The value of a rounded number *)

Lemma ulp_exp_nonneg v : 0 ≤ ulp_exp v.
Proof. unfold ulp_exp. lia. Qed.

Lemma ulp_exp_below v : 0 < v → 2 ^ ulp_exp v ≤ v.
Proof.
  intros Hv. pose proof (Z.log2_nonneg v). pose proof (log2_bounds v Hv).
  transitivity (2 ^ Z.log2 v); [apply Z.pow_le_mono_r; unfold ulp_exp; lia | lia].
Qed.

Lemma rne_pos v : 0 < v → 0 < rne v (ulp_exp v).
Proof.
  intros Hv. pose proof (ulp_exp_nonneg v). pose proof (ulp_exp_below v Hv).
  pose proof (rne_lower v (ulp_exp v)).
  pow2 (ulp_exp v).
  assert (1 ≤ v / 2 ^ ulp_exp v) by (apply Z.div_le_lower_bound; lia). lia.
Qed.

Lemma units_pack m k : 0 < m → 0 ≤ k → units (pack false m k) = m * 2 ^ k.
Proof.
  intros Hm Hk. unfold pack. destruct (Z.eqb_spec m (2 ^ 53)) as [-> | _]; simpl units; unfold scaled.
  - replace (k + 1 - 1074 + 1074) with (1 + k) by lia.
    rewrite Z.pow_add_r by lia. lia.
  - rewrite Z2Pos.id by done. do 2 f_equal. lia.
Qed.

Lemma in_units_pack m k : 0 ≤ k → in_units (pack false m k).
Proof. intros Hk. unfold pack. destruct (m =? _); simpl; lia. Qed.

Lemma units_round_number v : 0 < v → units (round_number false v) = round_units v.
Proof. intros Hv. apply units_pack; [by apply rne_pos | apply ulp_exp_nonneg]. Qed.

Lemma in_units_round_number v : in_units (round_number false v).
Proof. apply in_units_pack, ulp_exp_nonneg. Qed.

(** A rounded number is finite and has the sign it was given. *)
Lemma round_number_finite s v : ∃ m e, round_number s v = S754_finite s m e.
Proof. unfold round_number, pack. destruct (_ =? _); by eexists _, _. Qed.

(** A rounded value is within half a last place of the value. *)
Lemma round_units_error v : 2 * Z.abs (round_units v - v) ≤ 2 ^ ulp_exp v.
Proof. apply rne_error, ulp_exp_nonneg. Qed.

Lemma ulp_exp_mono v w : 0 < v ≤ w → 2 ^ ulp_exp v ≤ 2 ^ ulp_exp w.
Proof.
  intros Hvw. pose proof (Z.log2_le_mono v w).
  apply Z.pow_le_mono_r; unfold ulp_exp; lia.
Qed.

(** ** Addition and subtraction *)

Lemma in_units_finite x : in_units x → finite_units x.
Proof. by destruct x as [| | |[] m e]. Qed.

Lemma in_units_pos x : in_units x → 0 < units x.
Proof. destruct x as [| | |[] m e]; try done. apply scaled_pos. Qed.

(** A mantissa aligned to a lesser exponent, with its sign, has the value
    of the number. *)
Lemma shl_align_signed s m e e' :
  -1074 ≤ e' ≤ e →
  cond_Zopp s (Z.pos (fst (shl_align m e e'))) * 2 ^ (e' + 1074)
  = units (S754_finite s m e).
Proof.
  intros He. pose proof (shl_align_units m e e' He).
  destruct s; cbn [cond_Zopp units]; lia.
Qed.

(** Normalising an integer mantissa of value [v]: zero, or [v] rounded
    with the sign of [v]. *)
Lemma binary_normalize_value z e v :
  -1074 ≤ e → z * 2 ^ (e + 1074) = v →
  binary_normalize prec emax z e false =
  if v =? 0 then S754_zero false
  else overflow (round_number (v <? 0) (Z.abs v)).
Proof.
  intros He <-. pow2 (e + 1074). destruct (Z.eq_dec z 0) as [-> | Hz]; [done|].
  rewrite binary_normalize_units, Z.abs_mul, (Z.abs_eq (2 ^ _)) by lia.
  destruct (Z.eqb_spec (z * 2 ^ (e + 1074)) 0); [nia|].
  do 2 f_equal. cases_Z; nia.
Qed.

Section Operations.
Context (x y : number) (Hx : finite_units x) (Hy : finite_units y).

(** The sum of two finite numbers is zero when their values cancel, and
    else their exact sum, rounded. *)
Lemma num_add_signed :
  num_add x y =
  let v := units x + units y in
  if v =? 0 then S754_zero false else overflow (round_number (v <? 0) (Z.abs v)).
Proof.
  destruct x as [| | |sx mx ex], y as [| | |sy my ey]; try done.
  cbn [finite_units] in *. unfold num_add, SFadd.
  apply binary_normalize_value; [lia|].
  by rewrite Z.mul_add_distr_r, !shl_align_signed by lia.
Qed.

(** The difference of two finite numbers is zero when their values are
    equal, and else their exact difference, rounded. *)
Lemma num_sub_signed :
  num_sub x y =
  let v := units x - units y in
  if v =? 0 then S754_zero false else overflow (round_number (v <? 0) (Z.abs v)).
Proof.
  destruct x as [| | |sx mx ex], y as [| | |sy my ey]; try done.
  cbn [finite_units] in *. unfold num_sub, SFsub.
  apply binary_normalize_value; [lia|].
  by rewrite Z.mul_sub_distr_r, !shl_align_signed by lia.
Qed.

End Operations.

(** On positive numbers: the sum is the rounded sum of the values. *)
Lemma num_add_units x y :
  in_units x → in_units y →
  num_add x y = overflow (round_number false (units x + units y)).
Proof.
  intros Hx Hy. rewrite num_add_signed by by apply in_units_finite.
  pose proof (in_units_pos x Hx). pose proof (in_units_pos y Hy). cbv zeta.
  rewrite Z.abs_eq by lia. by cases_Z; try lia.
Qed.

(** The difference of two distinct positive numbers is the rounded
    difference of their values, negative when the first is the lesser. *)
Lemma num_sub_units x y :
  in_units x → in_units y → units x ≠ units y →
  num_sub x y =
  overflow (round_number (units x <? units y) (Z.abs (units x - units y))).
Proof.
  intros Hx Hy Hne. rewrite num_sub_signed by by apply in_units_finite.
  cbv zeta. by cases_Z; try lia.
Qed.

(** ** Valid numbers *)

(** A finite number is valid when its exponent is the one its magnitude
    calls for, and within range. *)
Lemma valid_finite s m e :
  num_valid (S754_finite s m e) = true ↔
  e = Z.max (Z.log2 (Z.pos m) + e - 52) (-1074) ∧ e ≤ 971.
Proof.
  unfold num_valid, valid_binary, bounded, canonical_mantissa.
  rewrite andb_true_iff, Z.eqb_eq, Z.leb_le, digits2_log2, fexp_eq.
  unfold emax, prec. lia.
Qed.

Lemma valid_in_units m e :
  num_valid (S754_finite false m e) = true → in_units (S754_finite false m e).
Proof. rewrite valid_finite. simpl. lia. Qed.

Lemma valid_mantissa s m e :
  num_valid (S754_finite s m e) = true → Z.pos m < 2 ^ 53.
Proof. rewrite valid_finite. intros [He _]. apply Z.log2_lt_pow2; lia. Qed.

(** Above the least exponent the mantissa has all its 53 bits. *)
Lemma valid_normal s m e :
  num_valid (S754_finite s m e) = true → -1074 < e → 2 ^ 52 ≤ Z.pos m.
Proof.
  rewrite valid_finite. intros [He _] Hlt.
  pose proof (log2_bounds (Z.pos m) ltac:(lia)).
  replace (Z.log2 (Z.pos m)) with 52 in * by lia. lia.
Qed.

(** Of two valid numbers, the one with the lesser exponent is the lesser. *)
Lemma scaled_lt_exponent mx ex my ey :
  num_valid (S754_finite false mx ex) = true →
  num_valid (S754_finite false my ey) = true →
  ex < ey → scaled mx ex < scaled my ey.
Proof.
  intros Hx Hy Hlt. pose proof (valid_in_units _ _ Hx) as Hex. simpl in Hex.
  pose proof (valid_mantissa _ _ _ Hx). pose proof (valid_normal _ _ _ Hy ltac:(lia)).
  pow2 (ex + 1074).
  pose proof (Z.pow_le_mono_r 2 (ex + 1074 + 1) (ey + 1074) ltac:(lia) ltac:(lia)) as Hpow.
  rewrite Z.pow_add_r, Z.pow_1_r in Hpow by lia. unfold scaled. nia.
Qed.

(** Comparison of valid positive numbers is comparison of their values. *)
Lemma compare_units mx ex my ey :
  num_valid (S754_finite false mx ex) = true →
  num_valid (S754_finite false my ey) = true →
  SFcompare (S754_finite false mx ex) (S754_finite false my ey)
  = Some (scaled mx ex ?= scaled my ey).
Proof.
  intros Hx Hy. cbn [SFcompare]. f_equal.
  destruct (Z.compare_spec ex ey) as [-> | Hlt | Hgt]; symmetry.
  - pose proof (valid_in_units _ _ Hy) as He. simpl in He. unfold scaled.
    rewrite <-Zmult_compare_compat_r; [done|].
    apply Z.lt_gt, pow2_pos. lia.
  - by apply Z.compare_lt_iff, scaled_lt_exponent.
  - by apply Z.compare_gt_iff, scaled_lt_exponent.
Qed.

(** Valid positive numbers of the same value are the same number. *)
Lemma valid_units_inj mx ex my ey :
  num_valid (S754_finite false mx ex) = true →
  num_valid (S754_finite false my ey) = true →
  scaled mx ex = scaled my ey → S754_finite false mx ex = S754_finite false my ey.
Proof.
  intros Hx Hy Heq. pose proof (compare_units _ _ _ _ Hx Hy) as Hc.
  rewrite Heq, Z.compare_refl in Hc. cbn [SFcompare] in Hc.
  destruct (Z.compare_spec ex ey) as [-> | |]; try done.
  f_equal. apply Pos.compare_eq. by injection Hc.
Qed.

(** A rounded number has the exponent its magnitude calls for; it is in
    range when the value is below [2^1023]. *)
Lemma round_number_canonical s v :
  0 < v →
  ∃ m e, round_number s v = S754_finite s m e
         ∧ e = Z.max (Z.log2 (Z.pos m) + e - 52) (-1074)
         ∧ (v < 2 ^ 2097 → e ≤ 971).
Proof.
  intros Hv. pose proof (Z.log2_nonneg v). pose proof (Z.log2_lt_pow2 v 2097 Hv).
  unfold round_number, ulp_exp.
  destruct (Z.max_spec (Z.log2 v + 1 - 53) 0) as [[Hk ->] | [Hk ->]].
  - assert (v < 2 ^ 53) by (apply Z.log2_lt_pow2; lia).
    replace (rne v 0) with v by (rewrite <-(rne_exact v 0) at 1; [f_equal|]; lia).
    unfold pack. destruct (Z.eqb_spec v (2 ^ 53)); [lia|].
    eexists _, _. split; [done|]. rewrite Z2Pos.id; lia.
  - pose proof (leading_bits v ltac:(lia)) as Hq.
    replace (Z.log2 v + 1 - 53) with (Z.log2 v - 52) by lia.
    pose proof (rne_lower v (Z.log2 v - 52)). pose proof (rne_upper v (Z.log2 v - 52)).
    unfold pack. destruct (Z.eqb_spec (rne v (Z.log2 v - 52)) (2 ^ 53)).
    + eexists _, _. split; [done|].
      change (Z.log2 (Z.pos (Z.to_pos (2 ^ 52)))) with 52. lia.
    + eexists _, _. split; [done|]. rewrite Z2Pos.id by lia.
      rewrite (Z.log2_unique (rne v (Z.log2 v - 52)) 52); lia.
Qed.

(** Rounding yields a valid number as long as it does not overflow. *)
Lemma round_number_valid s v :
  0 < v < 2 ^ 2097 → num_valid (round_number s v) = true.
Proof.
  intros Hv. destruct (round_number_canonical s v) as (m & e & -> & Hc & He); [lia|].
  apply valid_finite. split; [done|]. apply He. lia.
Qed.

(** With overflow to infinity, rounding always yields a valid number. *)
Lemma overflow_round_valid s v :
  0 < v → num_valid (overflow (round_number s v)) = true.
Proof.
  intros Hv. destruct (round_number_canonical s v Hv) as (m & e & -> & Hc & _).
  simpl. destruct (Z.leb_spec e 971); [by apply valid_finite|done].
Qed.

Lemma overflow_valid x : num_valid x = true → overflow x = x.
Proof.
  destruct x as [| | |s m e]; try done. rewrite valid_finite. intros [_ He].
  simpl. by destruct (Z.leb_spec e 971); [|lia].
Qed.

(** Below [2^1023] rounding does not overflow. *)
Lemma overflow_round_number s v :
  0 < v < 2 ^ 2097 → overflow (round_number s v) = round_number s v.
Proof. intros Hv. by apply overflow_valid, round_number_valid. Qed.

(** Whatever the magnitude, the rounded number has its sign and is not
    zero: it compares with zero as its sign says. *)
Lemma overflow_round_number_sign s v :
  SFcompare (overflow (round_number s v)) (S754_zero false)
  = Some (if s then Lt else Gt).
Proof.
  destruct (round_number_finite s v) as (m & e & ->). simpl.
  by destruct (e <=? 971).
Qed.

(** [<=] and [<] on valid positive numbers are those of their values. *)
Lemma leb_units x y :
  in_units x → in_units y → num_valid x = true → num_valid y = true →
  num_leb x y = (units x <=? units y).
Proof.
  destruct x as [| | |[] mx ex], y as [| | |[] my ey]; try done. intros _ _ Hx Hy.
  unfold num_leb, SFleb, Z.leb. rewrite compare_units by done.
  simpl. by destruct (_ ?= _).
Qed.

Lemma ltb_units x y :
  in_units x → in_units y → num_valid x = true → num_valid y = true →
  num_ltb x y = (units x <? units y).
Proof.
  destruct x as [| | |[] mx ex], y as [| | |[] my ey]; try done. intros _ _ Hx Hy.
  unfold num_ltb, SFltb, Z.ltb. rewrite compare_units by done.
  simpl. by destruct (_ ?= _).
Qed.

(** ** Valid numbers are closed under the operations *)

Lemma valid_finite_units s m e :
  num_valid (S754_finite s m e) = true → finite_units (S754_finite s m e).
Proof. rewrite valid_finite. simpl. lia. Qed.

(** Zero or a rounded value: what the operations on finite numbers yield. *)
Lemma zero_or_rounded_valid v :
  num_valid (if v =? 0 then S754_zero false
             else overflow (round_number (v <? 0) (Z.abs v))) = true.
Proof. destruct (Z.eqb_spec v 0); [done|]. apply overflow_round_valid. lia. Qed.

(** Every integer converts to a valid number. *)
Lemma num_of_Z_valid z : num_valid (num_of_Z z) = true.
Proof.
  unfold num_of_Z. rewrite (binary_normalize_value z 0 (z * 2 ^ 1074)) by done.
  apply zero_or_rounded_valid.
Qed.

(** The difference of valid numbers is a valid number: a finite one, a
    zero, an infinity or [NaN], never a mantissa out of its format. *)
Lemma num_sub_valid x y :
  num_valid x = true → num_valid y = true → num_valid (num_sub x y) = true.
Proof.
  intros Hx Hy.
  destruct x as [sx|sx| |sx mx ex], y as [sy|sy| |sy my ey]; try done.
  - by destruct sx, sy.
  - by destruct sx, sy.
  - rewrite num_sub_signed by by apply valid_finite_units.
    apply zero_or_rounded_valid.
Qed.

(** The same for the sum. *)
Lemma num_add_valid x y :
  num_valid x = true → num_valid y = true → num_valid (num_add x y) = true.
Proof.
  intros Hx Hy.
  destruct x as [sx|sx| |sx mx ex], y as [sy|sy| |sy my ey]; try done.
  - by destruct sx, sy.
  - by destruct sx, sy.
  - rewrite num_add_signed by by apply valid_finite_units.
    apply zero_or_rounded_valid.
Qed.


(** ** Exact results *)

Lemma pow2_divide a b : 0 ≤ a ≤ b → (2 ^ a | 2 ^ b).
Proof.
  intros Hab. exists (2 ^ (b - a)). rewrite <-Z.pow_add_r by lia. f_equal. lia.
Qed.

Lemma ulp_exp_le v w : 0 < v ≤ w → ulp_exp v ≤ ulp_exp w.
Proof. intros Hvw. pose proof (Z.log2_le_mono v w). unfold ulp_exp. lia. Qed.

(** What is left of a value above its last place fits the mantissa. *)
Lemma above_ulp_exp v : 0 < v → 0 < v / 2 ^ ulp_exp v < 2 ^ 53.
Proof.
  intros Hv. pose proof (ulp_exp_below v Hv). pose proof (ulp_exp_nonneg v).
  pow2 (ulp_exp v). split; [apply Z.div_str_pos; lia|]. unfold ulp_exp in *.
  destruct (Z.max_spec (Z.log2 v + 1 - 53) 0) as [[Hk ->] | [Hk ->]].
  - rewrite Z.div_1_r. apply Z.log2_lt_pow2; lia.
  - replace (Z.log2 v + 1 - 53) with (Z.log2 v - 52) by lia.
    apply leading_bits. lia.
Qed.

(** Rounding at a place the value is a multiple of only divides. *)
Lemma rne_divide v k :
  0 ≤ k → (2 ^ k | v) → rne v k = v / 2 ^ k ∧ v / 2 ^ k * 2 ^ k = v.
Proof. intros Hk [q ->]. pow2 k. by rewrite rne_exact, Z.div_mul by lia. Qed.

(** A multiple of its last place is representable: rounding leaves it,
    and the number it rounds to has it as mantissa. *)
Lemma round_number_exact s v :
  0 < v → (2 ^ ulp_exp v | v) →
  round_number s v = S754_finite s (Z.to_pos (v / 2 ^ ulp_exp v)) (ulp_exp v - 1074).
Proof.
  intros Hv Hdiv. pose proof (above_ulp_exp v Hv).
  destruct (rne_divide v _ (ulp_exp_nonneg v) Hdiv) as [Hr _].
  unfold round_number, pack. rewrite Hr.
  by destruct (Z.eqb_spec (v / 2 ^ ulp_exp v) (2 ^ 53)); [lia|].
Qed.

Lemma round_units_exact v : (2 ^ ulp_exp v | v) → round_units v = v.
Proof.
  intros Hdiv. destruct (rne_divide v _ (ulp_exp_nonneg v) Hdiv) as [Hr Hm].
  unfold round_units. by rewrite Hr.
Qed.

(** The value of a valid number is a multiple of its last place, and
    below [2^2098]. *)
Lemma valid_units_multiple x :
  in_units x → num_valid x = true →
  (2 ^ ulp_exp (units x) | units x) ∧ Z.log2 (units x) ≤ 2097.
Proof.
  destruct x as [| | |[] m e]; try done. cbn [in_units units]. intros He Hv.
  apply valid_finite in Hv as [Hc Hmax].
  unfold ulp_exp. rewrite scaled_log2 by done. split; [|lia].
  replace (Z.max _ 0) with (e + 1074) by lia. by exists (Z.pos m).
Qed.

(** A representable value below [2^2098] does not overflow. *)
Lemma units_overflow_exact s v :
  0 < v → (2 ^ ulp_exp v | v) → Z.log2 v ≤ 2097 →
  overflow (round_number s v) = round_number s v.
Proof.
  intros Hv Hdiv Hlog. rewrite round_number_exact by done. simpl.
  destruct (Z.leb_spec (ulp_exp v - 1074) 971); [done|]. unfold ulp_exp in *. lia.
Qed.

(** The difference of two values, each a multiple of its last place, of
    which the greater is at most twice the lesser, is such a multiple. *)
Lemma difference_multiple c p :
  0 < p < c → c ≤ 2 * p →
  (2 ^ ulp_exp p | p) → (2 ^ ulp_exp c | c) → (2 ^ ulp_exp (c - p) | c - p).
Proof.
  intros Hp Hhalf Hdp Hdc. pose proof (ulp_exp_nonneg (c - p)).
  pose proof (ulp_exp_le (c - p) p ltac:(lia)). pose proof (ulp_exp_le p c ltac:(lia)).
  etrans; [apply (pow2_divide _ (ulp_exp p)); lia|].
  apply Z.divide_sub_r; [|done]. etrans; [apply pow2_divide|done]. lia.
Qed.

(** Sterbenz's lemma: the difference of two valid positive numbers, the
    greater at most twice the lesser, is computed without rounding. *)
Lemma sterbenz x y :
  in_units x → in_units y → num_valid x = true → num_valid y = true →
  units y < units x ≤ 2 * units y →
  units (num_sub x y) = units x - units y.
Proof.
  intros Hx Hy Vx Vy Hxy. pose proof (in_units_pos y Hy).
  destruct (valid_units_multiple x Hx Vx) as [Dx _].
  destruct (valid_units_multiple y Hy Vy) as [Dy Ly].
  pose proof (difference_multiple (units x) (units y) ltac:(lia) ltac:(lia) Dy Dx) as Hd.
  pose proof (Z.log2_le_mono (units x - units y) (units y) ltac:(lia)).
  rewrite num_sub_units by (done || lia).
  destruct (Z.ltb_spec (units x) (units y)); [lia|]. rewrite Z.abs_eq by lia.
  rewrite units_overflow_exact, units_round_number by (done || lia).
  by apply round_units_exact.
Qed.

(** ** On a sample *)

