(* ===== verification/Model.v ===== *)
(** * Model: the declared shape of an analysis result

    The interface [ExtractionResult] (src/src/App.tsx, lines 8-20) as
    records, and what it means for a run-time value to have that shape.
    The program never checks the shape: [setExtractedData] stores the
    response's [data] field as it came.  [decode] is the check the type
    annotation stands for, and [encode] builds the value a conforming
    service sends; the theorems of the other files that need a well-shaped
    result assume [decode] succeeds. *)

From Stdlib Require Import ZArith.
From stdpp Require Import base tactics option list strings.
From S2P Require Import Prelude JsValue.

Record SkillMatch : Type := mkSkillMatch {
  matching : list string;
  missing : list string;
  additional : list string;
  matchPercentage : number;
}.

Record ExtractionResult : Type := mkExtractionResult {
  name : string;
  skills : string;
  education : string;
  experience : string;
  dob : string;
  skillMatch : SkillMatch;
}.

#[global] Instance SkillMatch_eq_dec : EqDecision SkillMatch.
Proof. solve_decision. Defined.

#[global] Instance ExtractionResult_eq_dec : EqDecision ExtractionResult.
Proof. solve_decision. Defined.

(** ** From records to values *)

Definition encode_strings (l : list string) : JsValue :=
  JArray (JString <$> l).

Definition encode_skillMatch (m : SkillMatch) : JsValue :=
  JObject [("matching", encode_strings (matching m));
           ("missing", encode_strings (missing m));
           ("additional", encode_strings (additional m));
           ("matchPercentage", JNumber (matchPercentage m))].

Definition encode (r : ExtractionResult) : JsValue :=
  JObject [("name", JString (name r));
           ("skills", JString (skills r));
           ("education", JString (education r));
           ("experience", JString (experience r));
           ("dob", JString (dob r));
           ("skillMatch", encode_skillMatch (skillMatch r))].

(** ** From values to records *)

Definition as_string (v : JsValue) : option string :=
  match v with
  | JString s => Some s
  | _ => None
  end.

Definition as_number (v : JsValue) : option number :=
  match v with
  | JNumber n => Some n
  | _ => None
  end.

Definition as_strings (v : JsValue) : option (list string) :=
  match v with
  | JArray items => mapM as_string items
  | _ => None
  end.

Definition decode_skillMatch (v : JsValue) : option SkillMatch :=
  m ← as_strings (get_prop_opt v "matching");
  i ← as_strings (get_prop_opt v "missing");
  a ← as_strings (get_prop_opt v "additional");
  p ← as_number (get_prop_opt v "matchPercentage");
  Some (mkSkillMatch m i a p).

Definition decode (v : JsValue) : option ExtractionResult :=
  n ← as_string (get_prop_opt v "name");
  s ← as_string (get_prop_opt v "skills");
  e ← as_string (get_prop_opt v "education");
  x ← as_string (get_prop_opt v "experience");
  d ← as_string (get_prop_opt v "dob");
  m ← decode_skillMatch (get_prop_opt v "skillMatch");
  Some (mkExtractionResult n s e x d m).

(** A value has the declared shape when [decode] accepts it. *)
Definition conforms (v : JsValue) : bool := bool_decide (is_Some (decode v)).

(** ** Samples *)

Definition sample_skillMatch : SkillMatch :=
  {| matching := ["python"; "sql"];
     missing := ["docker"];
     additional := ["rocq"];
     matchPercentage := num_of_Z 67 |}.

Definition sample_result : ExtractionResult :=
  {| name := "Ada Lovelace";
     skills := "python, sql, rocq";
     education := "BSc Mathematics";
     experience := "Analyst, 3 years";
     dob := "1815-12-10";
     skillMatch := sample_skillMatch |}.

(** ** Round trip and consequences of conforming *)

Lemma as_strings_encode l : as_strings (encode_strings l) = Some l.
Proof.
  unfold as_strings, encode_strings. apply mapM_Some.
  induction l; constructor; done.
Qed.

Lemma decode_skillMatch_encode m : decode_skillMatch (encode_skillMatch m) = Some m.
Proof.
  unfold decode_skillMatch, encode_skillMatch.
  cbn -[as_strings encode_strings].
  rewrite !as_strings_encode. by destruct m.
Qed.

Lemma decode_of_encode r : decode (encode r) = Some r.
Proof.
  unfold decode, encode. cbn -[decode_skillMatch encode_skillMatch].
  rewrite decode_skillMatch_encode. by destruct r.
Qed.


Lemma as_string_Some v s : as_string v = Some s ↔ v = JString s.
Proof. destruct v; naive_solver. Qed.

Lemma as_number_Some v n : as_number v = Some n ↔ v = JNumber n.
Proof. destruct v; naive_solver. Qed.

Lemma as_strings_Some v l : as_strings v = Some l ↔ v = encode_strings l.
Proof.
  split; [|intros ->; apply as_strings_encode].
  destruct v; try done. simpl. intros Hm. unfold encode_strings. f_equal.
  apply mapM_Some in Hm. induction Hm as [|x s xs ss Hx _ IH]; [done|].
  apply as_string_Some in Hx. by rewrite fmap_cons, IH, Hx.
Qed.

Lemma decode_skillMatch_Some v m :
  decode_skillMatch v = Some m ↔
  get_prop_opt v "matching" = encode_strings (matching m) ∧
  get_prop_opt v "missing" = encode_strings (missing m) ∧
  get_prop_opt v "additional" = encode_strings (additional m) ∧
  get_prop_opt v "matchPercentage" = JNumber (matchPercentage m).
Proof.
  unfold decode_skillMatch. rewrite <-!as_strings_Some, <-as_number_Some.
  split.
  - intros Hd. by simplify_option_eq.
  - intros (-> & -> & -> & ->). by destruct m.
Qed.

Lemma decode_Some v r :
  decode v = Some r ↔
  get_prop_opt v "name" = JString (name r) ∧
  get_prop_opt v "skills" = JString (skills r) ∧
  get_prop_opt v "education" = JString (education r) ∧
  get_prop_opt v "experience" = JString (experience r) ∧
  get_prop_opt v "dob" = JString (dob r) ∧
  decode_skillMatch (get_prop_opt v "skillMatch") = Some (skillMatch r).
Proof.
  unfold decode. rewrite <-!as_string_Some. split.
  - intros Hd. by simplify_option_eq.
  - intros (-> & -> & -> & -> & -> & ->). by destruct r.
Qed.

(** A value that decodes is an object, so it is truthy; and so is its
    [skillMatch]. *)
Lemma decode_skillMatch_object v m :
  decode_skillMatch v = Some m → ∃ fields, v = JObject fields.
Proof.
  rewrite decode_skillMatch_Some. intros (Hm & _).
  destruct v; try done. by eexists.
Qed.

Lemma decode_object v r : decode v = Some r → ∃ fields, v = JObject fields.
Proof.
  rewrite decode_Some. intros (Hn & _). destruct v; try done. by eexists.
Qed.
