(* ===== verification/Objects.v ===== *)
(** * Objects: values up to the order of their members

    A decoded object is kept as the list of its members in the order of
    the document, and a member is read by [lookup_field], which takes the
    first binding of a key.  The program never depends on that order: it
    reads members by name only.  This file makes the claim precise.  Two
    values are equivalent ([≡]) when they are the same up to what
    [lookup_field] returns for every key, at every depth; so are two
    objects that list the same members in another order, or that differ
    in a binding shadowed by an earlier one.

    The instances state that the reads and conversions of the program
    respect the equivalence ([truthy], [is_nullish], [get_prop_opt],
    [to_string], [new_Error]), and [decode_proper] that equivalent
    values decode into the same record, so that whatever is computed
    from the decoded record is the same for both. *)

From Stdlib Require Import ZArith.
From stdpp Require Import base tactics option list strings.
From S2P Require Import Prelude JsValue Model.

(** Equality up to lookup. *)
Inductive value_equiv : JsValue → JsValue → Prop :=
| equiv_undefined : value_equiv JUndefined JUndefined
| equiv_null : value_equiv JNull JNull
| equiv_bool b : value_equiv (JBool b) (JBool b)
| equiv_number n : value_equiv (JNumber n) (JNumber n)
| equiv_string s : value_equiv (JString s) (JString s)
| equiv_array xs ys :
    Forall2 value_equiv xs ys → value_equiv (JArray xs) (JArray ys)
| equiv_object fs gs :
    (∀ k, option_Forall2 value_equiv (lookup_field k fs) (lookup_field k gs)) →
    value_equiv (JObject fs) (JObject gs).

#[export] Instance JsValue_equiv : Equiv JsValue := value_equiv.

(** The keys of an object, in the order of the document. *)
Definition keys (fields : list (string * JsValue)) : list string := fields.*1.

(** The sample result with its members in another order, and with a
    second binding of [name] that the first shadows. *)
Definition sample_reordered : JsValue :=
  JObject [("skillMatch", encode_skillMatch sample_skillMatch);
           ("dob", JString "1815-12-10");
           ("name", JString "Ada Lovelace");
           ("experience", JString "Analyst, 3 years");
           ("education", JString "BSc Mathematics");
           ("skills", JString "python, sql, rocq");
           ("name", JString "Augusta")].

(** ** Lookup *)

Section Lookup.
Implicit Types (fs gs : list (string * JsValue)) (k : string) (v w : JsValue).

Lemma lookup_field_elem_of k fs v : lookup_field k fs = Some v → (k, v) ∈ fs.
Proof.
  induction fs as [|[k' y] rest IH]; [done|]. simpl. rewrite elem_of_cons.
  destruct (String.eqb_spec k k'); naive_solver.
Qed.

Lemma lookup_field_None k fs : lookup_field k fs = None ↔ k ∉ keys fs.
Proof.
  unfold keys. induction fs as [|[k' y] rest IH]; simpl.
  - split; [intros _ []%elem_of_nil|done].
  - rewrite not_elem_of_cons. destruct (String.eqb_spec k k'); naive_solver.
Qed.

(** With distinct keys, [lookup_field] finds every member. *)
Lemma lookup_field_NoDup k fs v :
  NoDup (keys fs) → (k, v) ∈ fs → lookup_field k fs = Some v.
Proof.
  unfold keys. induction fs as [|[k' y] rest IH]; [by intros _ []%elem_of_nil|].
  rewrite fmap_cons, NoDup_cons, elem_of_cons. simpl. intros [Hk' Hnd] [[= -> ->]|Hin].
  - by rewrite String.eqb_refl.
  - destruct (String.eqb_spec k k') as [->|_]; [|by apply IH].
    destruct Hk'. apply list_elem_of_fmap. by exists (k', v).
Qed.

(** A property of every member holds of what [lookup_field] finds. *)
Lemma lookup_field_Forall (P : JsValue → Prop) k fs v :
  Forall (λ kv, P kv.2) fs → lookup_field k fs = Some v → P v.
Proof.
  rewrite Forall_forall. intros Hall Hk.
  apply (Hall (k, v)), lookup_field_elem_of, Hk.
Qed.

End Lookup.

(** ** The equivalence *)

(** [Forall2] is transitive where the relation is through each element of
    the middle list. *)
Lemma Forall2_trans_mid {A} (R : relation A) (xs ys zs : list A) :
  Forall (λ y, ∀ x z, R x y → R y z → R x z) ys →
  Forall2 R xs ys → Forall2 R ys zs → Forall2 R xs zs.
Proof.
  intros Hall Hxy. revert zs. induction Hxy as [|x y xs ys Hx _ IH]; intros zs Hyz.
  - by inversion Hyz.
  - inversion Hyz as [|? z ? zs' Hy Hrest]; subst.
    apply Forall_cons in Hall as [Hmid Hall]. constructor; eauto.
Qed.

Lemma Forall2_sym_left {A} (R : relation A) (xs ys : list A) :
  Forall (λ x, ∀ y, R x y → R y x) xs → Forall2 R xs ys → Forall2 R ys xs.
Proof.
  intros Hall Hxy. induction Hxy as [|x y xs ys Hx _ IH]; [done|].
  apply Forall_cons in Hall as [Hsym Hall]. constructor; eauto.
Qed.

Lemma value_equiv_refl (v : JsValue) : v ≡ v.
Proof.
  induction v as [| | | | |items IH|fields IH] using JsValue_ind; try by constructor.
  - constructor. by apply Forall_Forall2_diag.
  - constructor. intros k. destruct (lookup_field k fields) as [x|] eqn:Hk; constructor.
    by apply (lookup_field_Forall (λ v, v ≡ v) k fields).
Qed.

Lemma value_equiv_sym (v : JsValue) : ∀ w, v ≡ w → w ≡ v.
Proof.
  induction v as [| | | | |items IH|fields IH] using JsValue_ind;
    intros w Hvw; inversion Hvw as [| | | | |? ys Hall|? gs Hall]; subst; try done.
  - constructor. by apply Forall2_sym_left.
  - constructor. intros k. specialize (Hall k).
    destruct (lookup_field k fields) as [x|] eqn:Hk; inversion Hall; subst; constructor.
    by apply (lookup_field_Forall (λ x, ∀ y, x ≡ y → y ≡ x) k fields x IH).
Qed.

Lemma value_equiv_trans (v : JsValue) : ∀ u w, u ≡ v → v ≡ w → u ≡ w.
Proof.
  induction v as [| | | | |items IH|fields IH] using JsValue_ind;
    intros u w Huv Hvw; inversion Huv; inversion Hvw; subst; try done.
  - constructor. by eapply Forall2_trans_mid.
  - constructor. intros k.
    match goal with
    | H1 : ∀ k, option_Forall2 _ _ (lookup_field k fields),
      H2 : ∀ k, option_Forall2 _ (lookup_field k fields) _ |- _ =>
        pose proof (H1 k) as Hl; pose proof (H2 k) as Hr
    end.
    destruct (lookup_field k fields) as [y|] eqn:Hk; inversion Hl; inversion Hr; subst;
      constructor.
    by apply (lookup_field_Forall (λ y, ∀ u w, u ≡ y → y ≡ w → u ≡ w) k fields y IH).
Qed.

#[export] Instance value_equiv_equivalence : Equivalence (≡@{JsValue}).
Proof.
  split.
  - intros v. apply value_equiv_refl.
  - intros v w. apply value_equiv_sym.
  - intros u v w. apply value_equiv_trans.
Qed.

(** ** What is equivalent *)

Section Equivalent.
Implicit Types (fs gs : list (string * JsValue)) (k : string) (v w : JsValue).

(** Objects whose lookups agree are equivalent. *)
Lemma equiv_same_lookup fs gs :
  (∀ k, lookup_field k fs = lookup_field k gs) → JObject fs ≡ JObject gs.
Proof.
  intros Hk. constructor. intros k. rewrite Hk.
  destruct (lookup_field k gs); constructor. apply value_equiv_refl.
Qed.

(** The order of the members does not matter when their keys are
    distinct. *)
Lemma equiv_permutation fs gs :
  NoDup (keys fs) → fs ≡ₚ gs → JObject fs ≡ JObject gs.
Proof.
  intros Hnd Hperm. apply equiv_same_lookup. intros k.
  assert (NoDup (keys gs)) as Hnd' by (unfold keys; by rewrite <-Hperm).
  destruct (lookup_field k fs) as [v|] eqn:Hf.
  - symmetry. apply lookup_field_NoDup; [done|].
    rewrite <-Hperm. by apply lookup_field_elem_of.
  - symmetry. apply lookup_field_None. apply lookup_field_None in Hf.
    unfold keys in *. by rewrite <-Hperm.
Qed.

(** A binding behind an earlier one of the same key does not matter. *)
Lemma equiv_shadowed fs gs k v :
  k ∈ keys fs → JObject (fs ++ (k, v) :: gs) ≡ JObject (fs ++ gs).
Proof.
  intros Hin. apply equiv_same_lookup. intros k'.
  induction fs as [|[k0 y] rest IH]; [by apply elem_of_nil in Hin|]. simpl.
  destruct (String.eqb_spec k' k0) as [->|Hne]; [done|].
  unfold keys in Hin. rewrite fmap_cons, elem_of_cons in Hin.
  destruct Hin as [->|Hin]; [|by apply IH]. simpl in *.
  clear IH. induction rest as [|[k1 z] rest IH]; simpl.
  - by destruct (String.eqb_spec k' k0).
  - by destruct (String.eqb k' k1).
Qed.

(** Equivalent primitives are equal. *)
Lemma equiv_string_inv s v : JString s ≡ v → v = JString s.
Proof. by inversion 1. Qed.

Lemma equiv_number_inv n v : JNumber n ≡ v → v = JNumber n.
Proof. by inversion 1. Qed.

Lemma equiv_strings_inv l v : encode_strings l ≡ v → v = encode_strings l.
Proof.
  unfold encode_strings. inversion 1 as [| | | | |? ys Hall|]; subst. f_equal.
  clear H. revert ys Hall. induction l as [|s l IH]; intros ys Hall.
  - by inversion Hall.
  - rewrite fmap_cons in *. inversion Hall as [|? y ? ys' Hs Hrest]; subst.
    by rewrite (equiv_string_inv _ _ Hs), (IH _ Hrest).
Qed.

End Equivalent.

(** ** The reads of the program respect the equivalence *)

#[export] Instance truthy_proper : Proper ((≡) ==> (=)) truthy.
Proof. by intros v w []. Qed.

#[export] Instance is_nullish_proper : Proper ((≡) ==> (=)) is_nullish.
Proof. by intros v w []. Qed.

#[export] Instance get_prop_opt_proper : Proper ((≡) ==> (=) ==> (≡)) get_prop_opt.
Proof.
  intros v w Hvw k ? <-. destruct Hvw as [| | | | | |fs gs Hall]; simpl;
    try apply value_equiv_refl.
  destruct (Hall k); [done|]. apply value_equiv_refl.
Qed.

(** ** Decoding respects the equivalence *)

Lemma get_prop_opt_equiv v w k : v ≡ w → get_prop_opt v k ≡ get_prop_opt w k.
Proof. intros Hvw. by apply get_prop_opt_proper. Qed.

(** A member that is a primitive or a list of strings in [v] is the same
    in an equivalent [w]. *)
Lemma member_equiv v w k x : v ≡ w → get_prop_opt v k = x → x ≡ get_prop_opt w k.
Proof. intros Hvw <-. by apply get_prop_opt_equiv. Qed.

Ltac same_member Hvw H :=
  first [apply equiv_strings_inv | apply equiv_number_inv | apply equiv_string_inv];
  exact (member_equiv _ _ _ _ Hvw H).

Lemma decode_skillMatch_equiv v w m :
  v ≡ w → decode_skillMatch v = Some m → decode_skillMatch w = Some m.
Proof.
  intros Hvw. rewrite !decode_skillMatch_Some. intros (Hm & Hi & Ha & Hp).
  split_and!; [same_member Hvw Hm | same_member Hvw Hi | same_member Hvw Ha
              | same_member Hvw Hp].
Qed.

Lemma decode_equiv v w r : v ≡ w → decode v = Some r → decode w = Some r.
Proof.
  intros Hvw. rewrite !decode_Some. intros (Hn & Hs & He & Hx & Hd & Hm).
  split_and!; [same_member Hvw Hn | same_member Hvw Hs | same_member Hvw He
              | same_member Hvw Hx | same_member Hvw Hd |].
  eapply decode_skillMatch_equiv; [|done]. by apply get_prop_opt_equiv.
Qed.

#[export] Instance decode_proper : Proper ((≡) ==> (=)) decode.
Proof.
  intros v w Hvw. destruct (decode v) as [r|] eqn:Hv.
  - symmetry. by apply (decode_equiv v).
  - destruct (decode w) as [r|] eqn:Hw; [|done].
    symmetry in Hvw. by rewrite (decode_equiv w v r Hvw Hw) in Hv.
Qed.

#[export] Instance conforms_proper : Proper ((≡) ==> (=)) conforms.
Proof. intros v w Hvw. unfold conforms. by rewrite (decode_proper v w Hvw). Qed.

(** ** Conversion to text respects the equivalence *)

Lemma traverse_Forall2 {E A B} (f : A → result E B) (xs ys : list A) :
  Forall2 (λ x y, f x = f y) xs ys → traverse f xs = traverse f ys.
Proof. induction 1 as [|x y xs ys Hxy _ IH]; [done|]. simpl. by rewrite Hxy, IH. Qed.

Section Conversions.
Context {engine : Engine}.

Lemma to_string_equiv (v : JsValue) : ∀ w, v ≡ w → to_string v = to_string w.
Proof.
  induction v as [| | | | |items IH|fields _] using JsValue_ind;
    intros w Hvw; inversion Hvw as [| | | | |? ys Hall|? gs Hall]; subst; try done.
  - simpl. rewrite (traverse_Forall2 _ items ys); [done|].
    clear Hvw. induction Hall as [|x y xs ys' Hxy _ IHall]; [done|].
    apply Forall_cons in IH as [Hx IH]. constructor; [|by apply IHall].
    rewrite (is_nullish_proper x y Hxy). destruct (is_nullish y); [done|by apply Hx].
  - simpl. unfold has_field. by destruct (Hall "toString").
Qed.

#[export] Instance to_string_proper : Proper ((≡) ==> (=)) to_string.
Proof. intros v w. apply to_string_equiv. Qed.

#[export] Instance new_Error_proper : Proper ((≡) ==> (=)) new_Error.
Proof. intros v w Hvw. unfold new_Error. by rewrite (to_string_equiv v w Hvw). Qed.

End Conversions.

(** The sample with its members in another order and a shadowed second
    name is equivalent to the sample. *)
Lemma sample_reordered_equiv : encode sample_result ≡ sample_reordered.
Proof.
  apply equiv_same_lookup. intros k. simpl.
  repeat match goal with
  | |- context [String.eqb k ?x] => destruct (String.eqb_spec k x) as [->|?]; [done|]
  end.
  done.
Qed.
