(* ===== verification/ViewState.v ===== *)
(** * ViewState: the component's reactive state

    The five [useState] cells of [App] (src/src/App.tsx, lines 23-27) as one
    record, with one setter per cell.  A setter called with a value
    replaces the cell and leaves the others alone; the program never uses
    the functional form of a setter, so the order of the calls of one
    handler is the order of the updates. *)

From stdpp Require Import base tactics option list strings.
From S2P Require Import Prelude JsValue.

(** A [File] of the browser, as far as the program looks at it: its name
    (rendered under the drop zone), its media type (what the drop zone
    filters on) and its content, which the program only forwards. *)
Record File : Type := mkFile {
  file_name : string;
  file_type : string;
  file_data : string;
}.

#[global] Instance File_eq_dec : EqDecision File.
Proof. solve_decision. Defined.

(** [resume] is [None] for both [null] and [undefined]: the program only
    tests it for truthiness.  [extractedData] is the value stored by
    [setExtractedData], whatever its shape: the declared type
    [ExtractionResult | null] is not checked when the program runs. *)
Record ViewState : Type := mkViewState {
  resume : option File;
  jobDescription : string;
  extractedData : JsValue;
  isLoading : bool;
  error : option string;
}.

#[global] Instance ViewState_eq_dec : EqDecision ViewState.
Proof. solve_decision. Defined.

(** The initial values passed to [useState]. *)
Definition initial_state : ViewState :=
  {| resume := None;
     jobDescription := "";
     extractedData := JNull;
     isLoading := false;
     error := None |}.

Definition setResume (v : option File) (s : ViewState) : ViewState :=
  {| resume := v;
     jobDescription := jobDescription s;
     extractedData := extractedData s;
     isLoading := isLoading s;
     error := error s |}.

Definition setJobDescription (v : string) (s : ViewState) : ViewState :=
  {| resume := resume s;
     jobDescription := v;
     extractedData := extractedData s;
     isLoading := isLoading s;
     error := error s |}.

Definition setExtractedData (v : JsValue) (s : ViewState) : ViewState :=
  {| resume := resume s;
     jobDescription := jobDescription s;
     extractedData := v;
     isLoading := isLoading s;
     error := error s |}.

Definition setIsLoading (v : bool) (s : ViewState) : ViewState :=
  {| resume := resume s;
     jobDescription := jobDescription s;
     extractedData := extractedData s;
     isLoading := v;
     error := error s |}.

Definition setError (v : option string) (s : ViewState) : ViewState :=
  {| resume := resume s;
     jobDescription := jobDescription s;
     extractedData := extractedData s;
     isLoading := isLoading s;
     error := v |}.

(** Truthiness of the [resume] cell. *)
Definition resume_truthy (r : option File) : bool :=
  match r with
  | Some _ => true
  | None => false
  end.
