(* ===== verification/Types.v ===== *)
(** * Types: the declared types, and what holds of the values at run time

    TypeScript checks [App.tsx] against the types it declares and then
    erases them.  This file gives those types a meaning on run-time
    values: [Ty] is the part of the type language the interface and the
    cell of the result are written in (lines 8-20 and 25), [has_type] says which values a type admits, with
    objects typed structurally (a value may have more members than its
    type names), and [check_type] decides it.  [ExtractionResult_ty] is
    the interface of lines 8-20, [extractedData_ty] the type of the cell
    of line 25.

    [wf_value] is the other property a decoded body has: every number in
    it is a valid binary64.  The theorems: [check_type] decides
    [has_type]; a value has the declared type exactly when [Model.decode]
    accepts it; typing is kept by further members; reads and conversions
    keep numbers valid, for an engine whose text-to-number conversion
    does ([EngineLaws]). *)

From Stdlib Require Import ZArith SpecFloat.
From stdpp Require Import base tactics option list strings.
From S2P Require Import Prelude JsValue Binary64 Model Objects ViewState.

(** ** The types the program declares *)

Unset Elimination Schemes.
Inductive Ty : Type :=
| TString
| TNumber
| TNull
| TArray (item : Ty)
| TObject (members : list (string * Ty))
| TUnion (a b : Ty).
Set Elimination Schemes.

(** Induction on types, with the hypothesis for every member of an object
    type. *)
Definition Ty_ind (P : Ty → Prop)
    (Hstr : P TString) (Hnum : P TNumber) (Hnull : P TNull)
    (Harr : ∀ t, P t → P (TArray t))
    (Hobj : ∀ members, Forall (λ m, P m.2) members → P (TObject members))
    (Hunion : ∀ a b, P a → P b → P (TUnion a b)) :
    ∀ t, P t :=
  fix go (t : Ty) : P t :=
    match t with
    | TString => Hstr
    | TNumber => Hnum
    | TNull => Hnull
    | TArray t => Harr t (go t)
    | TObject members =>
        Hobj members ((fix all (l : list (string * Ty)) : Forall (λ m, P m.2) l :=
                         match l with
                         | [] => Forall_nil_2 _
                         | m :: r => Forall_cons_2 _ m r (go m.2) (all r)
                         end) members)
    | TUnion a b => Hunion a b (go a) (go b)
    end.

(** The values a type admits.  An object type asks for each of its
    members; the value may have others. *)
Inductive has_type : JsValue → Ty → Prop :=
| ty_string s : has_type (JString s) TString
| ty_number n : has_type (JNumber n) TNumber
| ty_null : has_type JNull TNull
| ty_array items t :
    Forall (λ v, has_type v t) items → has_type (JArray items) (TArray t)
| ty_object fields members :
    Forall (λ m, ∃ v, lookup_field m.1 fields = Some v ∧ has_type v m.2) members →
    has_type (JObject fields) (TObject members)
| ty_union_l v a b : has_type v a → has_type v (TUnion a b)
| ty_union_r v a b : has_type v b → has_type v (TUnion a b).

(** The same, computed. *)
Fixpoint check_type (t : Ty) (v : JsValue) : bool :=
  match t, v with
  | TString, JString _ => true
  | TNumber, JNumber _ => true
  | TNull, JNull => true
  | TArray item, JArray items => forallb (check_type item) items
  | TObject members, JObject fields =>
      forallb (λ m, match lookup_field m.1 fields with
                    | Some x => check_type m.2 x
                    | None => false
                    end) members
  | TUnion a b, _ => check_type a v || check_type b v
  | _, _ => false
  end.

(** [skillMatch] of the interface (lines 14-19). *)
Definition skillMatch_ty : Ty :=
  TObject [("matching", TArray TString);
           ("missing", TArray TString);
           ("additional", TArray TString);
           ("matchPercentage", TNumber)].

(** [interface ExtractionResult] (lines 8-20). *)
Definition ExtractionResult_ty : Ty :=
  TObject [("name", TString);
           ("skills", TString);
           ("education", TString);
           ("experience", TString);
           ("dob", TString);
           ("skillMatch", skillMatch_ty)].

(** The type of the cell [extractedData] (line 25). *)
Definition extractedData_ty : Ty := TUnion ExtractionResult_ty TNull.

(** The state holds what its declaration says. *)
Definition state_typed (s : ViewState) : Prop :=
  has_type (extractedData s) extractedData_ty.

(** ** Well-formed values *)

(** Every number in the value is a valid binary64. *)
Fixpoint wf_value (v : JsValue) : bool :=
  match v with
  | JNumber n => num_valid n
  | JArray items => forallb wf_value items
  | JObject fields => forallb (λ kv, wf_value kv.2) fields
  | JUndefined | JNull | JBool _ | JString _ => true
  end.

(** An engine whose conversion of text yields valid numbers. *)
Class EngineLaws (engine : Engine) : Prop := {
  string_to_number_valid : ∀ s, num_valid (string_to_number s) = true;
}.

(** ** Samples *)

(** The sample result with a member the interface does not name. *)
Definition sample_extended : JsValue :=
  match encode sample_result with
  | JObject fields => JObject (fields ++ [("score", JNumber (num_of_Z 3))])
  | v => v
  end.

(** ** Checking decides typing *)

Section Typing.
Implicit Types (v : JsValue) (t : Ty) (fields : list (string * JsValue)).

Lemma has_type_array v t :
  has_type v (TArray t) ↔ ∃ items, v = JArray items ∧ Forall (λ x, has_type x t) items.
Proof.
  split; [inversion 1; by eexists|]. intros (items & -> & ?). by constructor.
Qed.

Lemma has_type_object v members :
  has_type v (TObject members) ↔
  ∃ fields, v = JObject fields ∧
    Forall (λ m, ∃ x, lookup_field m.1 fields = Some x ∧ has_type x m.2) members.
Proof.
  split; [inversion 1; by eexists|]. intros (fields & -> & ?). by constructor.
Qed.

Lemma has_type_union v a b :
  has_type v (TUnion a b) ↔ has_type v a ∨ has_type v b.
Proof.
  split; [inversion 1; auto|]. intros [?|?]; [by apply ty_union_l | by apply ty_union_r].
Qed.

Lemma check_type_spec t v : check_type t v = true ↔ has_type v t.
Proof.
  revert v. induction t as [| | |t IH|members IH|a b IHa IHb] using Ty_ind; intros v.
  1-3: destruct v; split; by first [constructor | inversion 1].
  - rewrite has_type_array. destruct v; simpl; try naive_solver.
    rewrite forallb_Forall by (apply Forall_forall; intros ? _; apply IH).
    naive_solver.
  - rewrite has_type_object. destruct v as [| | | | | |fields]; simpl; try naive_solver.
    rewrite (forallb_Forall _ (λ m, ∃ x, lookup_field m.1 fields = Some x ∧ has_type x m.2)).
    { naive_solver. }
    eapply Forall_impl; [exact IH|]. intros [k t] Ht. simpl in *.
    destruct (lookup_field k fields) as [x|]; [rewrite Ht|]; naive_solver.
  - rewrite has_type_union, <-IHa, <-IHb. destruct v; simpl; by rewrite orb_true_iff.
Qed.

#[global] Instance has_type_dec v t : Decision (has_type v t).
Proof.
  refine (cast_if (decide (check_type t v = true))); by rewrite <-check_type_spec.
Defined.

(** No declared type admits [undefined]. *)
Lemma has_type_undefined t : ¬ has_type JUndefined t.
Proof. by rewrite <-check_type_spec; induction t using Ty_ind; simpl; try rewrite orb_true_iff; naive_solver. Qed.

(** A member of a typed object, read leniently, has the member's type. *)
Lemma has_type_member v k t :
  (∃ x, (∃ fields, v = JObject fields ∧ lookup_field k fields = Some x) ∧ has_type x t)
  ↔ has_type (get_prop_opt v k) t.
Proof.
  split.
  - intros (x & (fields & -> & Hk) & Hx). simpl. by rewrite Hk.
  - intros Ht. destruct v as [| | | | | |fields];
      try by apply has_type_undefined in Ht.
    simpl in Ht. destruct (lookup_field k fields) as [x|] eqn:Hk;
      [naive_solver | by apply has_type_undefined in Ht].
Qed.

(** An object type with members, member by member. *)
Lemma has_type_members v members :
  members ≠ [] →
  has_type v (TObject members) ↔
  Forall (λ m, has_type (get_prop_opt v m.1) m.2) members.
Proof.
  intros Hne. rewrite has_type_object. split.
  - intros (fields & -> & Hall). eapply Forall_impl; [done|].
    intros [k t] (x & Hk & Hx). simpl in *. by rewrite Hk.
  - intros Hall. destruct members as [|[k t] rest]; [done|].
    pose proof (Forall_inv Hall) as (x & (fields & -> & _) & _)%has_type_member.
    exists fields. split; [done|]. eapply Forall_impl; [done|].
    intros [k' t'] (x' & (? & [= <-] & Hk) & Hx)%has_type_member. eauto.
Qed.

(** ** The declared shape is what [decode] accepts *)

Lemma as_string_typed v : is_Some (as_string v) ↔ has_type v TString.
Proof. rewrite <-check_type_spec. destruct v; simpl; by rewrite <-?not_eq_None_Some. Qed.

Lemma as_number_typed v : is_Some (as_number v) ↔ has_type v TNumber.
Proof. rewrite <-check_type_spec. destruct v; simpl; by rewrite <-?not_eq_None_Some. Qed.

Lemma as_strings_typed v : is_Some (as_strings v) ↔ has_type v (TArray TString).
Proof.
  rewrite has_type_array. destruct v; simpl; try by rewrite <-not_eq_None_Some; naive_solver.
  rewrite mapM_is_Some. setoid_rewrite <-as_string_typed. naive_solver.
Qed.

Lemma decode_skillMatch_typed v :
  is_Some (decode_skillMatch v) ↔ has_type v skillMatch_ty.
Proof.
  unfold skillMatch_ty, decode_skillMatch.
  rewrite has_type_members, !Forall_cons, Forall_nil by done. simpl.
  rewrite <-!as_strings_typed, <-as_number_typed. unfold is_Some.
  repeat match goal with |- context [mbind _ ?o] => destruct o; simpl end; naive_solver.
Qed.

Lemma decode_typed v : is_Some (decode v) ↔ has_type v ExtractionResult_ty.
Proof.
  unfold ExtractionResult_ty, decode.
  rewrite has_type_members, !Forall_cons, Forall_nil by done. simpl.
  rewrite <-!as_string_typed, <-decode_skillMatch_typed. unfold is_Some.
  repeat match goal with |- context [mbind _ ?o] => destruct o; simpl end; naive_solver.
Qed.


Lemma state_typed_decode s :
  state_typed s ↔ extractedData s = JNull ∨ is_Some (decode (extractedData s)).
Proof.
  unfold state_typed, extractedData_ty. rewrite has_type_union, decode_typed.
  split; intros [H|H]; auto.
  - left. by inversion H.
  - right. rewrite H. constructor.
Qed.

(** ** Further members *)

Lemma lookup_field_app k fields extra x :
  lookup_field k fields = Some x → lookup_field k (fields ++ extra) = Some x.
Proof.
  induction fields as [|[k' y] rest IH]; [done|]. simpl. by destruct (String.eqb k k').
Qed.

Lemma has_type_width fields extra t :
  has_type (JObject fields) t → has_type (JObject (fields ++ extra)) t.
Proof.
  induction t as [| | |t _|members _|a b IHa IHb] using Ty_ind; try (by intros H; inversion H).
  - rewrite !has_type_object. intros (? & [= <-] & Hall). eexists. split; [done|].
    eapply Forall_impl; [done|]. intros m (x & Hk & Hx). eauto using lookup_field_app.
  - rewrite !has_type_union. naive_solver.
Qed.

(** A result with a further member still has the declared type. *)
Example extended_result_typed : has_type sample_extended ExtractionResult_ty.
Proof. apply has_type_width, check_type_spec. reflexivity. Qed.

(** ** Typing respects the order of members *)

Lemma has_type_equiv t : ∀ v w, v ≡ w → has_type v t → has_type w t.
Proof.
  induction t as [| | |t IH|members IH|a b IHa IHb] using Ty_ind; intros v w Hvw Hv.
  1-3: inversion Hv; subst; inversion Hvw; constructor.
  - apply has_type_array in Hv as (items & -> & Hall).
    inversion Hvw as [| | | | |? ys Heq|]; subst. constructor.
    clear Hvw. induction Heq as [|x y xs ys' Hxy _ IHeq]; [done|].
    apply Forall_cons in Hall as [Hx Hall]. constructor; eauto.
  - apply has_type_object in Hv as (fs & -> & Hall).
    inversion Hvw as [| | | | | |? gs Heq]; subst. constructor.
    rewrite Forall_forall in IH, Hall |- *. intros m Hm.
    destruct (Hall m Hm) as (x & Hk & Hx). specialize (Heq m.1).
    rewrite Hk in Heq. inversion Heq as [? y Hxy|]; subst. exists y. eauto.
  - apply has_type_union in Hv. apply has_type_union. naive_solver.
Qed.

#[export] Instance has_type_proper : Proper ((≡) ==> (=) ==> iff) has_type.
Proof.
  intros v w Hvw t ? <-. split; apply has_type_equiv; [done|by symmetry].
Qed.

End Typing.

(** ** Reads and conversions keep numbers valid *)

Section WellFormed.
Context {engine : Engine} {laws : EngineLaws engine}.
Implicit Types (v a b : JsValue).

Lemma wf_lookup_field k fields x :
  forallb (λ kv, wf_value kv.2) fields = true →
  lookup_field k fields = Some x → wf_value x = true.
Proof.
  induction fields as [|[k' y] rest IH]; [done|]. simpl.
  intros [Hy Hrest]%andb_true_iff. destruct (String.eqb k k'); naive_solver.
Qed.

Lemma wf_get_prop_opt v k : wf_value v = true → wf_value (get_prop_opt v k) = true.
Proof.
  destruct v as [| | | | | |fields]; try done. simpl. intros Hwf.
  destruct (lookup_field k fields) eqn:Hk; [|done]. by eapply wf_lookup_field.
Qed.

Lemma wf_get_prop v k x :
  wf_value v = true → get_prop v k = Ok x → wf_value x = true.
Proof.
  intros Hwf Hk. destruct (is_nullish v) eqn:Hn.
  - by rewrite get_prop_nullish in Hk.
  - rewrite get_prop_not_nullish in Hk by done. injection Hk as <-.
    by apply wf_get_prop_opt.
Qed.

Lemma to_number_valid v n :
  wf_value v = true → to_number v = Ok n → num_valid n = true.
Proof.
  intros Hwf. unfold to_number.
  destruct v; try destruct (to_string _); cbn [mbind result_bind]; intros [= <-];
    by first [apply num_of_Z_valid | apply string_to_number_valid | idtac].
Qed.

Lemma js_sub_valid a b n :
  wf_value a = true → wf_value b = true → js_sub a b = Ok n → num_valid n = true.
Proof.
  unfold js_sub. intros Ha Hb.
  destruct (to_number a) as [x|] eqn:Hx, (to_number b) as [y|] eqn:Hy;
    simpl; intros [= <-].
  apply num_sub_valid; [by apply (to_number_valid a) | by apply (to_number_valid b)].
Qed.

End WellFormed.

Lemma wf_encode r : wf_value (encode r) = num_valid (matchPercentage (skillMatch r)).
Proof.
  assert (∀ l, forallb wf_value (JString <$> l) = true) as Hl by (by induction l).
  simpl. unfold encode_strings. by rewrite !Hl, !andb_true_r.
Qed.

#[global] Instance sample_engine_laws : EngineLaws sample_engine.
Proof.
  split. intros s. simpl. unfold sample_string_to_number.
  destruct (read_digits 0 s); [apply num_of_Z_valid|done].
Qed.
