(* ===== verification/Transport.v ===== *)
(** * Transport: what the program hands to, and gets from, its collaborators

    The request built by [handleSubmit] (src/src/App.tsx, lines 47-53), the
    two ways the awaited call ends, and the contract of the file picker
    configured at lines 29-31.  The collaborators themselves (axios,
    react-dropzone, the remote service) are not modelled: only the shapes
    that cross the boundary.  The picker is an interface: class
    [Dropzone] is what it computes, [DropzoneLaws] what the program
    relies on, [DropzoneTransparent] that it hands on unchanged what is
    within its limits, and [first_accepted] and [reject_surplus] are two
    pickers that keep these laws. *)

From stdpp Require Import base tactics option list strings.
From S2P Require Import Prelude JsValue ViewState.

(** A part of a multi-part body: a file or a text. *)
Inductive FormPart : Type :=
| PartFile (f : File)
| PartText (t : string).

#[global] Instance FormPart_eq_dec : EqDecision FormPart.
Proof. solve_decision. Defined.

(** A [FormData]: its entries in the order they were appended. *)
Definition FormData : Type := list (string * FormPart).

Definition new_FormData : FormData := [].

Definition formData_append (fd : FormData) (name : string) (part : FormPart) : FormData :=
  fd ++ [(name, part)].

(** The arguments of [axios.post]. *)
Record Request : Type := mkRequest {
  req_url : string;
  req_body : FormData;
  req_headers : list (string * string);
}.

#[global] Instance Request_eq_dec : EqDecision Request.
Proof. solve_decision. Defined.

(** How the awaited promise settles: fulfilled with a response, of which
    the program reads only [data], or rejected with a reason. *)
Inductive Outcome : Type :=
| Fulfilled (data : JsValue)
| Rejected (reason : Thrown).

(** The file picker's configuration: [accept] and [maxFiles]. *)
Definition accepted_type : string := "application/pdf".
Definition maxFiles : nat := 1.

Definition dropzone_accepts (f : File) : bool :=
  bool_decide (file_type f = accepted_type).

(** What the picker promises of the list it passes to [onDrop]: at most
    [maxFiles] files, each of the accepted type.  The list may be empty. *)
Definition dropzone_contract (acceptedFiles : list File) : bool :=
  bool_decide (length acceptedFiles ≤ maxFiles) && forallb dropzone_accepts acceptedFiles.

(** The picker: from the files dropped to the list handed to [onDrop]. *)
Class Dropzone : Type := {
  accept_files : list File → list File;
}.

(** What the program relies on: the list handed on meets the contract
    and holds only files that were dropped. *)
Class DropzoneLaws (dz : Dropzone) : Prop := {
  accept_files_contract : ∀ dropped, dropzone_contract (accept_files dropped) = true;
  accept_files_dropped : ∀ dropped, accept_files dropped ⊆ dropped;
}.

(** A picker that hands on unchanged a pick that is within the limits. *)
Class DropzoneTransparent (dz : Dropzone) : Prop := {
  accept_files_within :
    ∀ dropped, dropzone_contract dropped = true → accept_files dropped = dropped;
}.

(** The files of the accepted type among those dropped. *)
Definition of_accepted_type (dropped : list File) : list File :=
  filter (λ f, file_type f = accepted_type) dropped.

(** A picker that hands on the first file of the accepted type. *)
Definition first_accepted : Dropzone :=
  {| accept_files dropped := take maxFiles (of_accepted_type dropped) |}.

(** A picker that hands on nothing when more files of the accepted type
    are dropped than it may hand on. *)
Definition reject_surplus : Dropzone :=
  {| accept_files dropped :=
       if decide (length (of_accepted_type dropped) ≤ maxFiles)
       then of_accepted_type dropped else [] |}.

Lemma dropzone_contract_cases fs :
  dropzone_contract fs = true ↔
  fs = [] ∨ ∃ f, fs = [f] ∧ file_type f = accepted_type.
Proof.
  unfold dropzone_contract, dropzone_accepts, maxFiles.
  rewrite andb_true_iff, bool_decide_eq_true. split.
  - intros [Hlen Hall]. destruct fs as [|f [|g fs]]; simpl in *; [by left| |lia].
    right. exists f. rewrite andb_true_r, bool_decide_eq_true in Hall. done.
  - intros [->|(f & -> & Hf)]; simpl; [split; [lia|done]|].
    split; [lia|]. by rewrite andb_true_r, bool_decide_eq_true.
Qed.

Lemma dropzone_contract_intro fs :
  length fs ≤ maxFiles → Forall (λ f, file_type f = accepted_type) fs →
  dropzone_contract fs = true.
Proof.
  intros Hlen Hall. unfold dropzone_contract, dropzone_accepts.
  rewrite andb_true_iff, bool_decide_eq_true. split; [done|]. clear Hlen.
  induction Hall as [|f rest Hf _ IH]; [done|]. simpl.
  by rewrite IH, andb_true_r, bool_decide_eq_true.
Qed.

Lemma of_accepted_type_Forall dropped :
  Forall (λ f, file_type f = accepted_type) (of_accepted_type dropped).
Proof.
  apply Forall_forall. unfold of_accepted_type. by intros f [? _]%list_elem_of_filter.
Qed.

Lemma of_accepted_type_dropped dropped : of_accepted_type dropped ⊆ dropped.
Proof. unfold of_accepted_type. by intros f [_ ?]%list_elem_of_filter. Qed.

#[global] Instance first_accepted_laws : DropzoneLaws first_accepted.
Proof.
  split; intros dropped; simpl.
  - apply dropzone_contract_intro; [rewrite length_take; lia|].
    apply Forall_take, of_accepted_type_Forall.
  - etrans; [apply subseteq_take|apply of_accepted_type_dropped].
Qed.

#[global] Instance reject_surplus_laws : DropzoneLaws reject_surplus.
Proof.
  split; intros dropped; simpl; case_decide; try done.
  - by apply dropzone_contract_intro, of_accepted_type_Forall.
  - apply of_accepted_type_dropped.
  - apply list_subseteq_nil.
Qed.

Lemma of_accepted_type_within dropped :
  dropzone_contract dropped = true →
  of_accepted_type dropped = dropped ∧ length dropped ≤ maxFiles.
Proof.
  intros [->|(f & -> & Hf)]%dropzone_contract_cases; [split; [done|simpl; lia]|].
  unfold of_accepted_type, maxFiles. rewrite filter_cons.
  case_decide; [|done]. split; [done|simpl; lia].
Qed.

#[global] Instance first_accepted_transparent : DropzoneTransparent first_accepted.
Proof.
  split. intros dropped [Hd Hlen]%of_accepted_type_within. simpl.
  rewrite Hd. by apply take_ge.
Qed.

#[global] Instance reject_surplus_transparent : DropzoneTransparent reject_surplus.
Proof.
  split. intros dropped [Hd Hlen]%of_accepted_type_within. simpl.
  rewrite Hd. by case_decide.
Qed.

(** A picker that keeps the laws hands on nothing when no file of the
    accepted type was dropped. *)
Lemma accept_files_none {dz : Dropzone} {laws : DropzoneLaws dz} dropped :
  Forall (λ f, file_type f ≠ accepted_type) dropped → accept_files dropped = [].
Proof.
  intros Hnone. pose proof (accept_files_contract dropped) as Hc.
  apply dropzone_contract_cases in Hc as [?|(f & Hf & Ht)]; [done|].
  rewrite Forall_forall in Hnone. destruct (Hnone f); [|done].
  apply (accept_files_dropped dropped). rewrite Hf. by left.
Qed.
