(* ===== verification/Submission.v ===== *)
(** * Submission: validation and the request lifecycle

    [handleSubmit] (src/src/App.tsx, lines 38-68) and the handlers around it:
    [onDrop] (lines 32-35), the text area's [onChange] (line 134) and the
    submit button with its [disabled] guard (lines 138-144).

    [handleSubmit] is an [async] function with one [await].  It is modelled
    in the two pieces between which other handlers can run:
    [handleSubmit_begin], from the call to the [await] (or to the end, when
    validation throws), and [handleSubmit_settle], from the settling of the
    awaited promise to the end.  [handleSubmit] composes the two around a
    transport given as a function, for a submission nothing interleaves
    with. *)

From Stdlib Require Import Ascii.
From stdpp Require Import base tactics option list strings.
From S2P Require Import Prelude JsValue Model ViewState Transport.

(** ** The handlers *)

(** [onDrop]: [acceptedFiles[0]] is [undefined] for an empty list. *)
Definition onDrop (acceptedFiles : list File) (s : ViewState) : ViewState :=
  let s := setResume (head acceptedFiles) s in
  setError None s.

(** The text area's [onChange]. *)
Definition onChange (value : string) (s : ViewState) : ViewState :=
  setJobDescription value s.

(** The two guards at the head of the [try] block. *)
Definition validate (resume : option File) (jobDescription : string) : Throws File :=
  match resume with
  | None => Throw (ThrownError "Please upload a resume")
  | Some file =>
      if negb (truthy_string jobDescription)
      then Throw (ThrownError "Please enter a job description")
      else Ok file
  end.

Definition endpoint : string := "http://localhost:8000/api/extract".

(** The [try] block up to the [await]: the guards, then the payload. *)
Definition try_before_await (resume : option File) (jobDescription : string) : Throws Request :=
  file ← validate resume jobDescription;
  let formData := new_FormData in
  let formData := formData_append formData "resume" (PartFile file) in
  let formData := formData_append formData "job_description" (PartText jobDescription) in
  Ok {| req_url := endpoint;
        req_body := formData;
        req_headers := [("Content-Type", "multipart/form-data")] |}.

(** [a && b], with [b] evaluated only when [a] is truthy. *)
Definition js_and (a : JsValue) (b : Throws JsValue) : Throws JsValue :=
  if truthy a then b else Ok a.

(** The [finally] block. *)
Definition finally_block (s : ViewState) : ViewState :=
  setIsLoading false s.

Section WithEngine.
Context {engine : Engine}.

(** The [try] block after the [await], on the response's [data]. *)
Definition try_after_await (data : JsValue) (s : ViewState) : Throws ViewState :=
  cond ← js_and data (get_prop data "data");
  if truthy cond then
    payload ← get_prop data "data";
    Ok (setExtractedData payload s)
  else
    err ← get_prop data "error";
    if truthy err then
      text ← get_prop data "error";
      Throw (new_Error text)
    else Throw (ThrownError "Invalid response from server").

(** The [catch] block. *)
Definition catch_block (err : Thrown) (s : ViewState) : ViewState :=
  let s := setError (Some (message_or "An error occurred" err)) s in
  setExtractedData JNull s.

(** From the call to the [await].  The result is the state and the request
    whose response is awaited, if the function got that far. *)
Definition handleSubmit_begin (s : ViewState) : ViewState * option Request :=
  let s1 := setIsLoading true s in
  let s1 := setError None s1 in
  match try_before_await (resume s) (jobDescription s) with
  | Ok request => (s1, Some request)
  | Throw err => (finally_block (catch_block err s1), None)
  end.

(** From the settling of the awaited promise to the end. *)
Definition handleSubmit_settle (o : Outcome) (s : ViewState) : ViewState :=
  let tried :=
    match o with
    | Fulfilled data => try_after_await data s
    | Rejected reason => Throw reason
    end in
  match tried with
  | Ok s' => finally_block s'
  | Throw err => finally_block (catch_block err s)
  end.

(** One whole submission against a transport, with the requests issued. *)
Definition handleSubmit (post : Request → Outcome) (s : ViewState) : ViewState * list Request :=
  match handleSubmit_begin s with
  | (s1, Some request) => (handleSubmit_settle (post request) s1, [request])
  | (s1, None) => (s1, [])
  end.

End WithEngine.

(** The button's [disabled] attribute. *)
Definition submit_disabled (s : ViewState) : bool :=
  isLoading s || negb (resume_truthy (resume s)) || negb (truthy_string (jobDescription s)).

(** The button's label. *)
Definition submit_label (s : ViewState) : string :=
  if isLoading s then "Analyzing..." else "Analyze Skills".

(** A click on the button: a disabled button does not call its handler. *)
Definition button_click {engine : Engine} (s : ViewState) : ViewState * option Request :=
  if submit_disabled s then (s, None) else handleSubmit_begin s.

(** ** Reference definitions the theorems are stated with *)

(** The response body as a tagged variant: what the branches of the [try]
    block distinguish. *)
Inductive Decoded : Type :=
| DecSuccess (payload : JsValue)
| DecServerError (text : JsValue)
| DecMalformed
| DecUnreadable.

Definition classify (data : JsValue) : Decoded :=
  if is_nullish data then DecUnreadable
  else if truthy data && truthy (get_prop_opt data "data")
       then DecSuccess (get_prop_opt data "data")
  else if truthy (get_prop_opt data "error")
       then DecServerError (get_prop_opt data "error")
  else DecMalformed.

(** What a settled request amounts to: the payload to show, or the error
    to report. *)
Definition settle_result {engine : Engine} (o : Outcome) : Throws JsValue :=
  match o with
  | Rejected reason => Throw reason
  | Fulfilled data =>
      match classify data with
      | DecSuccess payload => Ok payload
      | DecServerError text => Throw (new_Error text)
      | DecMalformed => Throw (ThrownError "Invalid response from server")
      | DecUnreadable => Throw (ThrownTypeError (ReadOfNullish data "error"))
      end
  end.

(** The request a valid submission issues. *)
Definition request_for (file : File) (text : string) : Request :=
  {| req_url := endpoint;
     req_body := [("resume", PartFile file); ("job_description", PartText text)];
     req_headers := [("Content-Type", "multipart/form-data")] |}.

(** The state after a submission that failed with message [m]. *)
Definition failed_with (m : string) (s : ViewState) : ViewState :=
  {| resume := resume s;
     jobDescription := jobDescription s;
     extractedData := JNull;
     isLoading := false;
     error := Some m |}.

(** The state after a submission that delivered [payload]. *)
Definition succeeded_with (payload : JsValue) (s : ViewState) : ViewState :=
  {| resume := resume s;
     jobDescription := jobDescription s;
     extractedData := payload;
     isLoading := false;
     error := error s |}.

(** The state while a request is awaited. *)
Definition in_flight (s : ViewState) : ViewState :=
  {| resume := resume s;
     jobDescription := jobDescription s;
     extractedData := extractedData s;
     isLoading := true;
     error := None |}.

(** All-whitespace text, for stating what the guards do not reject. *)
Definition is_space (c : ascii) : bool :=
  bool_decide (c ∈ [" "; "009"; "010"; "013"]%char).

Fixpoint whitespace_only (s : string) : bool :=
  match s with
  | EmptyString => true
  | String c rest => is_space c && whitespace_only rest
  end.

(** The state a settled request leaves, from the state [s] the submission
    started in. *)
Definition settled {engine : Engine} (r : Throws JsValue) (s : ViewState) : ViewState :=
  match r with
  | Ok payload =>
      {| resume := resume s;
         jobDescription := jobDescription s;
         extractedData := payload;
         isLoading := false;
         error := None |}
  | Throw err => failed_with (message_or "An error occurred" err) s
  end.

(** ** Samples *)

Definition sample_pdf : File :=
  {| file_name := "cv.pdf"; file_type := "application/pdf"; file_data := "%PDF-1.4" |}.

(** A file picked and a job description typed: ready to submit. *)
Definition ready_state : ViewState :=
  setJobDescription "Proof engineer" (setResume (Some sample_pdf) initial_state).

Definition sample_request : Request := request_for sample_pdf "Proof engineer".

(** A service that answers every request with the sample result. *)
Definition sample_service (_ : Request) : Outcome :=
  Fulfilled (JObject [("data", encode sample_result)]).

(** The validator as specified: no file, or a job text that is empty or
    made of white space alone, is an error. *)
Definition spec_validate (r : option File) (text : string) : Throws File :=
  match r with
  | None => Throw (ThrownError "Please upload a resume")
  | Some file =>
      if whitespace_only text
      then Throw (ThrownError "Please enter a job description")
      else Ok file
  end.

(** ** Validation *)

Lemma validate_ok_iff r j f :
  validate r j = Ok f ↔ r = Some f ∧ j ≠ "".
Proof.
  unfold validate. destruct r as [f'|]; [|naive_solver].
  destruct (truthy_string j) eqn:Hj; simpl.
  - apply truthy_string_spec in Hj. naive_solver.
  - apply not_true_iff_false in Hj. rewrite truthy_string_spec in Hj.
    naive_solver.
Qed.

Lemma validate_throw_iff r j e :
  validate r j = Throw e ↔
  (r = None ∧ e = ThrownError "Please upload a resume") ∨
  (is_Some r ∧ j = "" ∧ e = ThrownError "Please enter a job description").
Proof.
  unfold validate. destruct r as [f'|]; [|naive_solver].
  destruct (String.eqb_spec j "") as [->|Hj]; simpl.
  - naive_solver.
  - unfold truthy_string. destruct (String.eqb_spec j ""); naive_solver.
Qed.

Lemma try_before_await_spec r j :
  try_before_await r j = (file ← validate r j; Ok (request_for file j)).
Proof. reflexivity. Qed.

(** ** The response, classified *)

Section Lifecycle.
Context {engine : Engine}.
Implicit Types (s : ViewState) (data : JsValue) (o : Outcome).

Lemma try_after_await_classify data s :
  try_after_await data s =
  match classify data with
  | DecSuccess payload => Ok (setExtractedData payload s)
  | DecServerError text => Throw (new_Error text)
  | DecMalformed => Throw (ThrownError "Invalid response from server")
  | DecUnreadable => Throw (ThrownTypeError (ReadOfNullish data "error"))
  end.
Proof.
  unfold try_after_await, classify, js_and.
  destruct (is_nullish data) eqn:Hn.
  - rewrite (get_prop_nullish _ _ Hn). by destruct data.
  - rewrite !(get_prop_not_nullish _ _ Hn). simpl.
    destruct (truthy data) eqn:Hd,
             (truthy (get_prop_opt data "data")) eqn:Hp,
             (truthy (get_prop_opt data "error")) eqn:He;
      simpl; rewrite ?(get_prop_not_nullish _ _ Hn), ?Hd, ?Hp, ?He; done.
Qed.

Lemma handleSubmit_settle_spec o s :
  handleSubmit_settle o s =
  match settle_result o with
  | Ok payload => succeeded_with payload s
  | Throw err => failed_with (message_or "An error occurred" err) s
  end.
Proof.
  unfold handleSubmit_settle, settle_result.
  destruct o as [data|reason]; [|done].
  rewrite try_after_await_classify. by destruct (classify data).
Qed.

Lemma handleSubmit_begin_spec s :
  handleSubmit_begin s =
  match validate (resume s) (jobDescription s) with
  | Ok file => (in_flight s, Some (request_for file (jobDescription s)))
  | Throw err => (failed_with (message_or "An error occurred" err) s, None)
  end.
Proof.
  unfold handleSubmit_begin. rewrite try_before_await_spec.
  by destruct (validate _ _).
Qed.

Lemma handleSubmit_spec post s :
  handleSubmit post s =
  match validate (resume s) (jobDescription s) with
  | Throw err => (failed_with (message_or "An error occurred" err) s, [])
  | Ok file =>
      let request := request_for file (jobDescription s) in
      (match settle_result (post request) with
       | Ok payload => succeeded_with payload (in_flight s)
       | Throw err => failed_with (message_or "An error occurred" err) s
       end, [request])
  end.
Proof.
  unfold handleSubmit. rewrite handleSubmit_begin_spec.
  destruct (validate _ _); [|done]. simpl.
  rewrite handleSubmit_settle_spec. by destruct (settle_result _).
Qed.

Lemma handleSubmit_valid post s file :
  resume s = Some file → jobDescription s ≠ "" →
  handleSubmit post s =
    (settled (settle_result (post (request_for file (jobDescription s)))) s,
     [request_for file (jobDescription s)]).
Proof.
  intros Hr Hj. rewrite handleSubmit_spec.
  rewrite (proj2 (validate_ok_iff _ _ file)) by done. simpl.
  by destruct (settle_result _).
Qed.

Lemma classify_success fields payload :
  lookup_field "data" fields = Some payload → truthy payload = true →
  classify (JObject fields) = DecSuccess payload.
Proof.
  intros Hd Ht. unfold classify. cbn [is_nullish truthy get_prop_opt].
  rewrite Hd. simpl. by rewrite Ht.
Qed.

Lemma classify_server_error data :
  is_nullish data = false →
  truthy (get_prop_opt data "data") = false →
  truthy (get_prop_opt data "error") = true →
  classify data = DecServerError (get_prop_opt data "error").
Proof. unfold classify. intros -> -> ->. by rewrite andb_false_r. Qed.

Lemma classify_malformed data :
  is_nullish data = false →
  truthy (get_prop_opt data "data") = false →
  truthy (get_prop_opt data "error") = false →
  classify data = DecMalformed.
Proof. unfold classify. intros -> -> ->. by rewrite andb_false_r. Qed.

Lemma classify_unreadable data :
  is_nullish data = true → classify data = DecUnreadable.
Proof. unfold classify. by intros ->. Qed.

End Lifecycle.

(** ** The outcomes of a submission *)

Section Outcomes.
Context {engine : Engine}.
Implicit Types (s : ViewState) (post : Request → Outcome).

(** C10. Settling a request decodes the outcome as a tagged variant and
    moves to the matching state: the payload of a success is stored and
    the loading flag cleared; a server-reported error, a malformed body,
    an unreadable body and a transport failure each end in the failed
    state with their message. *)
Theorem handleSubmit_settle_decoded o s :
  handleSubmit_settle o s =
  match settle_result o with
  | Ok payload => succeeded_with payload s
  | Throw err => failed_with (message_or "An error occurred" err) s
  end.
Proof. apply handleSubmit_settle_spec. Qed.

(** C7. A submission with no file selected ends in the failed state with
    the message "Please upload a resume", and issues no request. *)
Theorem submit_without_file post s :
  resume s = None →
  handleSubmit post s = (failed_with "Please upload a resume" s, []).
Proof. intros Hr. by rewrite handleSubmit_spec, Hr. Qed.

(** C8. A submission with a file but an empty job description ends in the
    failed state with the message "Please enter a job description", and
    issues no request. *)
Theorem submit_without_job_text post s file :
  resume s = Some file → jobDescription s = "" →
  handleSubmit post s = (failed_with "Please enter a job description" s, []).
Proof. intros Hr Hj. by rewrite handleSubmit_spec, Hr, Hj. Qed.

(** C1. With a file and a non-empty job description, when the transport
    answers with an object whose [data] field is truthy, exactly one
    request is issued, carrying the file and the text, and the final state
    holds that field as the result, no error, and the loading flag
    cleared. *)
Theorem submit_success post s file fields payload :
  resume s = Some file → jobDescription s ≠ "" →
  post (request_for file (jobDescription s)) = Fulfilled (JObject fields) →
  lookup_field "data" fields = Some payload → truthy payload = true →
  handleSubmit post s =
    ({| resume := Some file;
        jobDescription := jobDescription s;
        extractedData := payload;
        isLoading := false;
        error := None |},
     [request_for file (jobDescription s)]).
Proof.
  intros Hr Hj Hpost Hd Ht. rewrite (handleSubmit_valid _ _ file), Hpost by done.
  unfold settle_result. rewrite (classify_success _ payload) by done.
  simpl. by rewrite Hr.
Qed.

(** C5. When the transport answers with an object that has no truthy
    [data] field and whose [error] field is a non-empty string, the final
    state is the failed state with that string as the message. *)
Theorem submit_server_error post s file fields text :
  resume s = Some file → jobDescription s ≠ "" →
  post (request_for file (jobDescription s)) = Fulfilled (JObject fields) →
  truthy (default JUndefined (lookup_field "data" fields)) = false →
  lookup_field "error" fields = Some (JString text) → text ≠ "" →
  handleSubmit post s =
    (failed_with text s, [request_for file (jobDescription s)]).
Proof.
  intros Hr Hj Hpost Hd He Ht. rewrite (handleSubmit_valid _ _ file), Hpost by done.
  unfold settle_result. rewrite classify_server_error; cbn [get_prop_opt];
    rewrite ?He; try done.
  by apply truthy_string_spec.
Qed.

(** C6. When the transport answers with a body that is not [null] or
    [undefined] and has neither a truthy [data] nor a truthy [error]
    field, the final state is the failed state with the message "Invalid
    response from server". *)
Theorem submit_malformed_response post s file data :
  resume s = Some file → jobDescription s ≠ "" →
  post (request_for file (jobDescription s)) = Fulfilled data →
  is_nullish data = false →
  truthy (get_prop_opt data "data") = false →
  truthy (get_prop_opt data "error") = false →
  handleSubmit post s =
    (failed_with "Invalid response from server" s,
     [request_for file (jobDescription s)]).
Proof.
  intros Hr Hj Hpost Hn Hd He. rewrite (handleSubmit_valid _ _ file), Hpost by done.
  unfold settle_result. by rewrite classify_malformed.
Qed.

(** When the transport answers with the body [null] (or [undefined]),
    reading its [error] field throws: the message shown is the engine's
    [TypeError] message, not "Invalid response from server". *)
Theorem submit_unreadable_body post s file data :
  resume s = Some file → jobDescription s ≠ "" →
  post (request_for file (jobDescription s)) = Fulfilled data →
  is_nullish data = true →
  handleSubmit post s =
    (failed_with (type_error_message (ReadOfNullish data "error")) s,
     [request_for file (jobDescription s)]).
Proof.
  intros Hr Hj Hpost Hn. rewrite (handleSubmit_valid _ _ file), Hpost by done.
  unfold settle_result. by rewrite classify_unreadable.
Qed.

(** C9. When the transport fails, the final state is the failed state with
    the failure's message if it is an [Error], and with "An error
    occurred" otherwise. *)
Theorem submit_transport_failure post s file reason :
  resume s = Some file → jobDescription s ≠ "" →
  post (request_for file (jobDescription s)) = Rejected reason →
  handleSubmit post s =
    (failed_with (message_or "An error occurred" reason) s,
     [request_for file (jobDescription s)]).
Proof.
  intros Hr Hj Hpost. by rewrite (handleSubmit_valid _ _ file), Hpost.
Qed.

End Outcomes.


(** ** The guards *)

Lemma submit_disabled_false s :
  submit_disabled s = false ↔
  isLoading s = false ∧ is_Some (resume s) ∧ jobDescription s ≠ "".
Proof.
  unfold submit_disabled. rewrite !orb_false_iff, !negb_false_iff.
  rewrite truthy_string_spec. destruct (resume s); simpl;
    rewrite ?is_Some_alt; naive_solver.
Qed.

Section GuardLemmas.
Context {engine : Engine}.
Implicit Types (s : ViewState).

Lemma click_disabled s :
  submit_disabled s = true → button_click s = (s, None).
Proof. unfold button_click. by intros ->. Qed.

Lemma click_enabled s :
  submit_disabled s = false →
  ∃ file, resume s = Some file ∧
    button_click s = (in_flight s, Some (request_for file (jobDescription s))).
Proof.
  intros Hd. unfold button_click. rewrite Hd.
  apply submit_disabled_false in Hd as (_ & [file Hr] & Hj).
  exists file. split; [done|]. rewrite handleSubmit_begin_spec.
  by rewrite (proj2 (validate_ok_iff _ _ file)).
Qed.

Lemma classify_success_truthy data payload :
  classify data = DecSuccess payload → truthy payload = true.
Proof.
  unfold classify. destruct (is_nullish data); [done|].
  destruct (truthy data && truthy (get_prop_opt data "data")) eqn:Ha;
    [|by case_match].
  intros [= <-]. by apply andb_true_iff in Ha as [_ ?].
Qed.

Lemma settle_result_truthy o payload :
  settle_result o = Ok payload → truthy payload = true.
Proof.
  destruct o as [data|]; [|done]. simpl.
  destruct (classify data) eqn:Hc; intros; simplify_eq.
  by eapply classify_success_truthy.
Qed.

Lemma settle_shape o s :
  let s' := handleSubmit_settle o s in
  isLoading s' = false ∧ resume s' = resume s ∧
  jobDescription s' = jobDescription s ∧
  ((truthy (extractedData s') = true ∧ error s' = error s) ∨
   (extractedData s' = JNull ∧ is_Some (error s'))).
Proof.
  simpl. rewrite handleSubmit_settle_spec.
  destruct (settle_result o) as [payload|err] eqn:Hs; simpl; [|naive_solver].
  split_and!; try done. left. eauto using settle_result_truthy.
Qed.

Lemma begin_keeps_result s :
  extractedData (handleSubmit_begin s).1 = extractedData s ∨
  extractedData (handleSubmit_begin s).1 = JNull.
Proof.
  rewrite handleSubmit_begin_spec. destruct (validate _ _); simpl; auto.
Qed.

Lemma click_keeps_result s :
  extractedData (button_click s).1 = extractedData s ∨
  extractedData (button_click s).1 = JNull.
Proof.
  unfold button_click. destruct (submit_disabled s); [by left|].
  apply begin_keeps_result.
Qed.

End GuardLemmas.

Section Guards.
Context {engine : Engine}.
Implicit Types (s : ViewState).

(** C40. The guards agree with the specified validator except on one kind
    of input: with a file present, a text that is not empty but made of
    white space alone is rejected by the specification and accepted by the
    code. *)
Theorem validate_differs_on_whitespace r text :
  validate r text ≠ spec_validate r text ↔
  is_Some r ∧ text ≠ "" ∧ whitespace_only text = true.
Proof.
  unfold validate, spec_validate, truthy_string.
  destruct r as [file|]; [|split; [done|by intros [[] _]]].
  destruct (String.eqb_spec text "") as [->|Hne]; simpl; [naive_solver|].
  destruct (whitespace_only text); naive_solver.
Qed.

(** [handleSubmit] does not look at the loading flag: called while a
    request is awaited, with a file and a text, it issues another
    request. *)
Theorem handleSubmit_begin_unguarded s file :
  resume s = Some file → jobDescription s ≠ "" →
  handleSubmit_begin (setIsLoading true s) =
    (in_flight s, Some (request_for file (jobDescription s))).
Proof.
  intros Hr Hj. rewrite handleSubmit_begin_spec. simpl.
  by rewrite Hr, (proj2 (validate_ok_iff _ _ file)).
Qed.

(** A click on the disabled button changes nothing and issues no
    request; the button is disabled while a request is awaited. *)
Theorem button_click_disabled s :
  submit_disabled s = true → button_click s = (s, None).
Proof. apply click_disabled. Qed.

(** A click on the enabled button always passes validation: it moves
    to the in-flight state and issues the request for the held file and
    text.  The two validation messages cannot be produced by a click. *)
Theorem button_click_enabled s :
  submit_disabled s = false →
  ∃ file, resume s = Some file ∧
    button_click s = (in_flight s, Some (request_for file (jobDescription s))).
Proof. apply click_enabled. Qed.

(** However a request settles, the loading flag is cleared, the file
    and the text are untouched, and the result is all or nothing: either
    a truthy result with the error left as it was, or no result and an
    error message. *)
Theorem handleSubmit_settle_all_or_nothing o s :
  let s' := handleSubmit_settle o s in
  isLoading s' = false ∧ resume s' = resume s ∧
  jobDescription s' = jobDescription s ∧
  ((truthy (extractedData s') = true ∧ error s' = error s) ∨
   (extractedData s' = JNull ∧ is_Some (error s'))).
Proof. apply settle_shape. Qed.

End Guards.

(** ** The outcomes, on the samples *)

Lemma submit_without_file_witness :
  handleSubmit (engine := sample_engine) sample_service initial_state =
    (failed_with "Please upload a resume" initial_state, []).
Proof. apply (submit_without_file (engine := sample_engine)). reflexivity. Defined.

Lemma submit_without_job_text_witness :
  handleSubmit (engine := sample_engine) sample_service
    (setResume (Some sample_pdf) initial_state) =
    (failed_with "Please enter a job description"
       (setResume (Some sample_pdf) initial_state), []).
Proof.
  apply (submit_without_job_text (engine := sample_engine) _ _ sample_pdf);
    reflexivity.
Defined.

Lemma submit_success_witness :
  handleSubmit (engine := sample_engine) sample_service ready_state =
    ({| resume := Some sample_pdf;
        jobDescription := "Proof engineer";
        extractedData := encode sample_result;
        isLoading := false;
        error := None |},
     [sample_request]).
Proof.
  apply (submit_success (engine := sample_engine) sample_service ready_state
           sample_pdf [("data", encode sample_result)] (encode sample_result));
    [reflexivity | discriminate | reflexivity | reflexivity | reflexivity].
Defined.

Lemma submit_server_error_witness :
  handleSubmit (engine := sample_engine)
    (λ _, Fulfilled (JObject [("error", JString "No text found in PDF")]))
    ready_state =
    (failed_with "No text found in PDF" ready_state, [sample_request]).
Proof.
  apply (submit_server_error (engine := sample_engine) _ ready_state sample_pdf
           [("error", JString "No text found in PDF")] "No text found in PDF");
    [reflexivity | discriminate | reflexivity | reflexivity | reflexivity
    | discriminate].
Defined.

Lemma submit_malformed_response_witness :
  handleSubmit (engine := sample_engine) (λ _, Fulfilled (JObject []))
    ready_state =
    (failed_with "Invalid response from server" ready_state, [sample_request]).
Proof.
  apply (submit_malformed_response (engine := sample_engine) _ ready_state
           sample_pdf (JObject []));
    [reflexivity | discriminate | reflexivity | reflexivity | reflexivity
    | reflexivity].
Defined.

Lemma submit_unreadable_body_witness :
  handleSubmit (engine := sample_engine) (λ _, Fulfilled JNull) ready_state =
    (failed_with "Cannot read properties of null (reading 'error')" ready_state,
     [sample_request]).
Proof.
  apply (submit_unreadable_body (engine := sample_engine) _ ready_state
           sample_pdf JNull);
    [reflexivity | discriminate | reflexivity | reflexivity].
Defined.

Lemma submit_transport_failure_witness :
  handleSubmit (engine := sample_engine)
    (λ _, Rejected (ThrownError "Network Error")) ready_state =
    (failed_with "Network Error" ready_state, [sample_request]).
Proof.
  apply (submit_transport_failure (engine := sample_engine) _ ready_state
           sample_pdf (ThrownError "Network Error"));
    [reflexivity | discriminate | reflexivity].
Defined.

Lemma validate_differs_on_whitespace_witness :
  validate (Some sample_pdf) "   " ≠ spec_validate (Some sample_pdf) "   ".
Proof.
  apply (proj2 (validate_differs_on_whitespace (Some sample_pdf) "   ")).
  split; [by eexists | split; [discriminate | reflexivity]].
Defined.

Lemma handleSubmit_begin_unguarded_witness :
  handleSubmit_begin (engine := sample_engine) (setIsLoading true ready_state) =
    (in_flight ready_state, Some sample_request).
Proof.
  apply (handleSubmit_begin_unguarded (engine := sample_engine)
           ready_state sample_pdf); [reflexivity | discriminate].
Defined.

Lemma button_click_disabled_witness :
  button_click (engine := sample_engine) (in_flight ready_state) =
    (in_flight ready_state, None).
Proof. apply (button_click_disabled (engine := sample_engine)). reflexivity. Defined.

Lemma button_click_enabled_witness :
  ∃ file, resume ready_state = Some file ∧
    button_click (engine := sample_engine) ready_state =
      (in_flight ready_state, Some (request_for file (jobDescription ready_state))).
Proof. apply (button_click_enabled (engine := sample_engine)). reflexivity. Defined.
