(* ===== verification/Exchange.v ===== *)
(** * Exchange: the HTTP exchange behind the awaited call

    [handleSubmit] awaits [axios.post] (src/src/App.tsx, lines 51-53) and
    sees only how the promise settles.  What the transport makes of the
    exchange with the server is the library's: a reply with a status from
    200 to 299 fulfils the promise with the decoded body, every other
    reply and the lack of one reject it with an [Error].  The wording of
    that [Error] is a parameter (class [Transport]); [sample_transport]
    words it as axios does.

    The theorems follow a reply through [handleSubmit]: which message the
    user reads for each reply; that an error text the server sends with a
    failure status is not the one shown; and that whatever the reply, the
    [catch] block receives an [Error], so that its fallback text is never
    shown. *)

From stdpp Require Import base tactics option list strings pretty.
From S2P Require Import Prelude JsValue Model ViewState Transport Submission.

(** What the exchange comes to: no reply (the network failed, the request
    was aborted or timed out), or a status with the decoded body. *)
Inductive HttpReply : Type :=
| NoReply
| Reply (status : nat) (body : JsValue).

(** The statuses that count as success. *)
Definition validateStatus (status : nat) : bool :=
  bool_decide (200 ≤ status < 300).

(** The wording of the transport's own errors. *)
Class Transport : Type := {
  failure_message : HttpReply → string;
}.

(** A reply that rejects the promise. *)
Definition is_failure (reply : HttpReply) : bool :=
  match reply with
  | NoReply => true
  | Reply status _ => negb (validateStatus status)
  end.

Section WithTransport.
Context {transport : Transport}.

(** How [axios.post] settles for a reply. *)
Definition axios_post (reply : HttpReply) : Outcome :=
  match reply with
  | NoReply => Rejected (ThrownError (failure_message reply))
  | Reply status body =>
      if validateStatus status then Fulfilled body
      else Rejected (ThrownError (failure_message reply))
  end.

(** [handleSubmit] against a server. *)
Definition submit_to {engine : Engine} (server : Request → HttpReply)
    (s : ViewState) : ViewState * list Request :=
  handleSubmit (λ request, axios_post (server request)) s.

End WithTransport.

(** [err instanceof Error] (line 63). *)
Definition thrown_is_Error (err : Thrown) : bool :=
  match err with
  | ThrownError _ | ThrownTypeError _ => true
  | ThrownValue _ => false
  end.

(** The body [{ error: text }]. *)
Definition error_body (text : string) : JsValue := JObject [("error", JString text)].

(** The transport's errors as axios words them. *)
Definition sample_transport : Transport :=
  {| failure_message reply :=
       match reply with
       | NoReply => "Network Error"
       | Reply status _ => "Request failed with status code " +:+ pretty status
       end |}.

(** A server that refuses every request with status 422 and a reason. *)
Definition sample_refusal (_ : Request) : HttpReply :=
  Reply 422 (error_body "Could not read the PDF").

(** ** What is thrown is an [Error] *)

Section Thrown.
Context {engine : Engine}.

Lemma to_string_throw v e : to_string v = Throw e → thrown_is_Error e = true.
Proof.
  revert e. induction v as [| | | | |items IH|fields _] using JsValue_ind;
    intros e; simpl; try done.
  - destruct (traverse _ items) eqn:Ht; simpl; [done|]. intros [= <-].
    eapply (traverse_throw _ (λ e, thrown_is_Error e = true)); [|done].
    eapply Forall_impl; [exact IH|]. simpl. intros x Hx e'.
    destruct (is_nullish x); [done|apply Hx].
  - destruct (has_field _ _); [by intros [= <-]|done].
Qed.

Lemma new_Error_is_Error v : thrown_is_Error (new_Error v) = true.
Proof.
  unfold new_Error. destruct (to_string v) eqn:Hs; [done|]. by eapply to_string_throw.
Qed.

(** Everything thrown before the [await] is an [Error]. *)
Lemma try_before_await_throw r j e :
  try_before_await r j = Throw e → thrown_is_Error e = true.
Proof.
  rewrite try_before_await_spec. destruct (validate r j) eqn:Hv; [done|].
  intros [= <-]. apply validate_throw_iff in Hv. naive_solver.
Qed.

(** Everything thrown after a fulfilled [await] is an [Error]. *)
Lemma settle_result_fulfilled_throw data e :
  settle_result (Fulfilled data) = Throw e → thrown_is_Error e = true.
Proof.
  simpl. destruct (classify data); intros [= <-]; [apply new_Error_is_Error|done..].
Qed.

(** On an [Error] the fallback text is not used. *)
Lemma message_or_Error e fallback fallback' :
  thrown_is_Error e = true → message_or fallback e = message_or fallback' e.
Proof. by destruct e. Qed.

End Thrown.

(** ** A reply, followed through [handleSubmit] *)

Section Replies.
Context {engine : Engine} {transport : Transport}.
Implicit Types (s : ViewState) (reply : HttpReply).

Lemma axios_post_failure reply :
  is_failure reply = true →
  axios_post reply = Rejected (ThrownError (failure_message reply)).
Proof. destruct reply; simpl; [done|]. by intros ->%negb_true_iff. Qed.

Lemma axios_post_success status body :
  validateStatus status = true → axios_post (Reply status body) = Fulfilled body.
Proof. simpl. by intros ->. Qed.

Lemma axios_post_throw reply e :
  settle_result (axios_post reply) = Throw e → thrown_is_Error e = true.
Proof.
  destruct (is_failure reply) eqn:Hf.
  - rewrite axios_post_failure by done. by intros [= <-].
  - destruct reply as [|status body]; [done|]. apply negb_false_iff in Hf.
    rewrite axios_post_success by done. apply settle_result_fulfilled_throw.
Qed.

Lemma settle_error_body text s :
  text ≠ "" →
  handleSubmit_settle (Fulfilled (error_body text)) s = failed_with text s.
Proof.
  intros Ht. rewrite handleSubmit_settle_spec. unfold settle_result.
  rewrite classify_server_error; [done..|].
  simpl. by apply truthy_string_spec.
Qed.

(** A failed exchange shows the transport's message, whatever the
    body: when there is no reply, or a reply with a status outside
    200-299, settling ends in the failed state with the transport's
    diagnostic, and nothing of the body is read. *)
Theorem failed_exchange_shows_diagnostic reply s :
  is_failure reply = true →
  handleSubmit_settle (axios_post reply) s
  = failed_with (failure_message reply) s.
Proof.
  intros Hf. by rewrite axios_post_failure, handleSubmit_settle_spec.
Qed.

(** C35. The error text of the server is shown only under a success
    status: for the body [{ error: text }] with a non-empty text, the
    message is [text] when the status is from 200 to 299 and the
    transport's diagnostic for every other status. *)
Theorem server_error_needs_success_status status text s :
  text ≠ "" →
  handleSubmit_settle (axios_post (Reply status (error_body text))) s
  = failed_with (if validateStatus status then text
                 else failure_message (Reply status (error_body text))) s.
Proof.
  intros Ht. destruct (validateStatus status) eqn:Hs.
  - by rewrite axios_post_success, settle_error_body.
  - rewrite axios_post_failure, handleSubmit_settle_spec; [done|].
    simpl. by rewrite Hs.
Qed.


End Replies.

(** ** On the samples *)

Lemma failed_exchange_shows_diagnostic_witness :
  handleSubmit_settle (engine := sample_engine)
    (axios_post (transport := sample_transport) NoReply) (in_flight ready_state)
  = failed_with "Network Error" (in_flight ready_state).
Proof.
  apply (failed_exchange_shows_diagnostic (engine := sample_engine)
           (transport := sample_transport) NoReply).
  reflexivity.
Defined.

Lemma server_error_needs_success_status_witness :
  handleSubmit_settle (engine := sample_engine)
    (axios_post (transport := sample_transport)
       (Reply 422 (error_body "Could not read the PDF"))) (in_flight ready_state)
  = failed_with "Request failed with status code 422" (in_flight ready_state).
Proof.
  apply (server_error_needs_success_status (engine := sample_engine)
           (transport := sample_transport) 422 "Could not read the PDF").
  discriminate.
Defined.

(** A refusal with status 422 and a reason in the body: the user reads
    the status, not the reason, and the request was issued once. *)
Example refusal_shows_status :
  submit_to (engine := sample_engine) (transport := sample_transport)
    sample_refusal ready_state
  = (failed_with "Request failed with status code 422" ready_state, [sample_request]).
Proof. reflexivity. Qed.
