(* ===== verification/Chart.v ===== *)
(** * Chart: the data handed to the pie chart

    [renderPieChart] (src/src/App.tsx, lines 70-100): from the stored result
    to the element it returns, or [null] when there is nothing to chart.
    The element is kept as a record of what the chart widget receives: the
    two labels, the one dataset with its two slices, colours and border,
    and the options.

    The second slice is [100 - matchPercentage], a binary64 subtraction
    after ToNumber.  The theorems say what the two slices are for a result
    of the declared shape; that for every binary64 percentage from 0 to
    100 the second slice is again a percentage and the two add up to
    exactly 100, rounding included; that the second slice is the exact
    complement from 50 to 100 and for every multiple of [2^-46], the
    integers among them; that the slices of a typed result are valid
    numbers; and that above 100 the second slice is negative: nothing is
    clamped. *)

From Stdlib Require Import ZArith SpecFloat.
From stdpp Require Import base tactics option list strings.
From S2P Require Import Prelude JsValue Binary64 Model ViewState Types.

Record Dataset : Type := mkDataset {
  data : list JsValue;
  backgroundColor : list string;
  borderWidth : number;
}.

Record ChartData : Type := mkChartData {
  labels : list string;
  datasets : list Dataset;
}.

(** [options.plugins.legend.position]. *)
Record ChartOptions : Type := mkChartOptions {
  legend_position : string;
}.

(** The returned element: the wrapper's class and the chart's two props. *)
Record PieChart : Type := mkPieChart {
  className : string;
  pie_data : ChartData;
  pie_options : ChartOptions;
}.

Section WithEngine.
Context {engine : Engine}.

Definition renderPieChart (extractedData : JsValue) : Throws (option PieChart) :=
  if negb (truthy (get_prop_opt extractedData "skillMatch")) then Ok None
  else
    skillMatch ← get_prop extractedData "skillMatch";
    first ← get_prop skillMatch "matchPercentage";
    skillMatch' ← get_prop extractedData "skillMatch";
    percentage ← get_prop skillMatch' "matchPercentage";
    second ← js_sub (JNumber (num_of_Z 100)) percentage;
    let data :=
      {| labels := ["Matching Skills"; "Missing Skills"];
         datasets :=
           [ {| data := [first; JNumber second];
                backgroundColor := ["#4CAF50"; "#FF5252"];
                borderWidth := num_of_Z 0 |} ] |} in
    let options := {| legend_position := "bottom" |} in
    Ok (Some {| className := "w-64 h-64 mx-auto";
                pie_data := data;
                pie_options := options |}).

End WithEngine.

(** ** Reference definitions the theorems are stated with *)

(** The chart for the two slices [a] and [b]. *)
Definition pie_of (a b : JsValue) : PieChart :=
  {| className := "w-64 h-64 mx-auto";
     pie_data :=
       {| labels := ["Matching Skills"; "Missing Skills"];
          datasets :=
            [ {| data := [a; b];
                 backgroundColor := ["#4CAF50"; "#FF5252"];
                 borderWidth := num_of_Z 0 |} ] |};
     pie_options := {| legend_position := "bottom" |} |}.

(** [extractedData.skillMatch.matchPercentage], read leniently. *)
Definition percentage_of (v : JsValue) : JsValue :=
  get_prop_opt (get_prop_opt v "skillMatch") "matchPercentage".

(** [100 - p] and [p + (100 - p)] on numbers. *)
Definition complement (p : number) : number := num_sub (num_of_Z 100) p.
Definition slice_sum (p : number) : number := num_add p (complement p).

(** The percentage written with two decimals: [k / 100], rounded to the
    nearest binary64 as a decimal literal is. *)
Definition hundredths (k : Z) : number := num_div (num_of_Z k) (num_of_Z 100).

(** A value that ToNumber converts without calling into the value: every
    decoded value but an array or an object. *)
Definition is_primitive (v : JsValue) : bool :=
  match v with
  | JArray _ | JObject _ => false
  | _ => true
  end.

(** The check the theorem on integral percentages evaluates. *)
Definition integer_slices_ok (k : Z) : bool :=
  bool_decide (complement (num_of_Z k) = num_of_Z (100 - k))
  && bool_decide (slice_sum (num_of_Z k) = num_of_Z 100).

(** ** What the function computes *)

Section Projection.
Context {engine : Engine}.
Implicit Types (v : JsValue) (r : ExtractionResult).

Lemma get_prop_opt_truthy_object v k :
  truthy (get_prop_opt v k) = true → ∃ fields, v = JObject fields.
Proof. destruct v; try done. by eexists. Qed.

Lemma renderPieChart_spec v :
  renderPieChart v =
  if truthy (get_prop_opt v "skillMatch") then
    second ← js_sub (JNumber (num_of_Z 100)) (percentage_of v);
    Ok (Some (pie_of (percentage_of v) (JNumber second)))
  else Ok None.
Proof.
  unfold renderPieChart.
  destruct (truthy (get_prop_opt v "skillMatch")) eqn:Ht; [|done].
  destruct (get_prop_opt_truthy_object _ _ Ht) as [fields ->].
  cbn [negb get_prop get_prop_opt mbind result_bind] in *.
  by rewrite (get_prop_truthy _ _ Ht).
Qed.

Lemma percentage_of_decode v r :
  decode v = Some r →
  truthy (get_prop_opt v "skillMatch") = true ∧
  percentage_of v = JNumber (matchPercentage (skillMatch r)).
Proof.
  intros (_ & _ & _ & _ & _ & Hm)%decode_Some.
  destruct (decode_skillMatch_object _ _ Hm) as [fields Hf].
  apply decode_skillMatch_Some in Hm as (_ & _ & _ & Hp).
  unfold percentage_of. by rewrite Hp, Hf.
Qed.

Lemma renderPieChart_decode v r :
  decode v = Some r →
  renderPieChart v =
    Ok (Some (pie_of (JNumber (matchPercentage (skillMatch r)))
                     (JNumber (complement (matchPercentage (skillMatch r)))))).
Proof.
  intros [Ht Hp]%percentage_of_decode. by rewrite renderPieChart_spec, Ht, Hp.
Qed.

(** The slices are well formed when the stored value is: the first as it
    was stored, the second a valid number. *)
Lemma renderPieChart_wf {laws : EngineLaws engine} v chart :
  wf_value v = true → renderPieChart v = Ok (Some chart) →
  ∃ p q, chart = pie_of p (JNumber q) ∧ wf_value p = true ∧ num_valid q = true.
Proof.
  intros Hwf. rewrite renderPieChart_spec. destruct (truthy _); [|done].
  assert (wf_value (percentage_of v) = true) by by do 2 apply wf_get_prop_opt.
  destruct (js_sub _ _) as [q|] eqn:Hq; [|done]. intros [= <-].
  eexists _, q. split_and!; [done..|].
  by apply (js_sub_valid (JNumber (num_of_Z 100)) _ _ (num_of_Z_valid 100) H Hq).
Qed.

Lemma js_sub_primitive a v :
  is_primitive v = true → ∃ n, js_sub (JNumber a) v = Ok n.
Proof. destruct v; try done; by eexists. Qed.

(** [renderPieChart] returns [null] exactly when the stored value has
    no truthy [skillMatch]: in particular when there is no result. *)
Theorem renderPieChart_none v :
  renderPieChart v = Ok None ↔ truthy (get_prop_opt v "skillMatch") = false.
Proof.
  rewrite renderPieChart_spec.
  destruct (truthy (get_prop_opt v "skillMatch")); [|done].
  by destruct (js_sub _ _).
Qed.

(** C11. For a stored value of the declared shape, the chart has the two
    labels, one dataset, and the two slices [matchPercentage] and
    [100 - matchPercentage]. *)
Theorem renderPieChart_conforming v r :
  decode v = Some r →
  renderPieChart v =
    Ok (Some (pie_of (JNumber (matchPercentage (skillMatch r)))
                     (JNumber (complement (matchPercentage (skillMatch r)))))).
Proof. apply renderPieChart_decode. Qed.

(** Typing of the projection: on a value of the declared type whose
    numbers are valid binary64, [renderPieChart] does not throw, and the
    dataset it returns holds two valid numbers, the percentage and its
    complement. *)
Theorem renderPieChart_typed v :
  has_type v ExtractionResult_ty → wf_value v = true →
  ∃ p, renderPieChart v = Ok (Some (pie_of (JNumber p) (JNumber (complement p))))
       ∧ num_valid p = true ∧ num_valid (complement p) = true.
Proof.
  intros [r Hr]%decode_typed Hwf. exists (matchPercentage (skillMatch r)).
  destruct (percentage_of_decode _ _ Hr) as [_ Hp].
  assert (num_valid (matchPercentage (skillMatch r)) = true) as Hv.
  { change (wf_value (JNumber (matchPercentage (skillMatch r))) = true).
    rewrite <-Hp. by do 2 apply wf_get_prop_opt. }
  split_and!; [by apply renderPieChart_decode | done |].
  by apply num_sub_valid; [apply num_of_Z_valid|].
Qed.

(** When [matchPercentage] is not an array or an object, the function
    does not throw, whatever the value is. *)
Theorem renderPieChart_total v :
  is_primitive (percentage_of v) = true →
  ∃ chart, renderPieChart v = Ok chart.
Proof.
  intros Hp. rewrite renderPieChart_spec.
  destruct (truthy _); [|by eexists].
  destruct (js_sub_primitive (num_of_Z 100) _ Hp) as [n ->]. by eexists.
Qed.

End Projection.

(** ** The two slices as numbers *)

(** For every integral percentage from 0 to 100 the second slice is
    the exact complement and the two slices add up to exactly 100. *)
Theorem slices_of_integer_percentage (k : Z) :
  (0 ≤ k ≤ 100)%Z →
  complement (num_of_Z k) = num_of_Z (100 - k) ∧
  slice_sum (num_of_Z k) = num_of_Z 100.
Proof.
  intros Hk.
  assert (integer_slices_ok k = true) as Hok by by_evaluation_on 0%Z 101%Z.
  apply andb_true_iff in Hok as [H1 H2].
  by apply bool_decide_eq_true in H1, H2.
Qed.

(** At the boundaries the slices are (0, 100) and (100, 0); a
    percentage that is [NaN] gives a [NaN] second slice. *)
Theorem slices_at_boundaries :
  complement (num_of_Z 0) = num_of_Z 100 ∧
  complement (num_of_Z 100) = num_of_Z 0 ∧
  complement num_nan = num_nan.
Proof. by vm_compute. Qed.

(** ** The two slices for every percentage *)

Section Rounding.
Local Open Scope Z_scope.

Lemma num_of_Z_100 : num_of_Z 100 = S754_finite false 7036874417766400 (-46).
Proof. reflexivity. Qed.

Lemma units_100 : units (num_of_Z 100) = 7036874417766400 * 2 ^ 1028.
Proof. by vm_compute. Qed.

Lemma units_50 : 2 * units (num_of_Z 50) = units (num_of_Z 100).
Proof. by vm_compute. Qed.

Lemma in_units_100 : in_units (num_of_Z 100).
Proof. rewrite num_of_Z_100. simpl. lia. Qed.

(** A percentage in range is zero, or 100, or a positive number below. *)
Lemma percentage_cases p :
  num_valid p = true →
  num_leb (num_of_Z 0) p = true → num_leb p (num_of_Z 100) = true →
  (∃ s, p = S754_zero s) ∨ p = num_of_Z 100 ∨
  (in_units p ∧ 0 < units p < units (num_of_Z 100)).
Proof.
  intros Hv H0 H100. destruct p as [s|s| |[] m e]; try by vm_compute in H0.
  - left. by eexists.
  - destruct s; [by vm_compute in H0 | by vm_compute in H100].
  - right. pose proof (valid_in_units _ _ Hv) as Hin.
    rewrite num_of_Z_100 in *. unfold num_leb, SFleb in H100.
    rewrite compare_units in H100 by done.
    destruct (Z.compare_spec (scaled m e) (scaled 7036874417766400 (-46)));
      [left; by apply valid_units_inj | right | done].
    split; [done|]. split; [by apply scaled_pos | done].
Qed.

(** Values within half a last place of 100 round to 100. *)
Lemma round_near_100 d :
  2 * Z.abs d ≤ 2 ^ 1028 → round_number false (units (num_of_Z 100) + d) = num_of_Z 100.
Proof.
  intros Hd. rewrite units_100. unfold round_number.
  replace (ulp_exp _) with 1028.
  - by rewrite rne_near.
  - unfold ulp_exp. rewrite (Z.log2_unique _ 1080); lia.
Qed.

(** Below 100 the second slice is the rounded difference. *)
Lemma complement_below p :
  in_units p → 0 < units p < units (num_of_Z 100) →
  complement p = round_number false (units (num_of_Z 100) - units p).
Proof.
  intros Hin Hp. unfold complement.
  assert (units (num_of_Z 100) < 2 ^ 1082) by (rewrite units_100; lia).
  rewrite (num_sub_units _ _ in_units_100 Hin) by lia.
  destruct (Z.ltb_spec (units (num_of_Z 100)) (units p)); [lia|].
  rewrite Z.abs_eq, overflow_round_number; [done|lia..].
Qed.

(** The rounded difference is at most half a last place of 100 away. *)
Lemma complement_error v :
  0 < v ≤ units (num_of_Z 100) → 2 * Z.abs (round_units v - v) ≤ 2 ^ 1028.
Proof.
  intros Hv. pose proof (round_units_error v).
  pose proof (ulp_exp_mono v (units (num_of_Z 100)) Hv) as Hulp.
  change (ulp_exp (units (num_of_Z 100))) with 1028 in Hulp. lia.
Qed.

Lemma slice_sum_below p :
  in_units p → 0 < units p < units (num_of_Z 100) → slice_sum p = num_of_Z 100.
Proof.
  intros Hin Hp. unfold slice_sum. rewrite complement_below by done.
  set (D := units (num_of_Z 100) - units p).
  pose proof (complement_error D ltac:(lia)).
  assert (units (num_of_Z 100) < 2 ^ 1082) by (rewrite units_100; lia).
  rewrite (num_add_units _ _ Hin (in_units_round_number D)).
  rewrite units_round_number by lia.
  replace (units p + round_units D)
    with (units (num_of_Z 100) + (round_units D - D)) by lia.
  rewrite round_near_100 by done. reflexivity.
Qed.

Lemma slice_sum_in_range p :
  num_valid p = true →
  num_leb (num_of_Z 0) p = true → num_leb p (num_of_Z 100) = true →
  slice_sum p = num_of_Z 100.
Proof.
  intros Hv H0 H100.
  destruct (percentage_cases p Hv H0 H100) as [[s ->] | [-> | [Hin Hlt]]].
  - by destruct s.
  - reflexivity.
  - by apply slice_sum_below.
Qed.

(** A value up to 100 does not round beyond 100. *)
Lemma round_units_le_100 v :
  0 < v ≤ units (num_of_Z 100) → round_units v ≤ units (num_of_Z 100).
Proof.
  intros Hv. pose proof (round_units_error v). pose proof (complement_error v Hv).
  destruct (Z.le_gt_cases (2 * (units (num_of_Z 100) - v)) (2 ^ 1028)); [|lia].
  rewrite <-units_round_number by lia.
  replace v with (units (num_of_Z 100) + (v - units (num_of_Z 100))) by lia.
  rewrite round_near_100; lia.
Qed.

(** C12. For every binary64 percentage from 0 to 100 the two slices add up
    to exactly 100: the rounding of [100 - p] is undone by the rounding of
    the sum. *)
Theorem slices_sum_to_100 p :
  num_valid p = true →
  num_leb (num_of_Z 0) p = true → num_leb p (num_of_Z 100) = true →
  slice_sum p = num_of_Z 100.
Proof. apply slice_sum_in_range. Qed.

Lemma complement_range p :
  num_valid p = true →
  num_leb (num_of_Z 0) p = true → num_leb p (num_of_Z 100) = true →
  num_valid (complement p) = true ∧
  num_leb (num_of_Z 0) (complement p) = true ∧
  num_leb (complement p) (num_of_Z 100) = true.
Proof.
  intros Hv H0 H100.
  destruct (percentage_cases p Hv H0 H100) as [[s ->] | [-> | [Hin Hlt]]];
    [by destruct s | done |].
  rewrite complement_below by done.
  set (D := units (num_of_Z 100) - units p).
  assert (units (num_of_Z 100) < 2 ^ 1082) by (rewrite units_100; lia).
  pose proof (round_number_valid false D ltac:(lia)) as Hvalid.
  split; [done|]. split.
  - destruct (round_number_finite false D) as (m & e & ->). done.
  - rewrite leb_units
      by first [apply in_units_round_number | apply in_units_100 | done].
    rewrite units_round_number by lia.
    apply Z.leb_le, round_units_le_100. lia.
Qed.

(** For every binary64 percentage from 0 to 100 the second slice is a
    percentage too: a valid number from 0 to 100. *)
Theorem complement_in_range p :
  num_valid p = true →
  num_leb (num_of_Z 0) p = true → num_leb p (num_of_Z 100) = true →
  num_valid (complement p) = true ∧
  num_leb (num_of_Z 0) (complement p) = true ∧
  num_leb (complement p) (num_of_Z 100) = true.
Proof. apply complement_range. Qed.

(** Where the difference is a multiple of its last place, the second
    slice is the difference. *)
Lemma complement_exact_below p :
  in_units p → 0 < units p < units (num_of_Z 100) →
  (2 ^ ulp_exp (units (num_of_Z 100) - units p) | units (num_of_Z 100) - units p) →
  units (complement p) = units (num_of_Z 100) - units p.
Proof.
  intros Hin Hp Hdiv.
  rewrite complement_below, units_round_number by (done || lia).
  by apply round_units_exact.
Qed.

(** A multiple of the last place of 100 below 100 is a multiple of its
    own last place. *)
Lemma multiple_below_100 d :
  0 < d < units (num_of_Z 100) → (2 ^ 1028 | d) → (2 ^ ulp_exp d | d).
Proof.
  intros Hd Hdiv. pose proof (Z.log2_le_mono d (units (num_of_Z 100)) ltac:(lia)) as Hlog.
  change (Z.log2 (units (num_of_Z 100))) with 1080 in Hlog.
  etrans; [apply (pow2_divide _ 1028)|done]. unfold ulp_exp. lia.
Qed.

(** C17. Where the second slice is exact: for a percentage from 50 to
    100, and for a percentage from 0 to 100 that is a multiple of
    [2^-46] (every integer is, and every number with at most 46 binary
    places), [100 - p] is computed without rounding: its value is 100
    minus the value of [p]. *)
Theorem complement_exact p :
  num_valid p = true →
  num_leb (num_of_Z 0) p = true → num_leb p (num_of_Z 100) = true →
  num_leb (num_of_Z 50) p = true ∨ (2 ^ 1028 | units p) →
  units (complement p) = units (num_of_Z 100) - units p.
Proof.
  intros Hv H0 H100 Hexact.
  destruct (percentage_cases p Hv H0 H100) as [[s ->] | [-> | [Hin Hlt]]];
    [by destruct s | done |].
  destruct Hexact as [H50 | Hdiv].
  - apply sterbenz; [apply in_units_100 | done..|].
    rewrite (leb_units (num_of_Z 50)) in H50 by done.
    apply Z.leb_le in H50. pose proof units_50. lia.
  - apply complement_exact_below, multiple_below_100; [done..|lia|].
    apply Z.divide_sub_r; [|done]. rewrite units_100. by eexists.
Qed.

(** The percentage is not clamped: for every percentage above 100,
    infinite ones included, the second slice is negative. *)
Theorem complement_negative_above p :
  num_valid p = true → num_ltb (num_of_Z 100) p = true →
  num_ltb (complement p) (num_of_Z 0) = true.
Proof.
  intros Hv H100. destruct p as [s|s| |[] m e]; try by vm_compute in H100.
  - by destruct s.
  - pose proof (valid_in_units _ _ Hv) as Hin.
    rewrite (ltb_units _ _ in_units_100 Hin) in H100 by done.
    unfold complement, num_ltb, SFltb.
    rewrite (num_sub_units _ _ in_units_100 Hin) by lia.
    rewrite H100. by rewrite overflow_round_number_sign.
Qed.

End Rounding.

(** ** On the samples *)

Lemma renderPieChart_none_witness :
  renderPieChart (engine := sample_engine) JNull = Ok None.
Proof.
  apply (proj2 (renderPieChart_none (engine := sample_engine) JNull)).
  reflexivity.
Defined.

Lemma renderPieChart_conforming_witness :
  renderPieChart (engine := sample_engine) (encode sample_result) =
    Ok (Some (pie_of (JNumber (num_of_Z 67)) (JNumber (complement (num_of_Z 67))))).
Proof.
  apply (renderPieChart_conforming (engine := sample_engine)
           (encode sample_result) sample_result).
  reflexivity.
Defined.

Lemma renderPieChart_total_witness :
  ∃ chart,
    renderPieChart (engine := sample_engine)
      (JObject [("skillMatch", JObject [("matchPercentage", JString "50")])])
    = Ok chart.
Proof.
  apply (renderPieChart_total (engine := sample_engine)). reflexivity.
Defined.

Lemma slices_of_integer_percentage_witness :
  complement (num_of_Z 67) = num_of_Z (100 - 67) ∧
  slice_sum (num_of_Z 67) = num_of_Z 100.
Proof. apply (slices_of_integer_percentage 67). lia. Defined.

Lemma slices_sum_to_100_witness :
  slice_sum (hundredths 6667) = num_of_Z 100.
Proof. by apply (slices_sum_to_100 (hundredths 6667)). Defined.

Lemma complement_in_range_witness :
  num_valid (complement (hundredths 6667)) = true ∧
  num_leb (num_of_Z 0) (complement (hundredths 6667)) = true ∧
  num_leb (complement (hundredths 6667)) (num_of_Z 100) = true.
Proof. by apply (complement_in_range (hundredths 6667)). Defined.

Lemma complement_exact_witness :
  units (complement (hundredths 6667))
  = (units (num_of_Z 100) - units (hundredths 6667))%Z.
Proof. apply (complement_exact (hundredths 6667)); try done. by left. Defined.

Lemma renderPieChart_typed_witness :
  ∃ p, renderPieChart (engine := sample_engine) (encode sample_result)
       = Ok (Some (pie_of (JNumber p) (JNumber (complement p))))
       ∧ num_valid p = true ∧ num_valid (complement p) = true.
Proof.
  apply (renderPieChart_typed (engine := sample_engine) (encode sample_result)).
  - apply check_type_spec. reflexivity.
  - reflexivity.
Defined.

Lemma complement_negative_above_witness :
  num_ltb (complement (hundredths 10001)) (num_of_Z 0) = true.
Proof. by apply (complement_negative_above (hundredths 10001)). Defined.
