(* ===== verification/Machine.v ===== *)
(** * Machine: the component under a sequence of events

    The handlers of [Submission] driven by what can happen to the mounted
    component: a drop on the file picker, a keystroke in the text area, a
    click on the button, and the settling of an awaited request.  A world
    is the component's state with the requests in flight and the log of
    every request issued.  [EvCall] is a call of [handleSubmit] that does
    not go through the button: the interface never produces it, and it is
    there to state what the button's guard is needed for.

    Handlers run to completion (or to their [await]) before the next event:
    the program has one thread of control, and [fire] is one such run.
    [drain] is the service at work, settling what is in flight; the
    section on the file picker is stated against the interface
    [DropzoneLaws] of [Transport]. *)

From stdpp Require Import base tactics option list strings.
From S2P Require Import Prelude JsValue Model ViewState Transport Submission.

Record World : Type := mkWorld {
  view : ViewState;
  pending : list Request;
  issued : list Request;
}.

Inductive Event : Type :=
| EvDrop (acceptedFiles : list File)
| EvChange (value : string)
| EvClick
| EvSettle (n : nat) (o : Outcome)
| EvCall.

Definition initial_world : World :=
  {| view := initial_state; pending := []; issued := [] |}.

Definition with_view (f : ViewState → ViewState) (w : World) : World :=
  {| view := f (view w); pending := pending w; issued := issued w |}.

(** The state a handler left and the request it issued, if any. *)
Definition send (w : World) (r : ViewState * option Request) : World :=
  {| view := r.1;
     pending := pending w ++ option_list r.2;
     issued := issued w ++ option_list r.2 |}.

Section WithEngine.
Context {engine : Engine}.

(** One event.  [EvSettle n o] settles the [n]-th request in flight with
    outcome [o]; it does nothing when there is no such request. *)
Definition fire (e : Event) (w : World) : World :=
  match e with
  | EvDrop acceptedFiles => with_view (onDrop acceptedFiles) w
  | EvChange value => with_view (onChange value) w
  | EvClick => send w (button_click (view w))
  | EvCall => send w (handleSubmit_begin (view w))
  | EvSettle n o =>
      if decide (n < length (pending w)) then
        {| view := handleSubmit_settle o (view w);
           pending := delete n (pending w);
           issued := issued w |}
      else w
  end.

Definition run (es : list Event) (w : World) : World :=
  foldl (λ w e, fire e w) w es.

(** The service at work: the requests in flight are settled one after
    the other, oldest first, each with the outcome the service has for
    it, until none is left.  [fuel] bounds the number of settlements. *)
Fixpoint drain (service : Request → Outcome) (fuel : nat) (w : World) : World :=
  match fuel, pending w with
  | S fuel', r :: _ => drain service fuel' (fire (EvSettle 0 (service r)) w)
  | _, _ => w
  end.

(** The worlds a class of events leads to from the initial one. *)
Inductive reachable (allowed : Event → bool) : World → Prop :=
| reachable_init : reachable allowed initial_world
| reachable_fire w e :
    reachable allowed w → allowed e = true → reachable allowed (fire e w).

End WithEngine.

(** The events of the interface: drops obey the picker's contract, and
    [handleSubmit] runs only through the button. *)
Definition ui_event (e : Event) : bool :=
  match e with
  | EvDrop acceptedFiles => dropzone_contract acceptedFiles
  | EvCall => false
  | EvChange _ | EvClick | EvSettle _ _ => true
  end.

(** The same with direct calls of [handleSubmit] allowed. *)
Definition any_event (e : Event) : bool :=
  match e with
  | EvDrop acceptedFiles => dropzone_contract acceptedFiles
  | EvChange _ | EvClick | EvSettle _ _ | EvCall => true
  end.

(** A request as the interface issues them: an accepted file and a
    non-empty text, in the two named parts. *)
Definition valid_request (r : Request) : Prop :=
  ∃ file text,
    r = request_for file text ∧ file_type file = accepted_type ∧ text ≠ "".

(** What holds of every world the interface leads to. *)
Record ui_inv (w : World) : Prop := mk_ui_inv {
  inv_one : length (pending w) ≤ 1;
  inv_loading : isLoading (view w) = true ↔ pending w ≠ [];
  inv_no_error_in_flight : isLoading (view w) = true → error (view w) = None;
  inv_error_no_result : is_Some (error (view w)) → extractedData (view w) = JNull;
  inv_result_truthy :
    extractedData (view w) = JNull ∨ truthy (extractedData (view w)) = true;
  inv_resume_accepted :
    ∀ file, resume (view w) = Some file → file_type file = accepted_type;
  inv_issued_valid : Forall valid_request (issued w);
}.

(** ** Samples *)

(** A file of another type than the picker accepts. *)
Definition sample_docx : File :=
  {| file_name := "cv.docx";
     file_type := "application/vnd.openxmlformats-officedocument.wordprocessingml.document";
     file_data := "PK" |}.

(** Pick a file, type a text, click: one request is in flight. *)
Definition sample_session : list Event :=
  [EvDrop [sample_pdf]; EvChange "Proof engineer"; EvClick].

(** The same, answered with the sample result, then submitted again. *)
Definition sample_resubmission : list Event :=
  sample_session ++ [EvSettle 0 (sample_service sample_request); EvClick].

(** Two direct calls of [handleSubmit] for two texts, the first of which
    is answered. *)
Definition sample_direct_calls : list Event :=
  [EvDrop [sample_pdf]; EvChange "first"; EvCall; EvChange "second"; EvCall;
   EvSettle 0 (Fulfilled (JObject [("data", JString "answer to first")]))].

(** ** Runs and reachability *)

Section Reachability.
Context {engine : Engine}.
Implicit Types (w : World) (e : Event) (es : list Event).

Lemma run_snoc es e w : run (es ++ [e]) w = fire e (run es w).
Proof. unfold run. by rewrite foldl_app. Qed.

Lemma reachable_run allowed es :
  forallb allowed es = true → reachable allowed (run es initial_world).
Proof.
  induction es as [|e es IH] using rev_ind; [constructor|].
  rewrite forallb_app, andb_true_iff. simpl. rewrite andb_true_r.
  intros [Hes He]. rewrite run_snoc. by constructor; [apply IH|].
Qed.

Lemma reachable_is_run allowed w :
  reachable allowed w →
  ∃ es, forallb allowed es = true ∧ w = run es initial_world.
Proof.
  induction 1 as [|w e _ (es & Hes & ->) He]; [by exists []|].
  exists (es ++ [e]). rewrite forallb_app, Hes, run_snoc. simpl.
  by rewrite He.
Qed.

Lemma reachable_weaken (allowed allowed' : Event → bool) w :
  (∀ e, allowed e = true → allowed' e = true) →
  reachable allowed w → reachable allowed' w.
Proof. intros Hsub. induction 1; constructor; auto. Qed.

Lemma send_nothing w s : s = view w → send w (s, None) = w.
Proof. intros ->. destruct w. unfold send. simpl. by rewrite !app_nil_r. Qed.

(** ** What is stored as the result *)

(** A property of values that [null] has, and every payload a settlement
    stores, holds of the stored result after every event, *)
Lemma stored_result_fire (P : JsValue → Prop) e w :
  P JNull →
  (∀ n o payload, e = EvSettle n o → settle_result o = Ok payload → P payload) →
  P (extractedData (view w)) → P (extractedData (view (fire e w))).
Proof.
  intros Hnull Hsettle Hw. destruct e as [fs|t| |n o|]; simpl; try done.
  - by destruct (click_keeps_result (view w)) as [->| ->].
  - case_decide; [|done]. simpl. rewrite handleSubmit_settle_spec.
    destruct (settle_result o) eqn:Ho; simpl; eauto.
  - by destruct (begin_keeps_result (view w)) as [->| ->].
Qed.

(** and so in every world a class of events leads to. *)
Lemma stored_result_reachable (P : JsValue → Prop) allowed w :
  P JNull →
  (∀ n o payload,
     allowed (EvSettle n o) = true → settle_result o = Ok payload → P payload) →
  reachable allowed w → P (extractedData (view w)).
Proof.
  intros Hnull Hsettle. induction 1 as [|w e _ IH He]; [done|].
  apply stored_result_fire; [done| |done]. intros n o payload ->. by apply (Hsettle n).
Qed.

(** ** The invariant of the interface *)

Lemma ui_inv_initial : ui_inv initial_world.
Proof. split; simpl; try done; auto. Qed.

Lemma ui_inv_drop fs w :
  dropzone_contract fs = true → ui_inv w → ui_inv (fire (EvDrop fs) w).
Proof.
  intros Hfs [H1 H2 H3 H4 H5 H6 H7]. split; simpl; try done.
  intros file Hhead.
  apply dropzone_contract_cases in Hfs as [->|(f & -> & Hf)]; naive_solver.
Qed.

Lemma ui_inv_change value w : ui_inv w → ui_inv (fire (EvChange value) w).
Proof. intros [H1 H2 H3 H4 H5 H6 H7]. by split. Qed.

Lemma ui_inv_click w : ui_inv w → ui_inv (fire EvClick w).
Proof.
  intros Hinv. simpl. destruct (submit_disabled (view w)) eqn:Hd.
  { by rewrite click_disabled, send_nothing. }
  destruct (click_enabled _ Hd) as (file & Hr & ->).
  apply submit_disabled_false in Hd as (Hl & _ & Hj).
  destruct Hinv as [H1 H2 H3 H4 H5 H6 H7].
  assert (pending w = []) as Hp.
  { destruct (pending w) eqn:Hp; [done|]. rewrite (proj2 H2) in Hl; done. }
  split; simpl; rewrite ?Hp; simpl; try done.
  apply Forall_app. split; [done|]. apply Forall_singleton.
  exists file, (jobDescription (view w)). auto.
Qed.

Lemma ui_inv_settle n o w : ui_inv w → ui_inv (fire (EvSettle n o) w).
Proof.
  intros Hinv. simpl. case_decide as Hn; [|done].
  destruct Hinv as [H1 H2 H3 H4 H5 H6 H7].
  destruct (pending w) as [|r [|??]] eqn:Hp; simpl in *; try lia.
  assert (n = 0) as -> by lia.
  assert (error (view w) = None) as He by (apply H3, H2; done).
  destruct (settle_shape o (view w)) as (Hl & Hr & _ & Hres).
  split; simpl; rewrite ?Hl, ?Hr; try done.
  - lia.
  - intros Herr. destruct Hres as [[_ Hsame]|[? _]]; [|done].
    rewrite Hsame, He in Herr. by destruct Herr.
  - naive_solver.
Qed.

Lemma ui_inv_fire e w : ui_event e = true → ui_inv w → ui_inv (fire e w).
Proof.
  destruct e; intros He Hinv;
    eauto using ui_inv_drop, ui_inv_change, ui_inv_click, ui_inv_settle.
  done.
Qed.

Lemma ui_inv_reachable w : reachable ui_event w → ui_inv w.
Proof. induction 1; eauto using ui_inv_initial, ui_inv_fire. Qed.

End Reachability.

#[export] Hint Constructors reachable : interface.
#[export] Hint Resolve reachable_run ui_inv_initial ui_inv_fire ui_inv_reachable : interface.

(** ** What the interface guarantees *)

Section Guarantees.
Context {engine : Engine}.
Implicit Types (w : World) (e : Event).

(** C2. Through the interface at most one request is in flight at any
    time. *)
Theorem at_most_one_in_flight w :
  reachable ui_event w → length (pending w) ≤ 1.
Proof. intros Hw. by destruct (ui_inv_reachable w Hw). Qed.

(** Through the interface the loading flag is set exactly while a
    request is in flight. *)
Theorem loading_iff_in_flight w :
  reachable ui_event w → (isLoading (view w) = true ↔ pending w ≠ []).
Proof. intros Hw. by destruct (ui_inv_reachable w Hw). Qed.

(** C34. Through the interface an error message and a result are never
    held together, no error is held while a request is in flight, and a
    held result is always truthy. *)
Theorem error_excludes_result w :
  reachable ui_event w →
  (is_Some (error (view w)) → extractedData (view w) = JNull) ∧
  (isLoading (view w) = true → error (view w) = None) ∧
  (extractedData (view w) = JNull ∨ truthy (extractedData (view w)) = true).
Proof. intros Hw. by destruct (ui_inv_reachable w Hw). Qed.

(** Every request issued through the interface has exactly the two
    parts [resume] and [job_description], a file of the accepted type and
    a non-empty text; and the file held is of the accepted type. *)
Theorem issued_requests_valid w :
  reachable ui_event w →
  Forall valid_request (issued w) ∧
  (∀ file, resume (view w) = Some file → file_type file = accepted_type).
Proof. intros Hw. by destruct (ui_inv_reachable w Hw). Qed.

Lemma click_dropped w :
  reachable ui_event w → pending w ≠ [] → fire EvClick w = w.
Proof.
  intros Hw Hp. destruct (ui_inv_reachable w Hw) as [_ Hl _ _ _ _ _].
  simpl. rewrite click_disabled, send_nothing; [done..|].
  unfold submit_disabled. by rewrite (proj2 Hl Hp).
Qed.

(** A click while a request is in flight has no effect: the state,
    the request in flight and the log are unchanged. *)
Theorem click_in_flight_dropped w :
  reachable ui_event w → pending w ≠ [] → fire EvClick w = w.
Proof. apply click_dropped. Qed.

(** Whatever the outcome, settling the request in flight re-arms the
    interface: nothing is in flight, the loading flag is cleared, and the
    button is enabled as soon as a file and a text are held. *)
Theorem settle_rearms w o :
  reachable ui_event w → pending w ≠ [] →
  let w' := fire (EvSettle 0 o) w in
  pending w' = [] ∧ isLoading (view w') = false ∧
  (submit_disabled (view w') = false ↔
   is_Some (resume (view w)) ∧ jobDescription (view w) ≠ "").
Proof.
  intros Hw Hp. destruct (ui_inv_reachable w Hw) as [H1 _ _ _ _ _ _].
  destruct (pending w) as [|r [|??]] eqn:Hpw; simpl in *; try done; try lia.
  rewrite Hpw. simpl.
  destruct (settle_shape o (view w)) as (Hl & Hr & Hj & _).
  rewrite submit_disabled_false, Hl, Hr, Hj. naive_solver.
Qed.

(** A drop that passes no file on discards the file held:
    [acceptedFiles[0]] is [undefined], and the button becomes disabled. *)
Lemma empty_drop_discards_file w :
  reachable ui_event w →
  let w' := fire (EvDrop []) w in
  reachable ui_event w' ∧ resume (view w') = None ∧
  submit_disabled (view w') = true.
Proof.
  intros Hw. split; [by constructor|]. split; [done|].
  unfold submit_disabled. simpl. by rewrite orb_true_r.
Qed.

(** While a second submission is in flight the result of the first
    is still held: the loading flag and a result are set together. *)
Theorem stale_result_while_loading :
  let w := run sample_resubmission initial_world in
  reachable ui_event w ∧ isLoading (view w) = true ∧
  extractedData (view w) = encode sample_result.
Proof. split; [by apply reachable_run|done]. Qed.

(** The guard is the button's, not [handleSubmit]'s: two direct calls
    put two requests in flight, and when the first is answered the
    loading flag is cleared and the button enabled while the second is
    still in flight. *)
Theorem direct_calls_escape_guard :
  let w := run sample_direct_calls initial_world in
  reachable any_event w ∧ length (issued w) = 2 ∧ length (pending w) = 1 ∧
  isLoading (view w) = false ∧ submit_disabled (view w) = false.
Proof. split; [by apply reachable_run|done]. Qed.

End Guarantees.

(** ** The file picker *)

Section Picker.
Context {engine : Engine} {dz : Dropzone} {laws : DropzoneLaws dz}.

(** What a picker that keeps its laws hands on is an event of the
    interface. *)
Lemma drop_is_ui_event dropped : ui_event (EvDrop (accept_files dropped)) = true.
Proof. apply accept_files_contract. Qed.

(** With any picker that keeps its contract, a drop without a file
    of the accepted type discards the file held, in any state the
    interface can be in: the picker hands [onDrop] the empty list,
    [acceptedFiles[0]] is [undefined], and the button becomes disabled. *)
Theorem unaccepted_drop_discards_file w dropped :
  reachable ui_event w →
  Forall (λ f, file_type f ≠ accepted_type) dropped →
  let w' := fire (EvDrop (accept_files dropped)) w in
  reachable ui_event w' ∧ resume (view w') = None ∧
  submit_disabled (view w') = true.
Proof.
  intros Hw Hnone. rewrite (accept_files_none dropped) by done.
  by apply empty_drop_discards_file.
Qed.

End Picker.

(** ** Quiescence *)

Section Quiescence.
Context {engine : Engine}.
Implicit Types (w : World) (service : Request → Outcome).

(** Settling takes one request out of flight, issues none, and clears the
    loading flag. *)
Lemma settle_oldest r rest o w :
  pending w = r :: rest →
  let w' := fire (EvSettle 0 o) w in
  pending w' = rest ∧ issued w' = issued w ∧ isLoading (view w') = false.
Proof.
  intros Hp. simpl. rewrite Hp. simpl.
  by destruct (settle_shape o (view w)) as (-> & _).
Qed.

Lemma settle_oldest_view r rest o w :
  pending w = r :: rest →
  view (fire (EvSettle 0 o) w) = handleSubmit_settle o (view w).
Proof. intros Hp. simpl. by rewrite Hp. Qed.

(** Only a click or a call issues a request: nothing is retried. *)
Lemma issued_unchanged e w :
  e ≠ EvClick → e ≠ EvCall → issued (fire e w) = issued w.
Proof. destruct e; simpl; try done. by case_decide. Qed.

Lemma drain_step service fuel r rest w :
  pending w = r :: rest →
  drain service (S fuel) w = drain service fuel (fire (EvSettle 0 (service r)) w).
Proof. intros Hp. simpl. by rewrite Hp. Qed.

Lemma drain_idle service fuel w : pending w = [] → drain service fuel w = w.
Proof. intros Hp. destruct fuel; simpl; by rewrite ?Hp. Qed.

Lemma drain_spec service fuel w :
  length (pending w) ≤ fuel →
  let w' := drain service fuel w in
  pending w' = [] ∧ issued w' = issued w ∧
  (pending w ≠ [] → isLoading (view w') = false).
Proof.
  revert w. induction fuel as [|fuel IH]; intros w Hlen.
  { destruct (pending w) eqn:Hp; simpl in *; [done|lia]. }
  destruct (pending w) as [|r rest] eqn:Hp.
  { by rewrite drain_idle. }
  rewrite (drain_step _ _ r rest) by done. cbv zeta.
  destruct (settle_oldest r rest (service r) w Hp) as (Hrest & Hi & Hl).
  destruct (IH (fire (EvSettle 0 (service r)) w)) as (H1 & H2 & H3).
  { rewrite Hrest. simpl in Hlen. lia. }
  split_and!; [done|congruence|]. intros _.
  destruct rest; [by rewrite drain_idle|]. apply H3. by rewrite Hrest.
Qed.

(** More fuel than requests in flight changes nothing. *)
Lemma drain_fuel service fuel w :
  length (pending w) ≤ fuel →
  drain service fuel w = drain service (length (pending w)) w.
Proof.
  revert w. induction fuel as [|fuel IH]; intros w Hlen.
  { by destruct (pending w) eqn:Hp; simpl in *; rewrite ?Hp; [|lia]. }
  destruct (pending w) as [|r rest] eqn:Hp; [by rewrite !drain_idle|].
  destruct (settle_oldest r rest (service r) w Hp) as (Hrest & _).
  rewrite ?Hp in Hlen. cbn [length] in *.
  rewrite !(drain_step _ _ r rest) by done.
  rewrite IH by (rewrite Hrest; lia). by rewrite Hrest.
Qed.

Lemma drain_reachable allowed service fuel w :
  (∀ r, allowed (EvSettle 0 (service r)) = true) →
  reachable allowed w → reachable allowed (drain service fuel w).
Proof.
  intros Hs. revert w. induction fuel as [|fuel IH]; intros w Hw; [by destruct (pending w)|].
  destruct (pending w) as [|r rest] eqn:Hp; [by rewrite drain_idle|].
  rewrite (drain_step _ _ r rest) by done. apply IH. by constructor.
Qed.

(** C27. The service's work terminates: with fuel for every request in
    flight, settling them one by one ends in a world with nothing in
    flight, in which no request was issued that had not been before
    (nothing is retried); the loading flag is cleared if anything was in
    flight; and fuel beyond the number of requests in flight is not used. *)
Theorem drain_terminates service fuel w :
  length (pending w) ≤ fuel →
  let w' := drain service fuel w in
  pending w' = [] ∧ issued w' = issued w ∧
  (pending w ≠ [] → isLoading (view w') = false) ∧
  w' = drain service (length (pending w)) w.
Proof.
  intros Hlen. destruct (drain_spec service fuel w Hlen) as (H1 & H2 & H3).
  split_and!; [done..|]. by apply drain_fuel.
Qed.

(** Through the interface one settlement is enough: from every state
    the interface reaches, the service's answer to the request in flight,
    if there is one, leads to a state the interface reaches, with nothing
    in flight and the loading flag cleared. *)
Theorem interface_settles_in_one_step service w :
  reachable ui_event w →
  let w' := drain service 1 w in
  reachable ui_event w' ∧ pending w' = [] ∧ isLoading (view w') = false.
Proof.
  intros Hw. pose proof (ui_inv_reachable w Hw) as [H1 H2 _ _ _ _ _].
  destruct (drain_spec service 1 w H1) as (Hp & _ & Hl).
  split_and!; [by apply drain_reachable|done|].
  destruct (decide (pending w = [])) as [Hpw|Hpw]; [|by apply Hl].
  rewrite drain_idle by done. apply not_true_is_false. rewrite H2. naive_solver.
Qed.

End Quiescence.

(** ** On the samples *)

Lemma at_most_one_in_flight_witness :
  length (pending (run (engine := sample_engine) sample_session initial_world)) ≤ 1.
Proof.
  apply (at_most_one_in_flight (engine := sample_engine)).
  apply reachable_run. reflexivity.
Defined.

Lemma loading_iff_in_flight_witness :
  let w := run (engine := sample_engine) sample_session initial_world in
  isLoading (view w) = true ↔ pending w ≠ [].
Proof.
  apply (loading_iff_in_flight (engine := sample_engine)).
  apply reachable_run. reflexivity.
Defined.

Lemma error_excludes_result_witness :
  let w := run (engine := sample_engine) sample_resubmission initial_world in
  (is_Some (error (view w)) → extractedData (view w) = JNull) ∧
  (isLoading (view w) = true → error (view w) = None) ∧
  (extractedData (view w) = JNull ∨ truthy (extractedData (view w)) = true).
Proof.
  apply (error_excludes_result (engine := sample_engine)).
  apply reachable_run. reflexivity.
Defined.

Lemma issued_requests_valid_witness :
  let w := run (engine := sample_engine) sample_session initial_world in
  Forall valid_request (issued w) ∧
  (∀ file, resume (view w) = Some file → file_type file = accepted_type).
Proof.
  apply (issued_requests_valid (engine := sample_engine)).
  apply reachable_run. reflexivity.
Defined.

Lemma click_in_flight_dropped_witness :
  let w := run (engine := sample_engine) sample_session initial_world in
  fire (engine := sample_engine) EvClick w = w.
Proof.
  apply (click_in_flight_dropped (engine := sample_engine));
    [apply reachable_run; reflexivity | discriminate].
Defined.

Lemma settle_rearms_witness :
  let w := run (engine := sample_engine) sample_session initial_world in
  let w' := fire (engine := sample_engine)
              (EvSettle 0 (Rejected (ThrownError "Network Error"))) w in
  pending w' = [] ∧ isLoading (view w') = false ∧
  (submit_disabled (view w') = false ↔
   is_Some (resume (view w)) ∧ jobDescription (view w) ≠ "").
Proof.
  apply (settle_rearms (engine := sample_engine));
    [apply reachable_run; reflexivity | discriminate].
Defined.

Lemma unaccepted_drop_discards_file_witness :
  let w := run (engine := sample_engine) sample_session initial_world in
  let w' := fire (engine := sample_engine)
              (EvDrop (accept_files (Dropzone := reject_surplus) [sample_docx])) w in
  reachable (engine := sample_engine) ui_event w' ∧ resume (view w') = None ∧
  submit_disabled (view w') = true.
Proof.
  apply (unaccepted_drop_discards_file (engine := sample_engine) (dz := reject_surplus)).
  - apply reachable_run. reflexivity.
  - repeat constructor. discriminate.
Defined.

Lemma drain_terminates_witness :
  let w := run (engine := sample_engine) sample_direct_calls initial_world in
  let w' := drain (engine := sample_engine) sample_service 5 w in
  pending w' = [] ∧ issued w' = issued w ∧
  (pending w ≠ [] → isLoading (view w') = false) ∧
  w' = drain (engine := sample_engine) sample_service (length (pending w)) w.
Proof.
  apply (drain_terminates (engine := sample_engine)). vm_compute. lia.
Defined.

Lemma interface_settles_in_one_step_witness :
  let w := run (engine := sample_engine) sample_session initial_world in
  let w' := drain (engine := sample_engine) sample_service 1 w in
  reachable (engine := sample_engine) ui_event w' ∧ pending w' = [] ∧
  isLoading (view w') = false.
Proof.
  apply (interface_settles_in_one_step (engine := sample_engine)).
  apply reachable_run. reflexivity.
Defined.
