(* ===== verification/View.v ===== *)
(** * View: what the component renders

    The JSX returned by [App] (src/src/App.tsx, lines 102-197) as a tree of
    elements, computed from the state.  Evaluating the JSX can throw: the
    expressions [extractedData.skillMatch.matching.join(", ")] and their
    like read properties of whatever value was stored.  [render] is that
    evaluation.  [mount] is what the renderer then does with expression
    children: text for strings and numbers, nothing for [null],
    [undefined] and booleans, the items of an array, and an error for an
    object.  An exception in either phase is not caught by the program. *)

From stdpp Require Import base tactics option list strings.
From S2P Require Import Prelude JsValue Model ViewState Transport Submission Chart.

Inductive Handler : Type :=
| HandleSubmit
| HandleChange
| DropzoneRoot
| DropzoneInput.

Inductive PropValue : Type :=
| PText (s : string)
| PFlag (b : bool)
| PHandler (h : Handler).

(** An element of the returned tree.  [Val] is an expression child whose
    value the renderer still has to turn into nodes. *)
Unset Elimination Schemes.
Inductive Element : Type :=
| El (tag : string) (props : list (string * PropValue)) (children : list Element)
| Str (s : string)
| Val (v : JsValue)
| Icon (name : string) (className : string)
| Pie (chart : ChartData) (options : ChartOptions).
Set Elimination Schemes.

(** Induction on elements, with the hypothesis for every child. *)
Definition Element_ind (P : Element → Prop)
    (Hel : ∀ tag props children, Forall P children → P (El tag props children))
    (Hstr : ∀ s, P (Str s)) (Hval : ∀ v, P (Val v))
    (Hicon : ∀ name c, P (Icon name c))
    (Hpie : ∀ chart options, P (Pie chart options)) :
    ∀ e, P e :=
  fix go (e : Element) : P e :=
    match e with
    | El tag props children =>
        Hel tag props children
          ((fix all (l : list Element) : Forall P l :=
              match l with
              | [] => Forall_nil_2 P
              | x :: r => Forall_cons_2 P x r (go x) (all r)
              end) children)
    | Str s => Hstr s
    | Val v => Hval v
    | Icon name c => Hicon name c
    | Pie chart options => Hpie chart options
    end.

#[global] Instance Handler_eq_dec : EqDecision Handler.
Proof. solve_decision. Defined.

#[global] Instance PropValue_eq_dec : EqDecision PropValue.
Proof. solve_decision. Defined.

Definition class (c : string) : string * PropValue := ("className", PText c).

(** [a || b] on strings. *)
Definition or_default (s fallback : string) : string :=
  if truthy_string s then s else fallback.

Section WithEngine.
Context {engine : Engine}.

(** [v.join(sep)]: [Array.prototype.join] on an array; no other decoded
    value has a callable [join]. *)
Definition call_join (v : JsValue) (sep : string) : Throws string :=
  match v with
  | JArray items => array_join sep items
  | JUndefined | JNull => Throw (ThrownTypeError (ReadOfNullish v "join"))
  | JBool _ | JNumber _ | JString _ | JObject _ =>
      Throw (ThrownTypeError (NotAFunction "join"))
  end.

(** [extractedData.skillMatch.<field>.join(", ") || "None"]. *)
Definition skill_list (extractedData : JsValue) (field : string) : Throws string :=
  skillMatch ← get_prop extractedData "skillMatch";
  skills ← get_prop skillMatch field;
  joined ← call_join skills ", ";
  Ok (or_default joined "None").

(** [{resume && (<p ...>{resume.name}</p>)}]: the file's name, or the
    falsy cell itself. *)
Definition resume_line (r : option File) : Element :=
  match r with
  | Some file => El "p" [class "mt-2 text-sm text-blue-600"] [Str (file_name file)]
  | None => Val JNull
  end.

(** The card with the drop zone. *)
Definition upload_panel (s : ViewState) : Element :=
  El "div" [class "bg-white p-6 rounded-lg shadow-md"]
    [ El "h2" [class "text-xl font-semibold mb-4"] [Str "Upload Resume"];
      El "div"
        [("getRootProps", PHandler DropzoneRoot);
         class "border-2 border-dashed border-gray-300 rounded-lg p-6 cursor-pointer hover:border-blue-500 transition-colors"]
        [ El "input" [("getInputProps", PHandler DropzoneInput)] [];
          El "div" [class "flex flex-col items-center"]
            ([ Icon "FileText" "w-12 h-12 text-gray-400 mb-2";
               El "p" [class "text-gray-600 text-center"]
                 [Str "Drag & drop your resume here, or click to select"] ]
             ++ [resume_line (resume s)]) ] ].

(** The card with the text area. *)
Definition job_panel (s : ViewState) : Element :=
  El "div" [class "bg-white p-6 rounded-lg shadow-md"]
    [ El "h2" [class "text-xl font-semibold mb-4"] [Str "Job Description"];
      El "textarea"
        [class "w-full h-40 p-3 border border-gray-300 rounded-lg focus:ring-2 focus:ring-blue-500 focus:border-transparent";
         ("placeholder", PText "Paste the job description here...");
         ("value", PText (jobDescription s));
         ("onChange", PHandler HandleChange)]
        [] ].

Definition submit_button (s : ViewState) : Element :=
  El "button"
    [("onClick", PHandler HandleSubmit);
     ("disabled", PFlag (submit_disabled s));
     class "w-full bg-blue-600 text-white py-3 px-6 rounded-lg hover:bg-blue-700 transition-colors disabled:bg-gray-400 disabled:cursor-not-allowed"]
    [Str (submit_label s)].

(** [{error && (<div ...>{error}</div>)}]: the panel for a truthy message;
    a falsy [error] ([null] or the empty string) is the child itself. *)
Definition error_panel (s : ViewState) : Element :=
  match error s with
  | Some message =>
      if truthy_string message
      then El "div" [class "p-4 bg-red-50 border border-red-200 rounded-lg text-red-700"]
             [Str message]
      else Val (JString message)
  | None => Val JNull
  end.

(** One block of the match details. *)
Definition skill_block (colour title text : string) : Element :=
  El "div" []
    [ El "h4" [class ("font-medium " +:+ colour)] [Str title];
      El "p" [class "text-gray-600"] [Str text] ].

(** The card with the chart and the three lists. *)
Definition match_panel (extractedData : JsValue) : Throws Element :=
  chart ← renderPieChart extractedData;
  matching ← skill_list extractedData "matching";
  missing ← skill_list extractedData "missing";
  additional ← skill_list extractedData "additional";
  Ok (El "div" [class "bg-white p-6 rounded-lg shadow-md"]
        ([ El "h2" [class "text-xl font-semibold mb-4"] [Str "Skill Match Analysis"] ]
         ++ [ match chart with
              | Some c =>
                  El "div" [class (className c)] [Pie (pie_data c) (pie_options c)]
              | None => Val JNull
              end ]
         ++ [ El "div" [class "mt-6"]
                [ El "h3" [class "font-semibold text-lg mb-2"] [Str "Match Details"];
                  El "div" [class "space-y-4"]
                    [ skill_block "text-green-600" "Matching Skills" matching;
                      skill_block "text-red-600" "Missing Skills" missing;
                      skill_block "text-blue-600" "Additional Skills" additional ] ] ])).

(** One line of the extracted information. *)
Definition info_line (label : string) (value : JsValue) : Element :=
  El "p" [] [El "strong" [] [Str label]; Str " "; Val value].

(** The card with the extracted fields. *)
Definition info_panel (extractedData : JsValue) : Throws Element :=
  name ← get_prop extractedData "name";
  education ← get_prop extractedData "education";
  experience ← get_prop extractedData "experience";
  skills ← get_prop extractedData "skills";
  Ok (El "div" [class "bg-white p-6 rounded-lg shadow-md"]
        [ El "h2" [class "text-xl font-semibold mb-4"] [Str "Extracted Information"];
          El "div" [class "space-y-2"]
            [ info_line "Name:" name;
              info_line "Education:" education;
              info_line "Experience:" experience;
              info_line "Skills:" skills ] ]).

(** [{extractedData && (...)}]: the right column for a truthy result; a
    falsy value is rendered as itself. *)
Definition results_column (s : ViewState) : Throws Element :=
  if truthy (extractedData s) then
    analysis ← match_panel (extractedData s);
    information ← info_panel (extractedData s);
    Ok (El "div" [class "space-y-6"] [analysis; information])
  else Ok (Val (extractedData s)).

(** The value [App] returns. *)
Definition render (s : ViewState) : Throws Element :=
  results ← results_column s;
  Ok (El "div" [class "min-h-screen bg-gray-50"]
        [ El "div" [class "max-w-6xl mx-auto px-4 py-8"]
            [ El "h1" [class "text-3xl font-bold text-center mb-8"]
                [Str "Resume Skill Analyzer"];
              El "div" [class "grid grid-cols-1 md:grid-cols-2 gap-8"]
                [ El "div" [class "space-y-6"]
                    [upload_panel s; job_panel s; submit_button s; error_panel s];
                  results ] ] ]).

(** ** The renderer *)

Definition object_child_message (fields : list (string * JsValue)) : string :=
  "Objects are not valid as a React child (found: object with keys {"
  +:+ join_strings ", " (remove_dups fields.*1)
  +:+ "}). If you meant to render a collection of children, use an array instead.".

(** The nodes for an expression child. *)
Fixpoint mount_value (v : JsValue) : Throws (list Element) :=
  match v with
  | JUndefined | JNull | JBool _ => Ok []
  | JString s => Ok (if truthy_string s then [Str s] else [])
  | JNumber n => Ok [Str (number_to_string n)]
  | JArray items => collect mount_value items
  | JObject fields => Throw (ThrownError (object_child_message fields))
  end.

(** The nodes for an element: its expression children replaced by theirs. *)
Fixpoint mount (e : Element) : Throws (list Element) :=
  match e with
  | El tag props children =>
      nodes ← collect mount children;
      Ok [El tag props nodes]
  | Str s => Ok (if truthy_string s then [Str s] else [])
  | Val v => mount_value v
  | Icon _ _ | Pie _ _ => Ok [e]
  end.

(** What ends up on the page: [App]'s value, mounted. *)
Definition display (s : ViewState) : Throws (list Element) :=
  tree ← render s; mount tree.

End WithEngine.

(** ** Reference definitions the theorems are stated with *)

(** The texts of a tree, in document order. *)
Fixpoint texts (e : Element) : list string :=
  match e with
  | El _ _ children => children ≫= texts
  | Str s => [s]
  | Val _ | Icon _ _ | Pie _ _ => []
  end.

Definition all_texts (nodes : list Element) : list string :=
  e ← nodes; texts e.

(** A string as the renderer shows it: nothing for the empty string. *)
Definition visible (s : string) : list string :=
  if truthy_string s then [s] else [].

(** The texts on the page, when rendering succeeds. *)
Definition page_text {engine : Engine} (s : ViewState) : Throws (list string) :=
  nodes ← display s; Ok (all_texts nodes).

(** The texts of the left column: headings, the file's name, the button's
    label and the error message. *)
Definition left_texts (s : ViewState) : list string :=
  ["Resume Skill Analyzer"; "Upload Resume";
   "Drag & drop your resume here, or click to select"]
  ++ from_option (λ file, visible (file_name file)) [] (resume s)
  ++ ["Job Description"; submit_label s]
  ++ from_option visible [] (error s).

(** A list of skills as shown: joined by [", "], or ["None"]. *)
Definition shown_list (l : list string) : string :=
  or_default (join_strings ", " l) "None".

(** The texts of the right column for a result of the declared shape. *)
Definition result_texts (r : ExtractionResult) : list string :=
  ["Skill Match Analysis"; "Match Details";
   "Matching Skills"; shown_list (matching (skillMatch r));
   "Missing Skills"; shown_list (missing (skillMatch r));
   "Additional Skills"; shown_list (additional (skillMatch r));
   "Extracted Information"]
  ++ ["Name:"; " "] ++ visible (name r)
  ++ ["Education:"; " "] ++ visible (education r)
  ++ ["Experience:"; " "] ++ visible (experience r)
  ++ ["Skills:"; " "] ++ visible (skills r).

(** The same result with another date of birth. *)
Definition with_dob (d : string) (r : ExtractionResult) : ExtractionResult :=
  {| name := name r;
     skills := skills r;
     education := education r;
     experience := experience r;
     dob := d;
     skillMatch := skillMatch r |}.


(** ** The text of a tree, compositionally *)

Section Shown.
Context {engine : Engine}.
Implicit Types (e : Element) (s : ViewState) (v : JsValue).

(** The texts an element contributes once mounted. *)
Definition shown (e : Element) : Throws (list string) :=
  nodes ← mount e; Ok (all_texts nodes).

Lemma shown_El tag props children :
  shown (El tag props children) = collect shown children.
Proof.
  transitivity (nodes ← collect mount children; Ok (nodes ≫= texts)).
  - unfold shown. cbn [mount].
    destruct (collect mount children); [|done]. simpl.
    unfold all_texts. simpl. by rewrite app_nil_r.
  - apply collect_collect.
Qed.

Lemma shown_Str text : shown (Str text) = Ok (visible text).
Proof. unfold shown, visible. simpl. by destruct (truthy_string text). Qed.

Lemma shown_string text : shown (Val (JString text)) = Ok (visible text).
Proof. unfold shown, visible. simpl. by destruct (truthy_string text). Qed.

Lemma shown_null : shown (Val JNull) = Ok [].
Proof. done. Qed.

Lemma shown_Icon name c : shown (Icon name c) = Ok [].
Proof. done. Qed.

Lemma shown_Pie chart options : shown (Pie chart options) = Ok [].
Proof. done. Qed.

Lemma renderPieChart_decoded v r :
  decode v = Some r → ∃ c, renderPieChart v = Ok (Some c).
Proof.
  intros Hd. rewrite (renderPieChart_decode v r Hd). by eexists.
Qed.

Lemma visible_truthy text : truthy_string text = true → visible text = [text].
Proof. unfold visible. by intros ->. Qed.

Lemma or_default_truthy text fallback :
  truthy_string fallback = true → truthy_string (or_default text fallback) = true.
Proof. unfold or_default. by destruct (truthy_string text) eqn:?. Qed.

End Shown.

Create Rewrite HintDb view.
#[export] Hint Rewrite @shown_El @shown_Str @shown_string @shown_null
  @shown_Icon @shown_Pie @app_nil_r : view.
#[export] Hint Rewrite @visible_truthy using reflexivity : view.

(** Reads [mount e ≫= ...] in the goal as [shown e]. *)
Ltac fold_shown :=
  match goal with |- mount ?e ≫= _ = _ => fold (shown e) end.

(** Reads the texts off a tree whose shape is known. *)
Ltac read_texts :=
  repeat (autorewrite with view; cbn [collect mbind result_bind app]).

(** ** The left column *)

Section Page.
Context {engine : Engine}.
Implicit Types (s : ViewState) (v : JsValue) (r : ExtractionResult).

Lemma shown_upload_panel s :
  shown (upload_panel s) =
  Ok (["Upload Resume"; "Drag & drop your resume here, or click to select"]
      ++ from_option (λ file, visible (file_name file)) [] (resume s)).
Proof. unfold upload_panel, resume_line. by destruct (resume s); read_texts. Qed.

Lemma shown_job_panel s : shown (job_panel s) = Ok ["Job Description"].
Proof. unfold job_panel. by read_texts. Qed.

Lemma shown_submit_button s : shown (submit_button s) = Ok [submit_label s].
Proof.
  unfold submit_button, submit_label. by destruct (isLoading s); read_texts.
Qed.

Lemma shown_error_panel s :
  shown (error_panel s) = Ok (from_option visible [] (error s)).
Proof.
  unfold error_panel. destruct (error s) as [m|]; [|done]. simpl.
  destruct (truthy_string m) eqn:Hm; read_texts; [by rewrite visible_truthy|].
  unfold visible. by rewrite Hm.
Qed.

(** ** The right column for a result of the declared shape *)

Lemma skill_list_conforming v r field l :
  decode v = Some r →
  get_prop_opt (get_prop_opt v "skillMatch") field = encode_strings l →
  skill_list v field = Ok (shown_list l).
Proof.
  intros Hd Hf. unfold skill_list.
  destruct (decode_object _ _ Hd) as [fields ->].
  apply decode_Some in Hd as (_ & _ & _ & _ & _ & Hm).
  destruct (decode_skillMatch_object _ _ Hm) as [fields' Hsm].
  cbn [get_prop mbind result_bind]. cbn [get_prop_opt] in Hsm, Hf.
  rewrite Hsm in Hf |- *. cbn [get_prop mbind result_bind].
  cbn [get_prop_opt] in Hf. rewrite Hf. unfold encode_strings, call_join.
  by rewrite array_join_strings.
Qed.

Lemma shown_list_truthy l : truthy_string (shown_list l) = true.
Proof. by apply or_default_truthy. Qed.

Lemma shown_match_panel v r :
  decode v = Some r →
  ∃ e, match_panel v = Ok e ∧
    shown e = Ok ["Skill Match Analysis"; "Match Details";
                  "Matching Skills"; shown_list (matching (skillMatch r));
                  "Missing Skills"; shown_list (missing (skillMatch r));
                  "Additional Skills"; shown_list (additional (skillMatch r))].
Proof.
  intros Hd. unfold match_panel.
  pose proof Hd as (_ & _ & _ & _ & _ & Hm)%decode_Some.
  apply decode_skillMatch_Some in Hm as (H1 & H2 & H3 & _).
  destruct (renderPieChart_decoded v r Hd) as [c ->].
  rewrite (skill_list_conforming v r _ _ Hd H1),
    (skill_list_conforming v r _ _ Hd H2), (skill_list_conforming v r _ _ Hd H3).
  eexists. split; [done|]. unfold skill_block. read_texts.
  by rewrite !(visible_truthy _ (shown_list_truthy _)).
Qed.

Lemma shown_info_panel v r :
  decode v = Some r →
  ∃ e, info_panel v = Ok e ∧
    shown e = Ok (["Extracted Information"]
                  ++ ["Name:"; " "] ++ visible (name r)
                  ++ ["Education:"; " "] ++ visible (education r)
                  ++ ["Experience:"; " "] ++ visible (experience r)
                  ++ ["Skills:"; " "] ++ visible (skills r)).
Proof.
  intros Hd. unfold info_panel.
  destruct (decode_object _ _ Hd) as [fields ->].
  apply decode_Some in Hd as (Hn & Hs & He & Hx & _ & _).
  cbn [get_prop_opt] in Hn, Hs, He, Hx.
  cbn [get_prop mbind result_bind]. rewrite Hn, Hs, He, Hx.
  eexists. split; [done|]. unfold info_line. read_texts.
  by rewrite <-!app_assoc.
Qed.

Lemma page_text_conforming s r :
  decode (extractedData s) = Some r →
  page_text s = Ok (left_texts s ++ result_texts r).
Proof.
  intros Hd. unfold page_text, display, render, results_column.
  destruct (decode_object _ _ Hd) as [fields Hv]. rewrite Hv at 1.
  cbn [truthy]. destruct (shown_match_panel _ _ Hd) as (a & -> & Ha).
  destruct (shown_info_panel _ _ Hd) as (b & -> & Hb).
  cbn [mbind result_bind]. fold_shown.
  read_texts.
  rewrite shown_upload_panel, shown_job_panel, shown_submit_button,
    shown_error_panel, Ha, Hb.
  cbn [mbind result_bind]. unfold left_texts, result_texts.
  f_equal. by normalize_app.
Qed.

End Page.

(** ** What is on the page *)

Section PageLemmas.
Context {engine : Engine}.
Implicit Types (s : ViewState) (v : JsValue) (r : ExtractionResult).

Lemma page_text_null s :
  extractedData s = JNull → page_text s = Ok (left_texts s).
Proof.
  intros Hv. unfold page_text, display, render, results_column. rewrite Hv.
  cbn [truthy mbind result_bind].
  fold_shown.
  read_texts.
  rewrite shown_upload_panel, shown_job_panel, shown_submit_button,
    shown_error_panel.
  cbn [mbind result_bind]. unfold left_texts.
  f_equal. by normalize_app.
Qed.

Lemma render_without_skillMatch s :
  truthy (extractedData s) = true →
  is_nullish (get_prop_opt (extractedData s) "skillMatch") = true →
  render s =
    Throw (ThrownTypeError
             (ReadOfNullish (get_prop_opt (extractedData s) "skillMatch") "matching")).
Proof.
  intros Ht Hn. unfold render, results_column, match_panel. rewrite Ht.
  rewrite (proj2 (renderPieChart_none _)) by (by destruct (get_prop_opt _ _)).
  cbn [mbind result_bind]. unfold skill_list.
  rewrite (get_prop_truthy _ _ Ht). cbn [mbind result_bind].
  rewrite !(get_prop_nullish _ _ Hn). reflexivity.
Qed.

End PageLemmas.

Section PageTheorems.
Context {engine : Engine}.
Implicit Types (s : ViewState) (v : JsValue) (r : ExtractionResult).

(** C31. With a stored result of the declared shape rendering succeeds, and
    the texts on the page are exactly: the headings, the file's name, the
    button's label and the error message in the left column; in the right
    column the three skill lists, each joined by ", " or "None" when
    empty, and the name, education, experience and skills. *)
Theorem page_of_conforming_result s r :
  decode (extractedData s) = Some r →
  page_text s = Ok (left_texts s ++ result_texts r).
Proof. apply page_text_conforming. Qed.

(** With no stored result rendering succeeds and the page shows the
    left column only. *)
Theorem page_without_result s :
  extractedData s = JNull → page_text s = Ok (left_texts s).
Proof. apply page_text_null. Qed.

(** With a stored value that is truthy but has no [skillMatch],
    evaluating the JSX throws a [TypeError] on reading [matching]: nothing
    in the program catches it. *)
Theorem render_throws_without_skillMatch s :
  truthy (extractedData s) = true →
  is_nullish (get_prop_opt (extractedData s) "skillMatch") = true →
  render s =
    Throw (ThrownTypeError
             (ReadOfNullish (get_prop_opt (extractedData s) "skillMatch") "matching")).
Proof. apply render_without_skillMatch. Qed.

(** C37. A response the submission accepts can make the page unrenderable:
    when the [data] field is truthy but has no [skillMatch], [handleSubmit]
    stores it as the result and the next rendering throws. *)
Theorem accepted_response_breaks_page post s file fields payload :
  resume s = Some file → jobDescription s ≠ "" →
  post (request_for file (jobDescription s)) = Fulfilled (JObject fields) →
  lookup_field "data" fields = Some payload → truthy payload = true →
  is_nullish (get_prop_opt payload "skillMatch") = true →
  error (handleSubmit post s).1 = None ∧
  display (handleSubmit post s).1 =
    Throw (ThrownTypeError
             (ReadOfNullish (get_prop_opt payload "skillMatch") "matching")).
Proof.
  intros Hr Hj Hpost Hd Ht Hn.
  rewrite (handleSubmit_valid _ _ file), Hpost by done.
  unfold settle_result. rewrite (classify_success _ payload) by done.
  split; [done|]. unfold display. by rewrite render_without_skillMatch.
Qed.

(** The date of birth is never shown: replacing it in the stored
    result leaves every text on the page as it was. *)
Theorem dob_is_not_shown s r d :
  decode (extractedData s) = Some r →
  page_text (setExtractedData (encode (with_dob d r)) s) = page_text s.
Proof.
  intros Hd. rewrite (page_text_conforming s r Hd).
  by rewrite (page_text_conforming _ (with_dob d r)) by apply decode_of_encode.
Qed.

(** A server-reported error whose text converts to the empty string
    (an empty array, for one) leaves the page with neither an error
    message nor a result. *)
Theorem empty_error_text_shows_nothing post s file fields text :
  resume s = Some file → jobDescription s ≠ "" →
  post (request_for file (jobDescription s)) = Fulfilled (JObject fields) →
  truthy (default JUndefined (lookup_field "data" fields)) = false →
  lookup_field "error" fields = Some text → truthy text = true →
  to_string text = Ok "" →
  error (handleSubmit post s).1 = Some "" ∧
  page_text (handleSubmit post s).1 =
    Ok (["Resume Skill Analyzer"; "Upload Resume";
         "Drag & drop your resume here, or click to select"]
        ++ visible (file_name file) ++ ["Job Description"; "Analyze Skills"]).
Proof.
  intros Hr Hj Hpost Hd He Ht Hs.
  rewrite (handleSubmit_valid _ _ file), Hpost by done.
  unfold settle_result.
  rewrite classify_server_error; cbn [get_prop_opt is_nullish]; rewrite ?He;
    try done.
  change (default JUndefined (Some text)) with text.
  unfold new_Error. rewrite Hs. cbn [settled message_or fst].
  split; [done|]. rewrite page_text_null by done.
  unfold left_texts. simpl. rewrite Hr. simpl.
  by normalize_app.
Qed.

End PageTheorems.

(** ** On the samples *)

Lemma page_of_conforming_result_witness :
  page_text (engine := sample_engine)
    (setExtractedData (encode sample_result) ready_state) =
  Ok (left_texts (setExtractedData (encode sample_result) ready_state)
      ++ result_texts sample_result).
Proof.
  apply (page_of_conforming_result (engine := sample_engine)). reflexivity.
Defined.

Lemma page_without_result_witness :
  page_text (engine := sample_engine) ready_state = Ok (left_texts ready_state).
Proof. apply (page_without_result (engine := sample_engine)). reflexivity. Defined.

Lemma render_throws_without_skillMatch_witness :
  render (engine := sample_engine) (setExtractedData (JObject []) ready_state) =
    Throw (ThrownTypeError (ReadOfNullish JUndefined "matching")).
Proof.
  apply (render_throws_without_skillMatch (engine := sample_engine)
           (setExtractedData (JObject []) ready_state)); reflexivity.
Defined.

Lemma accepted_response_breaks_page_witness :
  let final :=
    (handleSubmit (engine := sample_engine)
       (λ _, Fulfilled (JObject [("data", JString "ok")])) ready_state).1 in
  error final = None ∧
  display (engine := sample_engine) final =
    Throw (ThrownTypeError (ReadOfNullish JUndefined "matching")).
Proof.
  apply (accepted_response_breaks_page (engine := sample_engine) _ ready_state
           sample_pdf [("data", JString "ok")] (JString "ok"));
    [reflexivity | discriminate | reflexivity | reflexivity | reflexivity
    | reflexivity].
Defined.

Lemma dob_is_not_shown_witness :
  page_text (engine := sample_engine)
    (setExtractedData (encode (with_dob "1900-01-01" sample_result))
       (setExtractedData (encode sample_result) ready_state)) =
  page_text (engine := sample_engine)
    (setExtractedData (encode sample_result) ready_state).
Proof.
  apply (dob_is_not_shown (engine := sample_engine)
           (setExtractedData (encode sample_result) ready_state) sample_result).
  reflexivity.
Defined.

Lemma empty_error_text_shows_nothing_witness :
  let final :=
    (handleSubmit (engine := sample_engine)
       (λ _, Fulfilled (JObject [("error", JArray [])])) ready_state).1 in
  error final = Some "" ∧
  page_text (engine := sample_engine) final =
    Ok (["Resume Skill Analyzer"; "Upload Resume";
         "Drag & drop your resume here, or click to select"]
        ++ visible (file_name sample_pdf) ++ ["Job Description"; "Analyze Skills"]).
Proof.
  apply (empty_error_text_shows_nothing (engine := sample_engine) _ ready_state
           sample_pdf [("error", JArray [])] (JArray []));
    [reflexivity | discriminate | reflexivity | reflexivity | reflexivity
    | reflexivity | reflexivity].
Defined.
