(* ===== verification/Raw.v ===== *)
(** * Raw: the cell of the file and the event of the click, as JavaScript has them

    [ViewState] keeps the cell [resume] as an [option File].  The cell of
    the program (src/src/App.tsx, line 23) is declared [File | null] and
    is written with [acceptedFiles[0]] (line 33), which is [undefined]
    for an empty list: the cell holds one of three things.  This file
    keeps the cell as it is ([ResumeCell]) beside the world of [Machine]
    and shows that the program cannot tell [null] from [undefined]: its
    guards (lines 44 and 140), the part of the form (line 48) and the
    child it renders (lines 123-125) depend on the cell through
    [erase] only, and [erase] of the cell is the field of [ViewState] in
    every world ([cell_erasure_sound]).  What is lost in [ViewState] is
    that the cell leaves its declared type ([cell_leaves_declared_type]).

    [handleSubmit] receives the event of the click and prevents its
    default action first (line 39); [handleSubmit_on] is the handler
    with its event. *)

From stdpp Require Import base tactics option list strings.
From S2P Require Import Prelude JsValue Model ViewState Transport Submission Machine View.

(** What the cell [resume] holds. *)
Inductive ResumeCell : Type :=
| CellNull
| CellUndefined
| CellFile (file : File).

(** [acceptedFiles[0]]. *)
Definition first_of (acceptedFiles : list File) : ResumeCell :=
  match acceptedFiles with
  | [] => CellUndefined
  | file :: _ => CellFile file
  end.

(** ToBoolean of the cell: [!resume] is its negation. *)
Definition cell_truthy (c : ResumeCell) : bool :=
  match c with
  | CellFile _ => true
  | CellNull | CellUndefined => false
  end.

(** The declared type [File | null]. *)
Definition cell_typed (c : ResumeCell) : bool :=
  match c with
  | CellNull | CellFile _ => true
  | CellUndefined => false
  end.

(** What [ViewState] keeps of the cell. *)
Definition erase (c : ResumeCell) : option File :=
  match c with
  | CellFile file => Some file
  | CellNull | CellUndefined => None
  end.

(** The two guards of [handleSubmit] and the file appended to the form. *)
Definition cell_validate (c : ResumeCell) (jobDescription : string) : Throws File :=
  match c with
  | CellFile file =>
      if negb (truthy_string jobDescription)
      then Throw (ThrownError "Please enter a job description")
      else Ok file
  | CellNull | CellUndefined => Throw (ThrownError "Please upload a resume")
  end.

(** [isLoading || !resume || !jobDescription]. *)
Definition cell_disabled (isLoading : bool) (c : ResumeCell) (jobDescription : string) : bool :=
  isLoading || negb (cell_truthy c) || negb (truthy_string jobDescription).

(** [{resume && (<p ...>{resume.name}</p>)}]: a falsy cell is the child
    itself. *)
Definition cell_line (c : ResumeCell) : Element :=
  match c with
  | CellFile file => El "p" [class "mt-2 text-sm text-blue-600"] [Str (file_name file)]
  | CellNull => Val JNull
  | CellUndefined => Val JUndefined
  end.

(** The event handed to [handleSubmit], as far as the handler touches
    it. *)
Record FormEvent : Type := mkFormEvent {
  defaultPrevented : bool;
}.

Definition preventDefault (e : FormEvent) : FormEvent :=
  {| defaultPrevented := true |}.

Section WithEngine.
Context {engine : Engine}.

(** [handleSubmit] with its event, to the [await]. *)
Definition handleSubmit_on (e : FormEvent) (s : ViewState) :
    FormEvent * (ViewState * option Request) :=
  let e := preventDefault e in
  (e, handleSubmit_begin s).

(** One event, with the cell beside the world: only a drop writes it. *)
Definition cell_fire (e : Event) (cw : ResumeCell * World) : ResumeCell * World :=
  (match e with
   | EvDrop acceptedFiles => first_of acceptedFiles
   | _ => cw.1
   end,
   fire e cw.2).

Definition cell_run (es : list Event) (cw : ResumeCell * World) : ResumeCell * World :=
  foldl (λ cw e, cell_fire e cw) cw es.

End WithEngine.

(** The cell and the world as the component is mounted: [useState(null)]. *)
Definition cell_initial : ResumeCell * World := (CellNull, initial_world).

(** ** The program reads the erasure *)

Lemma erase_first_of acceptedFiles : erase (first_of acceptedFiles) = head acceptedFiles.
Proof. by destruct acceptedFiles. Qed.

Lemma cell_truthy_erase c : cell_truthy c = resume_truthy (erase c).
Proof. by destruct c. Qed.

Lemma cell_validate_erase c j : cell_validate c j = validate (erase c) j.
Proof. by destruct c. Qed.

Lemma cell_typed_first_of acceptedFiles :
  cell_typed (first_of acceptedFiles) = true ↔ acceptedFiles ≠ [].
Proof. by destruct acceptedFiles. Qed.

Section Erasure.
Context {engine : Engine}.
Implicit Types (c : ResumeCell) (w : World) (e : Event) (es : list Event).

Lemma cell_line_erase c : mount (cell_line c) = mount (resume_line (erase c)).
Proof. by destruct c. Qed.

(** Only a drop writes the cell. *)
Lemma fire_keeps_resume e w :
  (∀ acceptedFiles, e ≠ EvDrop acceptedFiles) →
  resume (view (fire e w)) = resume (view w).
Proof.
  intros He. destruct e as [fs|value| |n o|]; simpl; [by destruct (He fs)|done| | |].
  - unfold button_click. destruct (submit_disabled _); [done|].
    rewrite handleSubmit_begin_spec. by destruct (validate _ _).
  - case_decide; [|done]. simpl. by destruct (settle_shape o (view w)) as (_ & -> & _).
  - rewrite handleSubmit_begin_spec. by destruct (validate _ _).
Qed.

Lemma cell_fire_erase e c w :
  resume (view w) = erase c →
  resume (view (cell_fire e (c, w)).2) = erase (cell_fire e (c, w)).1.
Proof.
  intros Hc. destruct e as [fs|value| |n o|];
    try (simpl fst; cbn [cell_fire snd]; by rewrite fire_keeps_resume).
  simpl. by rewrite erase_first_of.
Qed.

Lemma cell_run_snoc es e cw : cell_run (es ++ [e]) cw = cell_fire e (cell_run es cw).
Proof. unfold cell_run. by rewrite foldl_app. Qed.

Lemma cell_run_world es c w : (cell_run es (c, w)).2 = run es w.
Proof.
  induction es as [|e es IH] using rev_ind; [done|].
  by rewrite cell_run_snoc, run_snoc, <-IH.
Qed.

Lemma cell_run_erase es :
  resume (view (cell_run es cell_initial).2) = erase (cell_run es cell_initial).1.
Proof.
  induction es as [|e es IH] using rev_ind; [done|].
  rewrite cell_run_snoc. destruct (cell_run es cell_initial) as [c w].
  by apply cell_fire_erase.
Qed.

(** C21. [ViewState] loses nothing the program can see: after any events,
    direct calls included, the world beside the cell is the world of
    [Machine], its field [resume] is the erasure of the cell, and the
    guards of [handleSubmit], the button's [disabled] and the child
    rendered under the drop zone are those of the erasure. *)
Theorem cell_erasure_sound es :
  let cw := cell_run es cell_initial in
  let s := view (run es initial_world) in
  cw.2 = run es initial_world ∧ resume s = erase cw.1 ∧
  cell_validate cw.1 (jobDescription s) = validate (resume s) (jobDescription s) ∧
  cell_disabled (isLoading s) cw.1 (jobDescription s) = submit_disabled s ∧
  mount (cell_line cw.1) = mount (resume_line (resume s)).
Proof.
  simpl. pose proof (cell_run_erase es) as He.
  pose proof (cell_run_world es CellNull initial_world) as Hw.
  fold cell_initial in Hw. rewrite Hw in He. split; [done|]. split; [done|].
  unfold cell_disabled, submit_disabled.
  by rewrite cell_validate_erase, cell_truthy_erase, cell_line_erase, He.
Qed.

(** C22. The cell leaves its declared type: a drop from which the picker
    accepts nothing is an event of the interface, and after it the cell
    holds [undefined], which is neither a [File] nor [null]; after a
    drop the cell has its type exactly when the list handed on is not
    empty. *)
Theorem cell_leaves_declared_type es acceptedFiles :
  let cw := cell_run (es ++ [EvDrop acceptedFiles]) cell_initial in
  ui_event (EvDrop []) = true ∧
  (cell_typed cw.1 = true ↔ acceptedFiles ≠ []) ∧
  (acceptedFiles = [] → cw.1 = CellUndefined ∧ resume (view cw.2) = None).
Proof.
  simpl. rewrite cell_run_snoc. destruct (cell_run es cell_initial) as [c w].
  split; [done|]. split; [apply cell_typed_first_of|]. by intros ->.
Qed.

(** The default action of the click is prevented before anything else,
    whatever the state; the rest is [handleSubmit_begin]. *)
Theorem handleSubmit_on_prevents_default (click : FormEvent) (s : ViewState) :
  defaultPrevented (handleSubmit_on click s).1 = true ∧
  (handleSubmit_on click s).2 = handleSubmit_begin s.
Proof. done. Qed.

End Erasure.

(** ** On a sample *)

(** A file is picked, then a drop of another type is refused: the cell
    holds [undefined]. *)
Example refused_drop_stores_undefined :
  (cell_run (engine := sample_engine) [EvDrop [sample_pdf]; EvDrop []] cell_initial).1
  = CellUndefined.
Proof. reflexivity. Qed.
