(* ===== verification/Integers.v ===== *)
(** * Integers: integral numbers and their decimal text

    A percentage is an integer more often than not, and the service may
    send it as a number or as text.  This file follows the integers
    through the arithmetic of [Binary64] and through the two conversions
    the engine is asked for: ToNumber of a decimal numeral (the operand of
    [100 - matchPercentage], src/src/App.tsx line 79) and ToString of a
    number (a number rendered as a child, lines 181-184).

    The integers up to [2^53 - 1] in magnitude (the safe integers) are
    binary64 numbers; sums and differences of them are computed as in the
    integers, rounded once ([num_sub_integers], [num_add_integers]).
    What the engine does with decimal text is class [DecimalLaws]; the
    sample engine of [JsValue] keeps its laws.  The theorems: the second
    slice for an integral percentage is the integer [100 - k], for a
    percentage sent as a number or as its decimal text; a safe integer
    is shown in decimal. *)

From Stdlib Require Import ZArith SpecFloat.
From stdpp Require Import base tactics option list strings pretty.
From S2P Require Import Prelude JsValue Binary64 Model ViewState Types Chart View.

Local Open Scope Z_scope.

(** [Number.isSafeInteger] on an integer. *)
Definition is_safe_integer (z : Z) : bool := bool_decide (Z.abs z ≤ 2 ^ 53 - 1).

(** What the engine does with decimal text: a decimal numeral reads as
    the number nearest to its value, and a safe integer prints as its
    decimal numeral. *)
Class DecimalLaws (engine : Engine) : Prop := {
  string_to_number_decimal :
    ∀ z, 0 ≤ z → string_to_number (pretty z) = num_of_Z z;
  number_to_string_integer :
    ∀ z, is_safe_integer z = true → number_to_string (num_of_Z z) = pretty z;
}.

(** The sample result with its percentage as text. *)
Definition sample_text_percentage : JsValue :=
  JObject [("skillMatch", JObject [("matchPercentage", JString "85")])].

(** ** Safe integers as numbers *)

Section SafeIntegers.
Implicit Types (z a b n : Z).

Lemma is_safe_integer_spec z : is_safe_integer z = true ↔ Z.abs z < 2 ^ 53.
Proof. unfold is_safe_integer. rewrite bool_decide_eq_true. lia. Qed.

Lemma is_safe_integer_opp z : is_safe_integer (- z) = is_safe_integer z.
Proof. unfold is_safe_integer. by rewrite Z.abs_opp. Qed.

(** An integer, as a number, is zero or the integer rounded. *)
Lemma rounded_is_num_of_Z v z :
  v = z * 2 ^ 1074 →
  (if v =? 0 then S754_zero false
   else overflow (round_number (v <? 0) (Z.abs v))) = num_of_Z z.
Proof. intros ->. symmetry. by apply (binary_normalize_value z 0). Qed.

(** The last place of a safe integer. *)
Lemma safe_place n :
  0 < n < 2 ^ 53 →
  0 ≤ Z.log2 n ≤ 52 ∧ ulp_exp (n * 2 ^ 1074) = Z.log2 n + 1022 ∧
  n * 2 ^ 1074 = n * 2 ^ (52 - Z.log2 n) * 2 ^ (Z.log2 n + 1022).
Proof.
  intros Hn. pose proof (Z.log2_nonneg n).
  assert (Z.log2 n < 53) by (apply Z.log2_lt_pow2; lia).
  split_and!; [lia..| |].
  - unfold ulp_exp. rewrite Z.log2_mul_pow2 by lia. lia.
  - rewrite <-Z.mul_assoc, <-Z.pow_add_r by lia. do 2 f_equal. lia.
Qed.

(** A safe integer as a number: its sign, its magnitude shifted to 53
    bits, and the exponent that undoes the shift. *)
Lemma num_of_Z_safe z :
  z ≠ 0 → is_safe_integer z = true →
  num_of_Z z =
    S754_finite (z <? 0) (Z.to_pos (Z.abs z * 2 ^ (52 - Z.log2 (Z.abs z))))
      (Z.log2 (Z.abs z) - 52).
Proof.
  intros Hz Hs%is_safe_integer_spec.
  destruct (safe_place (Z.abs z) ltac:(lia)) as (Hl & Hu & Hm).
  rewrite <-(rounded_is_num_of_Z (z * 2 ^ 1074) z eq_refl).
  pow2 1074. rewrite Z.abs_mul, (Z.abs_eq (2 ^ 1074)) by lia.
  destruct (Z.eqb_spec (z * 2 ^ 1074) 0); [nia|].
  replace (z * 2 ^ 1074 <? 0) with (z <? 0) by (cases_Z; nia).
  rewrite round_number_exact by (nia || (rewrite Hu; by eexists)).
  rewrite Hu. rewrite Hm at 1. pow2 (Z.log2 (Z.abs z) + 1022).
  rewrite Z.div_mul by lia. simpl.
  replace (Z.log2 (Z.abs z) + 1022 - 1074) with (Z.log2 (Z.abs z) - 52) by lia.
  by destruct (Z.leb_spec (Z.log2 (Z.abs z) - 52) 971); [|lia].
Qed.

Lemma finite_num_of_Z z :
  z ≠ 0 → is_safe_integer z = true → finite_units (num_of_Z z).
Proof.
  intros Hz Hs. rewrite num_of_Z_safe by done. simpl.
  pose proof (Z.log2_nonneg (Z.abs z)). lia.
Qed.

(** The value of a safe integer, in units. *)
Lemma units_num_of_Z z :
  is_safe_integer z = true → units (num_of_Z z) = z * 2 ^ 1074.
Proof.
  intros Hs. destruct (decide (z = 0)) as [->|Hz]; [done|].
  rewrite num_of_Z_safe by done. apply is_safe_integer_spec in Hs.
  destruct (safe_place (Z.abs z) ltac:(lia)) as (Hl & _ & Hm).
  pow2 (52 - Z.log2 (Z.abs z)).
  assert (scaled (Z.to_pos (Z.abs z * 2 ^ (52 - Z.log2 (Z.abs z))))
            (Z.log2 (Z.abs z) - 52) = Z.abs z * 2 ^ 1074) as Hv.
  { unfold scaled. rewrite Z2Pos.id by nia. rewrite Hm. do 2 f_equal. lia. }
  destruct (Z.ltb_spec z 0); cbn [units]; rewrite Hv; nia.
Qed.

(** Differences and sums of safe integers are those of the integers,
    rounded once. *)
Lemma num_sub_integers a b :
  is_safe_integer a = true → is_safe_integer b = true →
  num_sub (num_of_Z a) (num_of_Z b) = num_of_Z (a - b).
Proof.
  intros Ha Hb. destruct (decide (b = 0)) as [->|Hb0].
  { rewrite Z.sub_0_r. destruct (decide (a = 0)) as [->|Ha0]; [done|].
    by rewrite (num_of_Z_safe a). }
  destruct (decide (a = 0)) as [->|Ha0].
  - rewrite Z.sub_0_l, (num_of_Z_safe b), (num_of_Z_safe (- b))
      by (done || lia || by rewrite is_safe_integer_opp).
    rewrite Z.abs_opp. change (num_of_Z 0) with (S754_zero false). simpl.
    f_equal. cases_Z; lia.
  - rewrite num_sub_signed by by apply finite_num_of_Z.
    rewrite !units_num_of_Z by done. apply rounded_is_num_of_Z. ring.
Qed.

Lemma num_add_integers a b :
  is_safe_integer a = true → is_safe_integer b = true →
  num_add (num_of_Z a) (num_of_Z b) = num_of_Z (a + b).
Proof.
  intros Ha Hb. destruct (decide (b = 0)) as [->|Hb0].
  { rewrite Z.add_0_r. destruct (decide (a = 0)) as [->|Ha0]; [done|].
    by rewrite (num_of_Z_safe a). }
  destruct (decide (a = 0)) as [->|Ha0].
  { rewrite Z.add_0_l. by rewrite (num_of_Z_safe b). }
  rewrite num_add_signed by by apply finite_num_of_Z.
  rewrite !units_num_of_Z by done. apply rounded_is_num_of_Z. ring.
Qed.

(** The second slice and the sum of the slices for an integral
    percentage. *)
Lemma complement_of_integer k :
  is_safe_integer k = true → complement (num_of_Z k) = num_of_Z (100 - k).
Proof. intros Hk. by apply num_sub_integers. Qed.

Lemma slice_sum_of_integer k :
  Z.abs k ≤ 2 ^ 53 - 101 → slice_sum (num_of_Z k) = num_of_Z 100.
Proof.
  intros Hk. unfold slice_sum.
  rewrite complement_of_integer, num_add_integers
    by (apply is_safe_integer_spec; lia).
  f_equal. lia.
Qed.

End SafeIntegers.

(** ** The sample engine keeps the laws *)

Section SampleEngine.
Implicit Types (z : Z) (x d : N) (s : string).

Lemma digit_of_pretty d : (d < 10)%N → digit_of (pretty_N_char d) = Some (Z.of_N d).
Proof.
  intros Hd.
  assert (d ∈ [0; 1; 2; 3; 4; 5; 6; 7; 8; 9]%N) as Hin.
  { rewrite !elem_of_cons. lia. }
  by repeat (apply elem_of_cons in Hin as [->|Hin]; [done|]); apply elem_of_nil in Hin.
Qed.

(** Reading the digits printed in front of [s] leaves [s] to read, with
    the number printed in hand. *)
Lemma read_digits_pretty_go x s :
  read_digits 0 (pretty_N_go x s) = read_digits (Z.of_N x) s.
Proof.
  revert s. induction (N.lt_wf_0 x) as [x _ IH]; intros s.
  destruct (decide (x = 0)%N) as [->|Hx]; [by rewrite pretty_N_go_0|].
  rewrite pretty_N_go_step, IH by (try apply N.div_lt; lia).
  cbn [read_digits]. rewrite digit_of_pretty by by apply N.mod_lt.
  f_equal. rewrite (N.div_mod x 10) at 3 by done. lia.
Qed.

Lemma read_digits_pretty z : 0 ≤ z → read_digits 0 (pretty z) = Some z.
Proof.
  destruct z as [|p|p]; [done| |lia]. intros _.
  change (pretty (Z.pos p)) with (pretty_N_go (N.pos p) "").
  by rewrite read_digits_pretty_go.
Qed.

Lemma cond_Zopp_abs z : cond_Zopp (z <? 0) (Z.abs z) = z.
Proof. cases_Z; simpl; lia. Qed.

(** A safe integer is read back from its number. *)
Lemma num_to_Z_of_Z z : is_safe_integer z = true → num_to_Z (num_of_Z z) = Some z.
Proof.
  intros Hs. destruct (decide (z = 0)) as [->|Hz]; [done|].
  rewrite num_of_Z_safe by done. apply is_safe_integer_spec in Hs.
  destruct (safe_place (Z.abs z) ltac:(lia)) as (Hl & _ & _).
  unfold num_to_Z. set (k := 52 - Z.log2 (Z.abs z)).
  replace (Z.log2 (Z.abs z) - 52) with (- k) by lia. pow2 k.
  rewrite Z2Pos.id by nia. rewrite Z.opp_involutive, Z.mod_mul by lia. simpl.
  destruct (Z.leb_spec 0 (- k)).
  - replace k with 0 by lia. rewrite Z.mul_1_r. simpl.
    by rewrite Z.mul_1_r, cond_Zopp_abs.
  - f_equal. rewrite <-(cond_Zopp_abs z) at 3.
    destruct (z <? 0); simpl; [rewrite <-Z.mul_opp_l|]; by rewrite Z.div_mul by lia.
Qed.

#[global] Instance sample_decimal_laws : DecimalLaws sample_engine.
Proof.
  split; simpl; intros z Hz.
  - unfold sample_string_to_number. by rewrite read_digits_pretty.
  - unfold sample_number_to_string. rewrite num_to_Z_of_Z by done.
    destruct (decide (z = 0)) as [->|Hz0]; [done|]. by rewrite num_of_Z_safe.
Qed.

End SampleEngine.

(** ** Integral percentages in the chart and on the page *)

Section Charted.
Context {engine : Engine} {laws : DecimalLaws engine}.
Implicit Types (v : JsValue) (k z : Z).

Lemma js_sub_decimal a k :
  0 ≤ k → js_sub (JNumber a) (JString (pretty k)) = Ok (num_sub a (num_of_Z k)).
Proof. intros Hk. unfold js_sub. simpl. by rewrite string_to_number_decimal. Qed.

(** C18. For an integral percentage the second slice is the integer
    [100 - k]: for every integer [k] up to [2^53 - 1] in magnitude,
    [100 - k] as binary64 is the number of the integer [100 - k], below
    0 and above 100 as well; and up to [2^53 - 101] the two slices add
    up to exactly 100. *)
Theorem complement_integer k :
  is_safe_integer k = true →
  complement (num_of_Z k) = num_of_Z (100 - k) ∧
  (Z.abs k ≤ 2 ^ 53 - 101 → slice_sum (num_of_Z k) = num_of_Z 100).
Proof.
  intros Hk. split; [by apply complement_of_integer|apply slice_sum_of_integer].
Qed.

(** C39. A percentage sent as text is charted: when [matchPercentage] is
    the decimal numeral of an integer [k] from 0 to [2^53 - 1], the
    first slice is the text as it came and the second the number
    [100 - k]. *)
Theorem text_percentage_charted v k :
  truthy (get_prop_opt v "skillMatch") = true →
  percentage_of v = JString (pretty k) →
  0 ≤ k → is_safe_integer k = true →
  renderPieChart v =
    Ok (Some (pie_of (JString (pretty k)) (JNumber (num_of_Z (100 - k))))).
Proof.
  intros Ht Hp Hk Hs. rewrite renderPieChart_spec, Ht, Hp, js_sub_decimal by done.
  by rewrite (num_sub_integers 100 k).
Qed.

(** A safe integer among the children of an element is shown in
    decimal. *)
Theorem integer_child_shown z :
  is_safe_integer z = true →
  mount_value (JNumber (num_of_Z z)) = Ok [Str (pretty z)].
Proof. intros Hz. simpl. by rewrite number_to_string_integer. Qed.

(** Printing a safe integer and reading the text gives the number
    back. *)
Theorem decimal_round_trip z :
  0 ≤ z → is_safe_integer z = true →
  to_number (JString (number_to_string (num_of_Z z))) = Ok (num_of_Z z).
Proof.
  intros Hz Hs. simpl. by rewrite number_to_string_integer, string_to_number_decimal.
Qed.

End Charted.

(** ** On the samples *)

Lemma complement_integer_witness :
  complement (num_of_Z 85) = num_of_Z (100 - 85) ∧
  (Z.abs 85 ≤ 2 ^ 53 - 101 → slice_sum (num_of_Z 85) = num_of_Z 100).
Proof. apply (complement_integer 85). reflexivity. Defined.

Lemma text_percentage_charted_witness :
  renderPieChart (engine := sample_engine) sample_text_percentage
  = Ok (Some (pie_of (JString "85") (JNumber (num_of_Z 15)))).
Proof.
  apply (text_percentage_charted (engine := sample_engine) sample_text_percentage 85);
    [reflexivity|reflexivity|lia|reflexivity].
Defined.

Lemma integer_child_shown_witness :
  mount_value (engine := sample_engine) (JNumber (num_of_Z 85)) = Ok [Str "85"].
Proof. apply (integer_child_shown (engine := sample_engine) 85). reflexivity. Defined.

Lemma decimal_round_trip_witness :
  to_number (engine := sample_engine)
    (JString (number_to_string (Engine := sample_engine) (num_of_Z 85)))
  = Ok (num_of_Z 85).
Proof.
  apply (decimal_round_trip (engine := sample_engine) 85); [lia|reflexivity].
Defined.
