(* ===== verification/Component.v ===== *)
(** * Component: the page as the user can act on it

    [App] (src/src/App.tsx, lines 22-198) hands the renderer a tree whose
    elements name their handlers: [getRootProps] and [getInputProps] of
    the drop zone configured at lines 29-36, [onChange] of the text area
    (line 134) and [onClick] of the button (line 139), which also carries
    [disabled] (line 140).  [Machine] takes the events as given; this
    file derives them from the page.  A gesture of the user (a click, a
    text typed, files dropped) reaches its handler when the displayed
    page has an element that listens for it and is not disabled;
    [interact] is that dispatch, on the nodes [display] returned.

    The theorems: the listeners of a displayed page are the four of the
    left column, the button's with the flag [submit_disabled]
    ([page_listeners]); a gesture on a displayed page is the event of
    [Machine] it stands for ([interact_is_fire]), so that every world
    reached by gestures and settlements is one the interface reaches
    ([interactive_reachable]) and has its invariants; and while a
    request is in flight no gesture changes it or adds another
    ([edits_in_flight_keep_request]). *)

From stdpp Require Import base tactics option list strings.
From S2P Require Import Prelude JsValue Model ViewState Transport Submission.
From S2P Require Import Chart Machine View Raw.

(** The options passed to [useDropzone]. *)
Record DropzoneOptions : Type := mkDropzoneOptions {
  accept : list (string * list string);
  max_files : nat;
  on_drop : list File → ViewState → ViewState;
}.

Definition useDropzone_options : DropzoneOptions :=
  {| accept := [(accepted_type, [".pdf"])];
     max_files := maxFiles;
     on_drop := onDrop |}.

(** The contract of [Transport] is the one these options ask for: at
    most [max_files] files, each of a media type among the keys of
    [accept]. *)
Definition within_options (o : DropzoneOptions) (files : list File) : bool :=
  bool_decide (length files ≤ max_files o)
  && forallb (λ f, bool_decide (file_type f ∈ (accept o).*1)) files.

(** What the user does to the page: a click on the button, a text typed
    into the text area, files dropped on the drop zone, files chosen in
    the dialog of its input. *)
Inductive Gesture : Type :=
| Click
| TypeText (value : string)
| DropFiles (dropped : list File)
| ChooseFiles (chosen : list File).

(** The event of a click, as the button hands it to its handler. *)
Definition click_event : FormEvent := {| defaultPrevented := false |}.

(** The handler a gesture is meant for. *)
Definition target (g : Gesture) : Handler :=
  match g with
  | Click => HandleSubmit
  | TypeText _ => HandleChange
  | DropFiles _ => DropzoneRoot
  | ChooseFiles _ => DropzoneInput
  end.

(** The handlers an element names in its attributes. *)
Definition own_handlers (props : list (string * PropValue)) : list Handler :=
  omap (λ p, match p.2 with PHandler h => Some h | _ => None end) props.

Definition is_disabled (props : list (string * PropValue)) : bool :=
  bool_decide (("disabled", PFlag true) ∈ props).

(** The listeners of a tree, in document order, each with the [disabled]
    flag of its element. *)
Fixpoint listeners (e : Element) : list (Handler * bool) :=
  match e with
  | El _ props children =>
      ((λ h, (h, is_disabled props)) <$> own_handlers props)
      ++ (children ≫= listeners)
  | Str _ | Val _ | Icon _ _ | Pie _ _ => []
  end.

Definition all_listeners (nodes : list Element) : list (Handler * bool) :=
  nodes ≫= listeners.

(** A gesture reaches its handler when an element listens and is not
    disabled. *)
Definition reaches (nodes : list Element) (g : Gesture) : bool :=
  bool_decide ((target g, false) ∈ all_listeners nodes).

Section WithPicker.
Context {engine : Engine} {dz : Dropzone}.

(** The functions the handlers are bound to: [handleSubmit] to the
    button, the setter of the text to the text area, and [onDrop],
    behind the picker, to the drop zone. *)
Definition handle (h : Handler) (g : Gesture) (s : ViewState) : ViewState * option Request :=
  match h, g with
  | HandleSubmit, Click => (handleSubmit_on click_event s).2
  | HandleChange, TypeText value => (onChange value s, None)
  | DropzoneRoot, DropFiles files | DropzoneInput, ChooseFiles files =>
      (on_drop useDropzone_options (accept_files files) s, None)
  | _, _ => (s, None)
  end.

(** The component: for a state, the tree it returns and the functions
    its handlers name. *)
Definition App (s : ViewState) : Throws Element * (Handler → Gesture → ViewState * option Request) :=
  (render s, λ h g, handle h g s).

(** A gesture on the displayed page [nodes]. *)
Definition interact (nodes : list Element) (g : Gesture) (w : World) : World :=
  if reaches nodes g then send w ((App (view w)).2 (target g) g) else w.

(** The event of [Machine] a gesture stands for. *)
Definition event_of (g : Gesture) : Event :=
  match g with
  | Click => EvClick
  | TypeText value => EvChange value
  | DropFiles files | ChooseFiles files => EvDrop (accept_files files)
  end.

(** The worlds gestures on displayed pages and settlements lead to. *)
Inductive interactive : World → Prop :=
| interactive_init : interactive initial_world
| interactive_gesture w nodes g :
    interactive w → display (view w) = Ok nodes → interactive (interact nodes g w)
| interactive_settle w n o :
    interactive w → interactive (fire (EvSettle n o) w).

End WithPicker.

(** ** The options of the drop zone *)

Lemma within_options_contract files :
  within_options useDropzone_options files = dropzone_contract files.
Proof.
  unfold within_options, dropzone_contract. simpl. f_equal.
  induction files as [|f files IH]; [done|]. simpl. rewrite IH. f_equal.
  apply bool_decide_ext. by rewrite list_elem_of_singleton.
Qed.

(** ** The listeners of a displayed page *)

Section Listeners.
Context {engine : Engine}.
Implicit Types (e : Element) (s : ViewState) (v : JsValue).

(** An expression child mounts to text: no listener. *)
Lemma mount_value_listeners v nodes :
  mount_value v = Ok nodes → all_listeners nodes = [].
Proof.
  revert nodes. induction v as [| | | | |items IH|fields _] using JsValue_ind;
    intros nodes; simpl; try by intros [= <-].
  - intros [= <-]. by destruct (truthy_string s).
  - revert nodes. induction IH as [|x rest Hx _ IHrest]; intros nodes; simpl.
    { by intros [= <-]. }
    destruct (mount_value x) as [a|]; [simpl|done].
    destruct (collect mount_value rest) as [b|]; [simpl|done]. intros [= <-].
    unfold all_listeners in *. by rewrite bind_app, (Hx a), (IHrest b).
Qed.

(** Mounting keeps the listeners. *)
Lemma mount_listeners e nodes :
  mount e = Ok nodes → all_listeners nodes = listeners e.
Proof.
  revert nodes. induction e as [tag props children IH|t|v|name c|chart options]
    using Element_ind; intros nodes; cbn [mount].
  - destruct (collect mount children) as [mounted|] eqn:Hc; [simpl|done].
    intros [= <-]. unfold all_listeners. simpl. rewrite app_nil_r. f_equal.
    revert mounted Hc. induction IH as [|x rest Hx _ IHrest]; intros mounted; simpl.
    { by intros [= <-]. }
    destruct (mount x) as [a|]; [simpl|done].
    destruct (collect mount rest) as [b|]; [simpl|done]. intros [= <-].
    by rewrite bind_app, (IHrest b), <-(Hx a).
  - intros [= <-]. by destruct (truthy_string t).
  - apply mount_value_listeners.
  - by intros [= <-].
  - by intros [= <-].
Qed.

(** The two cards of the right column have no listener. *)
Lemma match_panel_listeners v e : match_panel v = Ok e → listeners e = [].
Proof.
  unfold match_panel. destruct (renderPieChart v) as [chart|]; [simpl|done].
  destruct (skill_list v "matching"); [simpl|done].
  destruct (skill_list v "missing"); [simpl|done].
  destruct (skill_list v "additional"); [simpl|done].
  intros [= <-]. by destruct chart.
Qed.

Lemma info_panel_listeners v e : info_panel v = Ok e → listeners e = [].
Proof.
  unfold info_panel. destruct (get_prop v "name"); [simpl|done].
  destruct (get_prop v "education"); [simpl|done].
  destruct (get_prop v "experience"); [simpl|done].
  destruct (get_prop v "skills"); [simpl|done].
  by intros [= <-].
Qed.

Lemma results_column_listeners s e : results_column s = Ok e → listeners e = [].
Proof.
  unfold results_column. destruct (truthy (extractedData s)); [|by intros [= <-]].
  destruct (match_panel _) as [a|] eqn:Ha; [simpl|done].
  destruct (info_panel _) as [b|] eqn:Hb; [simpl|done]. intros [= <-]. simpl.
  by rewrite (match_panel_listeners _ a Ha), (info_panel_listeners _ b Hb).
Qed.

(** The cards of the left column. *)
Lemma upload_panel_listeners s :
  listeners (upload_panel s) = [(DropzoneRoot, false); (DropzoneInput, false)].
Proof. unfold upload_panel, resume_line. by destruct (resume s). Qed.

Lemma job_panel_listeners s : listeners (job_panel s) = [(HandleChange, false)].
Proof. done. Qed.

Lemma submit_button_listeners s :
  listeners (submit_button s) = [(HandleSubmit, submit_disabled s)].
Proof. unfold submit_button. by destruct (submit_disabled s). Qed.

Lemma error_panel_listeners s : listeners (error_panel s) = [].
Proof. unfold error_panel. by repeat case_match. Qed.

Lemma render_listeners s tree :
  render s = Ok tree →
  listeners tree =
    [(DropzoneRoot, false); (DropzoneInput, false); (HandleChange, false);
     (HandleSubmit, submit_disabled s)].
Proof.
  unfold render. destruct (results_column s) as [results|] eqn:Hr; [|done].
  intros [= <-].
  cbn -[upload_panel job_panel submit_button error_panel submit_disabled].
  by rewrite upload_panel_listeners, job_panel_listeners, submit_button_listeners,
    error_panel_listeners, (results_column_listeners s results Hr).
Qed.

Lemma display_listeners s nodes :
  display s = Ok nodes →
  all_listeners nodes =
    [(DropzoneRoot, false); (DropzoneInput, false); (HandleChange, false);
     (HandleSubmit, submit_disabled s)].
Proof.
  unfold display. destruct (render s) as [tree|] eqn:Ht; [simpl|done].
  intros Hm. by rewrite (mount_listeners tree nodes Hm), (render_listeners s tree Ht).
Qed.

(** A gesture reaches its handler on a displayed page unless it is a
    click on the disabled button. *)
Lemma reaches_displayed s nodes g :
  display s = Ok nodes →
  reaches nodes g = match g with Click => negb (submit_disabled s) | _ => true end.
Proof.
  intros Hd. unfold reaches. rewrite (display_listeners s nodes Hd).
  destruct g, (submit_disabled s); by vm_compute.
Qed.

End Listeners.

(** ** Gestures are events *)

Section Gestures.
Context {engine : Engine} {dz : Dropzone}.
Implicit Types (w : World) (g : Gesture) (nodes : list Element).

Lemma send_with_view w f : send w (f (view w), None) = with_view f w.
Proof. unfold send, with_view. simpl. by rewrite !app_nil_r. Qed.

Lemma interact_fire w nodes g :
  display (view w) = Ok nodes → interact nodes g w = fire (event_of g) w.
Proof.
  intros Hd. unfold interact. rewrite (reaches_displayed _ _ g Hd).
  destruct g as [|value|dropped|chosen]; simpl; [|apply send_with_view..].
  unfold button_click. destruct (submit_disabled (view w)); [|done].
  by rewrite send_nothing.
Qed.

Lemma event_of_ui {laws : DropzoneLaws dz} g : ui_event (event_of g) = true.
Proof. destruct g; simpl; [done..| |]; apply drop_is_ui_event. Qed.

#[local] Hint Resolve event_of_ui : interface.

Lemma interactive_is_reachable {laws : DropzoneLaws dz} w :
  interactive w → reachable ui_event w.
Proof.
  induction 1 as [|w nodes g _ IH Hd|w n o _ IH];
    rewrite ?(interact_fire w nodes g Hd); eauto with interface.
Qed.

(** The page offers exactly four listeners, in the order of the
    document: the drop zone's two, the text area's, and the button's,
    the last one disabled exactly when [isLoading || !resume ||
    !jobDescription]; the result's column offers none. *)
Theorem page_listeners s nodes :
  display s = Ok nodes →
  all_listeners nodes =
    [(DropzoneRoot, false); (DropzoneInput, false); (HandleChange, false);
     (HandleSubmit, submit_disabled s)].
Proof. apply display_listeners. Qed.

(** While a request is in flight no gesture changes it. *)
Lemma gesture_in_flight {laws : DropzoneLaws dz} g w :
  reachable ui_event w → pending w ≠ [] →
  let w' := fire (event_of g) w in
  reachable ui_event w' ∧ pending w' = pending w ∧ issued w' = issued w.
Proof.
  intros Hw Hp. split; [eauto with interface|].
  destruct g; [by rewrite (click_dropped w)|done..].
Qed.

(** C33. What is asked is what was held at the click: whatever the user
    types, drops or clicks while a request is in flight, the request in
    flight is the one issued, and none is added. *)
Theorem edits_in_flight_keep_request {laws : DropzoneLaws dz} gs w request :
  reachable ui_event w → pending w = [request] →
  let w' := run (event_of <$> gs) w in
  reachable ui_event w' ∧ pending w' = [request] ∧ issued w' = issued w.
Proof.
  revert w. induction gs as [|g gs IH]; intros w Hw Hp; [done|].
  destruct (gesture_in_flight g w Hw) as (Hw1 & Hp1 & Hi1); [by rewrite Hp|].
  destruct (IH _ Hw1) as (Hw2 & Hp2 & Hi2); [congruence|].
  change (run (event_of <$> g :: gs) w)
    with (run (event_of <$> gs) (fire (event_of g) w)).
  cbv zeta in *. split_and!; [done..|congruence].
Qed.

(** C4. A gesture on a displayed page is the event it stands for: a
    click calls [handleSubmit] unless the button is disabled, a text
    typed calls the setter of the text, files dropped call [onDrop] with
    what the picker hands on; nothing else on the page calls a handler. *)
Theorem interact_is_fire w nodes g :
  display (view w) = Ok nodes → interact nodes g w = fire (event_of g) w.
Proof. apply interact_fire. Qed.

(** Whatever the user does to the pages displayed, and however the
    requests settle, the world is one the interface reaches: at most one
    request is in flight, the loading flag is set exactly then, and
    every request issued carries an accepted file and a non-empty text. *)
Theorem interactive_reachable {laws : DropzoneLaws dz} w :
  interactive w →
  reachable ui_event w ∧ length (pending w) ≤ 1 ∧
  (isLoading (view w) = true ↔ pending w ≠ []) ∧
  Forall valid_request (issued w).
Proof.
  intros Hw%interactive_is_reachable.
  by destruct (ui_inv_reachable w Hw).
Qed.

End Gestures.

#[export] Hint Resolve event_of_ui drop_is_ui_event : interface.

(** ** On the samples *)

Lemma page_listeners_witness :
  ∃ nodes,
    display (engine := sample_engine) ready_state = Ok nodes ∧
    all_listeners nodes =
      [(DropzoneRoot, false); (DropzoneInput, false); (HandleChange, false);
       (HandleSubmit, false)].
Proof.
  eexists. split; [reflexivity|].
  apply (page_listeners (engine := sample_engine) ready_state). reflexivity.
Defined.

Lemma interact_is_fire_witness :
  let w := run (engine := sample_engine) sample_session initial_world in
  ∃ nodes,
    display (engine := sample_engine) (view w) = Ok nodes ∧
    interact (engine := sample_engine) (dz := first_accepted) nodes Click w
    = fire (engine := sample_engine) EvClick w.
Proof.
  eexists. split; [reflexivity|].
  apply (interact_is_fire (engine := sample_engine) (dz := first_accepted)).
  reflexivity.
Defined.

Lemma interactive_reachable_witness :
  ∃ nodes,
    display (engine := sample_engine) (view initial_world) = Ok nodes ∧
    let w := interact (engine := sample_engine) (dz := first_accepted)
               nodes (DropFiles [sample_pdf; sample_docx]) initial_world in
    reachable (engine := sample_engine) ui_event w ∧ length (pending w) ≤ 1 ∧
    (isLoading (view w) = true ↔ pending w ≠ []) ∧
    Forall valid_request (issued w).
Proof.
  eexists. split; [reflexivity|].
  apply (interactive_reachable (engine := sample_engine) (dz := first_accepted)).
  apply interactive_gesture; [apply interactive_init|reflexivity].
Defined.

Lemma edits_in_flight_keep_request_witness :
  let w := run (engine := sample_engine) sample_session initial_world in
  let w' := run (engine := sample_engine)
              (event_of (dz := first_accepted)
                 <$> [TypeText "Chef"; DropFiles [sample_docx]; Click]) w in
  reachable (engine := sample_engine) ui_event w' ∧
  pending w' = [sample_request] ∧ issued w' = issued w.
Proof.
  apply (edits_in_flight_keep_request (engine := sample_engine) (dz := first_accepted));
    [by apply reachable_run|reflexivity].
Defined.
