(* ===== verification/Session.v ===== *)
(** * Session: the interface and the page together

    What the user of the mounted component can and cannot run into:
    [Machine]'s worlds, rendered by [View].  The service is outside the
    program; a theorem that needs it to behave says so through
    [conforming_outcome], and the others hold for every outcome.  The
    declared type of the stored result ([Types]) is kept against a
    conforming service; the numbers of the stored result and of the
    chart are valid against any service whose bodies are decoded JSON
    ([decoded_event]).  The last theorem follows one submission from the
    click to the chart. *)

From stdpp Require Import base tactics option list strings.
From S2P Require Import Prelude JsValue Binary64 Model Objects ViewState Types Transport.
From S2P Require Import Submission Chart Machine View.

(** An outcome whose payload, when it is a success, has the declared
    shape. *)
Definition conforming_outcome {engine : Engine} (o : Outcome) : bool :=
  match settle_result o with
  | Ok payload => conforms payload
  | Throw _ => true
  end.

(** The events of the interface against a service that conforms. *)
Definition polite_event {engine : Engine} (e : Event) : bool :=
  ui_event e &&
  match e with
  | EvSettle _ o => conforming_outcome o
  | _ => true
  end.

(** An outcome whose body, when there is one, holds valid numbers only,
    as every body decoded from JSON does. *)
Definition wf_outcome (o : Outcome) : bool :=
  match o with
  | Fulfilled data => wf_value data
  | Rejected _ => true
  end.

(** The events of the interface with bodies decoded from JSON. *)
Definition decoded_event (e : Event) : bool :=
  ui_event e &&
  match e with
  | EvSettle _ o => wf_outcome o
  | _ => true
  end.

(** States that differ at most in the order of the members of the
    stored result, and outcomes that differ at most in that of the body. *)
#[export] Instance ViewState_equiv : Equiv ViewState := λ s t,
  resume s = resume t ∧ jobDescription s = jobDescription t ∧
  extractedData s ≡ extractedData t ∧ isLoading s = isLoading t ∧
  error s = error t.

#[export] Instance Outcome_equiv : Equiv Outcome := λ o o',
  match o, o' with
  | Fulfilled data, Fulfilled data' => data ≡ data'
  | Rejected reason, Rejected reason' => reason = reason'
  | _, _ => False
  end.

(** The sample answer with the members of the result in another order. *)
Definition sample_reordered_outcome : Outcome :=
  Fulfilled (JObject [("data", sample_reordered)]).

(** A session in which the service answers with a truthy payload of
    another shape. *)
Definition sample_bad_session : list Event :=
  sample_session ++ [EvSettle 0 (Fulfilled (JObject [("data", JString "ok")]))].

(** ** The stored result under a conforming service *)

Section Sessions.
Context {engine : Engine}.
Implicit Types (w : World) (e : Event).

Definition result_conforms (w : World) : Prop :=
  extractedData (view w) = JNull ∨ is_Some (decode (extractedData (view w))).

(** The texts of the page for a state: the left column, followed by the
    result's texts when a result is held. *)
Definition expected_texts (s : ViewState) : list string :=
  left_texts s ++ from_option result_texts [] (decode (extractedData s)).

Lemma polite_is_ui e : polite_event e = true → ui_event e = true.
Proof. unfold polite_event. by intros [? _]%andb_true_iff. Qed.

Lemma polite_is_ui_reachable w : reachable polite_event w → reachable ui_event w.
Proof. apply reachable_weaken, polite_is_ui. Qed.

Lemma polite_settle n o payload :
  polite_event (EvSettle n o) = true → settle_result o = Ok payload →
  is_Some (decode payload).
Proof.
  intros [_ He]%andb_true_iff Ho. unfold conforming_outcome in He.
  rewrite Ho in He. by apply bool_decide_eq_true in He.
Qed.

Lemma result_conforms_reachable w :
  reachable polite_event w → result_conforms w.
Proof.
  apply (stored_result_reachable (λ v, v = JNull ∨ is_Some (decode v))); [by left|].
  intros n o payload He Ho. right. by eapply polite_settle.
Qed.

Lemma page_text_polite w :
  reachable polite_event w → page_text (view w) = Ok (expected_texts (view w)).
Proof.
  unfold expected_texts. intros [Hnull|[r Hr]]%result_conforms_reachable.
  - rewrite page_text_null, Hnull by done. simpl. by rewrite app_nil_r.
  - by rewrite (page_text_conforming _ r), Hr.
Qed.

(** The nodes behind the texts. *)
Lemma page_text_display s l :
  page_text s = Ok l → ∃ nodes, display s = Ok nodes ∧ all_texts nodes = l.
Proof.
  unfold page_text. destruct (display s) as [nodes|]; [|done].
  intros [= <-]. by exists nodes.
Qed.

(** Against a service whose successful payloads have the declared
    shape, rendering succeeds in every state the interface reaches, and
    the page shows the left column, followed by the result's texts when a
    result is held. *)
Theorem page_always_renders w :
  reachable polite_event w →
  page_text (view w) =
    Ok (left_texts (view w)
        ++ from_option result_texts [] (decode (extractedData (view w)))).
Proof. apply page_text_polite. Qed.

(** Without that assumption the interface reaches a state that cannot
    be rendered: a file, a text, a click, and an answer whose [data] is
    the string "ok". *)
Theorem interface_reaches_unrenderable_state :
  let w := run sample_bad_session initial_world in
  reachable ui_event w ∧ error (view w) = None ∧
  display (view w) =
    Throw (ThrownTypeError (ReadOfNullish JUndefined "matching")).
Proof. split; [by apply reachable_run|done]. Qed.

(** ** The declared type of the result *)

(** C19. The declared type of the cell [extractedData] is kept exactly
    against a service that conforms: in every state the interface
    reaches against such a service the stored value is [null] or has
    the type [ExtractionResult]; without the assumption the interface
    reaches a state in which it has neither, since the response is
    stored unchecked. *)
Theorem declared_type_kept_iff_service_conforms :
  (∀ w, reachable polite_event w → state_typed (view w)) ∧
  (∃ w, reachable ui_event w ∧ ¬ state_typed (view w)).
Proof.
  split.
  - intros w Hw. apply state_typed_decode. by apply result_conforms_reachable.
  - exists (run sample_bad_session initial_world).
    split; [by apply reachable_run|]. unfold state_typed.
    rewrite <-check_type_spec. by vm_compute.
Qed.

(** ** Valid numbers in the result and in the chart *)

Lemma decoded_is_ui e : decoded_event e = true → ui_event e = true.
Proof. unfold decoded_event. by intros [? _]%andb_true_iff. Qed.

Lemma settle_result_wf o payload :
  wf_outcome o = true → settle_result o = Ok payload → wf_value payload = true.
Proof.
  destruct o as [data|]; [|done]. simpl. intros Hwf.
  destruct (classify data) eqn:Hc; try done. intros [= <-].
  unfold classify in Hc. repeat case_match; simplify_eq. by apply wf_get_prop_opt.
Qed.

Lemma stored_numbers_valid w :
  reachable decoded_event w → wf_value (extractedData (view w)) = true.
Proof.
  apply (stored_result_reachable (λ v, wf_value v = true)); [done|].
  intros n o payload [_ He]%andb_true_iff. by apply settle_result_wf.
Qed.

(** Whatever the service answers, as long as its bodies are decoded
    JSON: in every state the interface reaches, a chart that
    [renderPieChart] returns has as its second slice a valid binary64
    number (which may be [NaN] or infinite), and as its first the value
    stored, with valid numbers only. *)
Theorem chart_slices_valid {laws : EngineLaws engine} w chart :
  reachable decoded_event w →
  renderPieChart (extractedData (view w)) = Ok (Some chart) →
  ∃ p q, chart = pie_of p (JNumber q) ∧ wf_value p = true ∧ num_valid q = true.
Proof. intros Hw. by apply renderPieChart_wf, stored_numbers_valid. Qed.

End Sessions.

#[export] Hint Resolve polite_is_ui polite_is_ui_reachable decoded_is_ui : interface.

(** ** The order of the members of the response *)

#[export] Instance ViewState_equivalence : Equivalence (≡@{ViewState}).
Proof.
  split.
  - by intros s.
  - intros s t (? & ? & ? & ? & ?). by split_and!.
  - intros s t u (? & ? & ? & ? & ?) (? & ? & ? & ? & ?).
    split_and!; by etrans.
Qed.

Section MemberOrder.
Context {engine : Engine}.
Implicit Types (o : Outcome) (s t : ViewState).

(** Equivalent outcomes settle alike: the same error, or equivalent
    payloads. *)
Lemma settle_result_equiv o o' :
  o ≡ o' →
  match settle_result o, settle_result o' with
  | Ok payload, Ok payload' => payload ≡ payload'
  | Throw err, Throw err' => err = err'
  | _, _ => False
  end.
Proof.
  destruct o as [data|reason], o' as [data'|reason']; try done. intros Hd.
  change (data ≡ data') in Hd. simpl. unfold classify.
  pose proof (get_prop_opt_equiv data data' "data" Hd) as Hdata.
  pose proof (get_prop_opt_equiv data data' "error" Hd) as Herror.
  rewrite <-(is_nullish_proper _ _ Hd), <-(truthy_proper _ _ Hd),
    <-(truthy_proper _ _ Hdata), <-(truthy_proper _ _ Herror).
  destruct (is_nullish data) eqn:Hn; [by destruct Hd|].
  destruct (truthy data && truthy (get_prop_opt data "data")); [done|].
  destruct (truthy (get_prop_opt data "error")); [|done].
  by apply new_Error_proper.
Qed.

#[export] Instance handleSubmit_settle_proper :
  Proper ((≡) ==> (≡) ==> (≡)) handleSubmit_settle.
Proof.
  intros o o' Ho s t (Hr & Hj & He & Hl & Herr).
  rewrite !handleSubmit_settle_spec. pose proof (settle_result_equiv o o' Ho) as Hs.
  destruct (settle_result o), (settle_result o'); try done; subst;
    by split_and!; simpl.
Qed.

(** C30. The order in which the service lists the members of its answer
    does not matter: two bodies that agree on every member read by name,
    at every depth, leave the same messages and equivalent results, and
    for a conforming answer the same page and the same chart. *)
Theorem member_order_irrelevant o o' s :
  o ≡ o' → conforming_outcome o = true →
  let s1 := handleSubmit_settle o s in
  let s2 := handleSubmit_settle o' s in
  s1 ≡ s2 ∧ page_text s1 = page_text s2 ∧
  renderPieChart (extractedData s1) = renderPieChart (extractedData s2).
Proof.
  intros Ho Hc. simpl.
  pose proof (handleSubmit_settle_proper o o' Ho s s (reflexivity s)) as Hs.
  split; [done|]. destruct Hs as (Hr & Hj & He & Hl & Herr).
  revert Hc He Hr Hj Hl Herr. unfold conforming_outcome, conforms.
  rewrite !handleSubmit_settle_spec. pose proof (settle_result_equiv o o' Ho) as Hs.
  destruct (settle_result o) as [p|e], (settle_result o') as [p'|e']; try done; simpl.
  - intros [r Hp]%bool_decide_eq_true Hpp _ _ _ _.
    pose proof (decode_equiv p p' r Hs Hp) as Hp'.
    by rewrite (page_text_conforming _ r), (page_text_conforming _ r),
      (renderPieChart_decode p r), (renderPieChart_decode p' r).
  - intros _ _ _ _ _ [= ->]. by rewrite !page_text_null.
Qed.

End MemberOrder.

Section EndToEnd.
Context {engine : Engine}.

(** C16. From the click to the chart: with a file and a text, when the
    service answers with a result of the declared shape whose percentage
    is a number from 0 to 100, the submission stores that result with no
    error, and the chart drawn from the stored result has the percentage
    and its complement as slices, which add up to exactly 100. *)
Theorem submission_charts_to_100 post s file fields payload r :
  resume s = Some file → jobDescription s ≠ "" →
  post (request_for file (jobDescription s)) = Fulfilled (JObject fields) →
  lookup_field "data" fields = Some payload → decode payload = Some r →
  num_valid (matchPercentage (skillMatch r)) = true →
  num_leb (num_of_Z 0) (matchPercentage (skillMatch r)) = true →
  num_leb (matchPercentage (skillMatch r)) (num_of_Z 100) = true →
  let s' := (handleSubmit post s).1 in
  let p := matchPercentage (skillMatch r) in
  extractedData s' = payload ∧ error s' = None ∧ isLoading s' = false ∧
  renderPieChart (extractedData s') =
    Ok (Some (pie_of (JNumber p) (JNumber (complement p)))) ∧
  slice_sum p = num_of_Z 100.
Proof.
  intros Hr Hj Hpost Hd Hdec Hv H0 H100. simpl.
  assert (truthy payload = true) by (by destruct (decode_object _ _ Hdec) as [? ->]).
  rewrite (handleSubmit_valid _ _ file), Hpost by done.
  unfold settle_result. rewrite (classify_success _ payload) by done.
  simpl. split_and!; try done.
  - by apply renderPieChart_decode.
  - by apply slice_sum_in_range.
Qed.

End EndToEnd.

(** ** On the samples *)

Lemma submission_charts_to_100_witness :
  let s' := (handleSubmit (engine := sample_engine) sample_service ready_state).1 in
  let p := num_of_Z 67 in
  extractedData s' = encode sample_result ∧ error s' = None ∧
  isLoading s' = false ∧
  renderPieChart (engine := sample_engine) (extractedData s') =
    Ok (Some (pie_of (JNumber p) (JNumber (complement p)))) ∧
  slice_sum p = num_of_Z 100.
Proof.
  apply (submission_charts_to_100 (engine := sample_engine) sample_service
           ready_state sample_pdf [("data", encode sample_result)]
           (encode sample_result) sample_result);
    first [reflexivity | discriminate].
Defined.

Lemma page_always_renders_witness :
  let w := run (engine := sample_engine) sample_resubmission initial_world in
  page_text (engine := sample_engine) (view w) =
    Ok (left_texts (view w)
        ++ from_option result_texts [] (decode (extractedData (view w)))).
Proof.
  apply (page_always_renders (engine := sample_engine)).
  apply reachable_run. reflexivity.
Defined.

Lemma chart_slices_valid_witness :
  let w := run (engine := sample_engine) sample_resubmission initial_world in
  ∃ p q, pie_of (JNumber (num_of_Z 67)) (JNumber (num_of_Z 33)) = pie_of p (JNumber q)
         ∧ wf_value p = true ∧ num_valid q = true.
Proof.
  apply (chart_slices_valid (engine := sample_engine)
           (run (engine := sample_engine) sample_resubmission initial_world)).
  - apply reachable_run. reflexivity.
  - reflexivity.
Defined.

Lemma member_order_irrelevant_witness :
  let s1 := handleSubmit_settle (engine := sample_engine)
              (sample_service sample_request) (in_flight ready_state) in
  let s2 := handleSubmit_settle (engine := sample_engine)
              sample_reordered_outcome (in_flight ready_state) in
  s1 ≡ s2 ∧ page_text (engine := sample_engine) s1 = page_text (engine := sample_engine) s2 ∧
  renderPieChart (engine := sample_engine) (extractedData s1)
  = renderPieChart (engine := sample_engine) (extractedData s2).
Proof.
  apply (member_order_irrelevant (engine := sample_engine)); [|reflexivity].
  constructor. intros k. simpl.
  destruct (String.eqb k "data"); constructor. apply sample_reordered_equiv.
Defined.
