(* ===== verification/Plot.v ===== *)
(** * Plot: what the chart widget is handed

    [renderPieChart] hands its data to the [Pie] component of
    react-chartjs-2 (src/src/App.tsx, line 97).  The widget draws; what
    it asks of the data is a contract: two categories, one dataset with
    a number and a colour for each.  [two_categories] is that contract,
    [shares] the stronger one that the numbers are percentages.

    The theorems: the chart of a result of the declared shape meets the
    contract, and its numbers are percentages when the percentage sent
    is one; every chart drawn against a conforming service meets the
    contract; a percentage sent as text does not. *)

From Stdlib Require Import ZArith SpecFloat.
From stdpp Require Import base tactics option list strings.
From S2P Require Import Prelude JsValue Binary64 Model ViewState Types Transport Submission.
From S2P Require Import Chart Machine View Session.

(** A value the widget can draw as a slice: a number. *)
Definition is_numeric (v : JsValue) : bool :=
  match v with
  | JNumber _ => true
  | _ => false
  end.

(** A percentage: a valid number from 0 to 100. *)
Definition is_share (v : JsValue) : bool :=
  match v with
  | JNumber n =>
      num_valid n && num_leb (num_of_Z 0) n && num_leb n (num_of_Z 100)
  | _ => false
  end.

(** A dataset with a value and a colour for each of [n] categories. *)
Definition dataset_for (n : nat) (slice_ok : JsValue → bool) (d : Dataset) : bool :=
  bool_decide (length (data d) = n)
  && bool_decide (length (backgroundColor d) = n)
  && forallb slice_ok (data d).

(** The contract of the widget's input: two categories and one dataset
    for them. *)
Definition two_categories (slice_ok : JsValue → bool) (c : PieChart) : bool :=
  bool_decide (length (labels (pie_data c)) = 2)
  && bool_decide (length (datasets (pie_data c)) = 1)
  && forallb (dataset_for 2 slice_ok) (datasets (pie_data c)).

(** ** The chart of a result *)

Section Contract.
Context {engine : Engine}.
Implicit Types (v : JsValue) (r : ExtractionResult) (c : PieChart).

Lemma two_categories_pie_of slice_ok a b :
  two_categories slice_ok (pie_of a b) = slice_ok a && slice_ok b.
Proof. unfold two_categories, dataset_for. simpl. by rewrite !andb_true_r. Qed.

Lemma is_share_numeric v : is_share v = true → is_numeric v = true.
Proof. by destruct v. Qed.

Lemma is_share_complement p :
  is_share (JNumber p) = true → is_share (JNumber (complement p)) = true.
Proof.
  cbn [is_share]. intros [[Hv H0]%andb_true_iff H100]%andb_true_iff.
  by destruct (complement_range p Hv H0 H100) as (-> & -> & ->).
Qed.

(** The chart of a result of the declared shape. *)
Lemma chart_of_decoded v r c :
  decode v = Some r → renderPieChart v = Ok (Some c) →
  two_categories is_numeric c = true ∧
  (is_share (JNumber (matchPercentage (skillMatch r))) = true →
   two_categories is_share c = true).
Proof.
  intros Hr. rewrite (renderPieChart_decode v r Hr). intros [= <-].
  rewrite !two_categories_pie_of. split; [done|]. intros Hp.
  by rewrite Hp, is_share_complement.
Qed.

(** C32. The chart widget's contract is met for every result of the
    declared shape: two labels, one dataset, two numbers and two
    colours; and when the percentage sent is a valid number from 0 to
    100, so are both numbers drawn. *)
Theorem chart_meets_contract v r c :
  decode v = Some r → renderPieChart v = Ok (Some c) →
  two_categories is_numeric c = true ∧
  (is_share (JNumber (matchPercentage (skillMatch r))) = true →
   two_categories is_share c = true).
Proof. apply chart_of_decoded. Qed.

(** Against a service that conforms, every chart the interface draws
    meets the contract. *)
Theorem charts_drawn_meet_contract w c :
  reachable polite_event w →
  renderPieChart (extractedData (view w)) = Ok (Some c) →
  two_categories is_numeric c = true.
Proof.
  intros [Hnull|[r Hr]]%result_conforms_reachable Hc.
  - by rewrite Hnull in Hc.
  - by destruct (chart_of_decoded _ r c Hr Hc).
Qed.

(** The contract is the service's to keep: a percentage that is not a
    number is handed on as it came, whatever the second slice. *)
Theorem unchecked_percentage_breaks_contract v c :
  is_numeric (percentage_of v) = false →
  renderPieChart v = Ok (Some c) → two_categories is_numeric c = false.
Proof.
  intros Hp. rewrite renderPieChart_spec. destruct (truthy _); [|done].
  destruct (js_sub _ _) as [second|]; [|done]. intros [= <-].
  by rewrite two_categories_pie_of, Hp.
Qed.

End Contract.

(** ** On the samples *)

Lemma chart_meets_contract_witness :
  ∃ c, renderPieChart (engine := sample_engine) (encode sample_result) = Ok (Some c) ∧
       two_categories is_numeric c = true ∧
       (is_share (JNumber (matchPercentage (skillMatch sample_result))) = true →
        two_categories is_share c = true).
Proof.
  eexists. split; [reflexivity|].
  apply (chart_meets_contract (engine := sample_engine) (encode sample_result)
           sample_result); reflexivity.
Defined.

Lemma charts_drawn_meet_contract_witness :
  let w := run (engine := sample_engine)
             (sample_session ++ [EvSettle 0 (sample_service sample_request)])
             initial_world in
  ∃ c, renderPieChart (engine := sample_engine) (extractedData (view w)) = Ok (Some c) ∧
       two_categories is_numeric c = true.
Proof.
  eexists. split; [reflexivity|].
  apply (charts_drawn_meet_contract (engine := sample_engine)
           (run (engine := sample_engine)
              (sample_session ++ [EvSettle 0 (sample_service sample_request)])
              initial_world));
    [by apply reachable_run|reflexivity].
Defined.

Lemma unchecked_percentage_breaks_contract_witness :
  let v := JObject [("skillMatch", JObject [("matchPercentage", JString "85")])] in
  ∃ c, renderPieChart (engine := sample_engine) v = Ok (Some c) ∧
       two_categories is_numeric c = false.
Proof.
  eexists. split; [reflexivity|].
  apply (unchecked_percentage_breaks_contract (engine := sample_engine)
           (JObject [("skillMatch", JObject [("matchPercentage", JString "85")])]));
    reflexivity.
Defined.
