(* ===== verification/Browser.v ===== *)
(** * Browser: a visit to the mounted page

    [Machine] follows the state of the component and [View] what it
    renders for one state; this file follows both over a visit.  The
    page is mounted once; every gesture that reaches a handler and every
    settlement changes the state, and the component is rendered again
    ([commit]).  A render that throws has no error boundary above it
    (src/src/App.tsx declares none): the tree is unmounted, and from then
    on nothing listens and the setters of the state do nothing ([act] on
    a thrown [screen]).

    The theorems: a crash is final ([crash_is_final]); as long as the
    page is mounted the visit is the run of [Machine] on the events its
    actions stand for ([mounted_visit_is_run]); against a service that
    conforms the page never crashes ([polite_visit_never_crashes]) and
    the visits reach exactly the worlds the interface reaches
    ([visits_are_polite_runs]); against such a server every gesture,
    followed by the server's answer, leaves the page mounted with
    nothing in flight, with no more requests issued than the user
    clicked ([conversation_settles]); and one click followed through:
    the page while the request is in flight ([click_shows_loading]),
    the page with the result ([click_shows_result]), the page with the
    transport's message and the button enabled again
    ([click_shows_failure]). *)

From stdpp Require Import base tactics option list strings.
From S2P Require Import Prelude JsValue Model ViewState Transport Submission Exchange.
From S2P Require Import Chart Machine View Component Session.

(** The component's world and what is on the screen: the nodes of the
    last render, or what it threw. *)
Record Browser : Type := mkBrowser {
  world : World;
  screen : Throws (list Element);
}.

(** What happens during a visit: the user acts, or the [n]-th request in
    flight settles. *)
Inductive Action : Type :=
| User (g : Gesture)
| Settle (n : nat) (o : Outcome).

(** A settlement that finds the component unmounted: the request is no
    longer in flight, and the state is as it was. *)
Definition forget (n : nat) (w : World) : World :=
  {| view := view w; pending := delete n (pending w); issued := issued w |}.

Definition is_click (g : Gesture) : bool :=
  match g with Click => true | _ => false end.

Section WithPicker.
Context {engine : Engine} {dz : Dropzone}.

(** The component rendered for the state of [w]. *)
Definition commit (w : World) : Browser :=
  {| world := w; screen := display (view w) |}.

(** The page as it is mounted. *)
Definition boot : Browser := commit initial_world.

Definition act (a : Action) (b : Browser) : Browser :=
  match screen b, a with
  | Ok nodes, User g => commit (interact nodes g (world b))
  | Ok _, Settle n o => commit (fire (EvSettle n o) (world b))
  | Throw _, User _ => b
  | Throw _, Settle n _ => {| world := forget n (world b); screen := screen b |}
  end.

Definition visit (actions : list Action) (b : Browser) : Browser :=
  foldl (λ b a, act a b) b actions.

(** The event of [Machine] an action stands for. *)
Definition action_event (a : Action) : Event :=
  match a with
  | User g => event_of g
  | Settle n o => EvSettle n o
  end.

(** A world with nothing in flight that the interface reaches against a
    conforming service. *)
Definition at_rest (w : World) : Prop :=
  reachable polite_event w ∧ pending w = [] ∧ isLoading (view w) = false.

(** The actions against a service that conforms. *)
Definition polite_action (a : Action) : bool :=
  match a with
  | User _ => true
  | Settle _ o => conforming_outcome o
  end.

Section WithServer.
Context {transport : Transport}.
Variable server : Request → HttpReply.

(** The server answers the oldest request in flight. *)
Definition answer (b : Browser) : Browser :=
  match pending (world b) with
  | r :: _ => act (Settle 0 (axios_post (server r))) b
  | [] => b
  end.

(** A gesture of the user, followed by the server's answer. *)
Definition exchange (g : Gesture) (b : Browser) : Browser :=
  answer (act (User g) b).

Definition conversation (gs : list Gesture) (b : Browser) : Browser :=
  foldl (λ b g, exchange g b) b gs.

End WithServer.
End WithPicker.

(** A server that answers every request with the sample result, and one
    that answers with a result of another shape. *)
Definition sample_server (_ : Request) : HttpReply :=
  Reply 200 (JObject [("data", encode sample_result)]).

Definition sample_bad_server (_ : Request) : HttpReply :=
  Reply 200 (JObject [("data", JString "ok")]).

(** Pick a file, type a text, click. *)
Definition sample_gestures : list Gesture :=
  [DropFiles [sample_pdf]; TypeText "Proof engineer"; Click].

(** ** Crashes *)

Section Visits.
Context {engine : Engine} {dz : Dropzone}.
Implicit Types (b : Browser) (w : World) (a : Action) (actions : list Action).

Lemma visit_snoc actions a b : visit (actions ++ [a]) b = act a (visit actions b).
Proof. unfold visit. by rewrite foldl_app. Qed.

Lemma visit_cons actions a b : visit (a :: actions) b = visit actions (act a b).
Proof. done. Qed.

Lemma act_crashed a b e :
  screen b = Throw e →
  screen (act a b) = Throw e ∧ view (world (act a b)) = view (world b) ∧
  issued (world (act a b)) = issued (world b).
Proof. unfold act. intros Hb. rewrite Hb. by destruct a. Qed.

Lemma visit_crashed actions b e :
  screen b = Throw e →
  screen (visit actions b) = Throw e ∧
  view (world (visit actions b)) = view (world b) ∧
  issued (world (visit actions b)) = issued (world b).
Proof.
  revert b. induction actions as [|a actions IH]; intros b Hb; [done|].
  rewrite visit_cons. destruct (act_crashed a b e Hb) as (Hs & Hv & Hi).
  destruct (IH (act a b) Hs) as (? & ? & ?). split_and!; congruence.
Qed.

(** On a mounted page an action is its event. *)
Lemma act_mounted a w nodes :
  display (view w) = Ok nodes → act a (commit w) = commit (fire (action_event a) w).
Proof.
  intros Hd. unfold act. simpl. rewrite Hd.
  destruct a as [g|n o]; [|done]. simpl. by rewrite (interact_fire w nodes g Hd).
Qed.

Lemma visit_mounted actions w nodes :
  screen (visit actions (commit w)) = Ok nodes →
  visit actions (commit w) = commit (run (action_event <$> actions) w).
Proof.
  revert w. induction actions as [|a actions IH]; intros w; [done|].
  destruct (display (view w)) as [shown|e] eqn:Hd.
  - rewrite visit_cons, (act_mounted a w shown Hd). apply IH.
  - destruct (visit_crashed (a :: actions) (commit w) e Hd) as (-> & _). done.
Qed.

End Visits.

(** ** Against a service that conforms *)

Section Polite.
Context {engine : Engine} {dz : Dropzone} {laws : DropzoneLaws dz}.
Implicit Types (b : Browser) (w : World) (a : Action) (actions : list Action).

Lemma polite_action_event a :
  polite_action a = true → polite_event (action_event a) = true.
Proof.
  destruct a as [g|n o]; simpl; [|done]. intros _. unfold polite_event.
  rewrite event_of_ui. by destruct g.
Qed.

Lemma display_polite w :
  reachable polite_event w →
  ∃ nodes, display (view w) = Ok nodes ∧ all_texts nodes = expected_texts (view w).
Proof. intros Hw. by apply page_text_display, page_text_polite. Qed.

Lemma act_polite a w :
  reachable polite_event w → polite_action a = true →
  act a (commit w) = commit (fire (action_event a) w) ∧
  reachable polite_event (fire (action_event a) w).
Proof.
  intros Hw Ha. destruct (display_polite w Hw) as (nodes & Hd & _).
  split; [by eapply act_mounted|]. eauto using polite_action_event with interface.
Qed.

Lemma visit_polite actions w :
  reachable polite_event w → forallb polite_action actions = true →
  visit actions (commit w) = commit (run (action_event <$> actions) w) ∧
  reachable polite_event (run (action_event <$> actions) w).
Proof.
  revert w. induction actions as [|a actions IH]; intros w Hw; [done|].
  cbn [forallb]. intros [Ha Hrest]%andb_true_iff.
  destruct (act_polite a w Hw Ha) as (Ha' & Hw').
  rewrite visit_cons, Ha'. by apply IH.
Qed.

(** Every event of the interface against a conforming service is the
    event of an action, with a picker that hands on what is within its
    limits. *)
Lemma polite_event_action {transparent : DropzoneTransparent dz} e :
  polite_event e = true → ∃ a, polite_action a = true ∧ action_event a = e.
Proof.
  intros [Hui He]%andb_true_iff. destruct e as [fs|value| |n o|]; [| | | |done].
  - exists (User (DropFiles fs)). simpl. by rewrite accept_files_within.
  - by exists (User (TypeText value)).
  - by exists (User Click).
  - by exists (Settle n o).
Qed.

Lemma reachable_is_visit {transparent : DropzoneTransparent dz} w :
  reachable polite_event w →
  ∃ actions, forallb polite_action actions = true ∧ visit actions boot = commit w.
Proof.
  induction 1 as [|w e Hw (actions & Ha & Hv) He]; [by exists []|].
  destruct (polite_event_action e He) as (a & Hpa & <-).
  exists (actions ++ [a]). rewrite forallb_app, Ha, visit_snoc, Hv. simpl.
  rewrite Hpa. split; [done|]. by apply act_polite.
Qed.

Section Conversations.
Context {transport : Transport}.
Variable server : Request → HttpReply.
Hypothesis server_conforms : ∀ r, conforming_outcome (axios_post (server r)) = true.

Lemma answer_polite w :
  reachable polite_event w →
  answer server (commit w) = commit (drain (λ r, axios_post (server r)) 1 w) ∧
  at_rest (drain (λ r, axios_post (server r)) 1 w).
Proof.
  intros Hw.
  pose proof (interface_settles_in_one_step
    (λ r, axios_post (server r)) w (polite_is_ui_reachable w Hw)) as (_ & Hp & Hl).
  split; [|split_and!; [|done..]].
  - unfold answer. cbn [world commit]. destruct (decide (pending w = [])) as [Hr|Hr].
    { by rewrite drain_idle, Hr. }
    destruct (pending w) as [|r rest] eqn:Hrest; [done|].
    rewrite (drain_step _ _ r rest) by done.
    apply (act_polite (Settle 0 (axios_post (server r)))); [done|]. apply server_conforms.
  - apply drain_reachable; [|done]. intros r. unfold polite_event. simpl.
    apply server_conforms.
Qed.

Lemma issued_gesture g w :
  length (issued (fire (event_of g) w))
  ≤ length (issued w) + (if is_click g then 1 else 0).
Proof.
  destruct g; simpl; rewrite ?Nat.add_0_r; [|done..].
  rewrite length_app. by destruct (button_click (view w)) as [? []]; simpl; lia.
Qed.

Lemma exchange_polite g w :
  reachable polite_event w →
  ∃ w', exchange server g (commit w) = commit w' ∧ at_rest w' ∧
        length (issued w') ≤ length (issued w) + (if is_click g then 1 else 0).
Proof.
  intros Hw. unfold exchange.
  destruct (act_polite (User g) w Hw eq_refl) as (-> & Hw'). cbn [action_event] in *.
  destruct (answer_polite _ Hw') as (-> & Hs).
  exists (drain (λ r, axios_post (server r)) 1 (fire (event_of g) w)).
  split_and!; [done..|].
  pose proof (ui_inv_reachable _ (polite_is_ui_reachable _ Hw')) as [H1 _ _ _ _ _ _].
  destruct (drain_spec (λ r, axios_post (server r)) 1 _ H1) as (_ & -> & _).
  apply issued_gesture.
Qed.

Lemma conversation_polite gs w :
  reachable polite_event w →
  ∃ w', conversation server gs (commit w) = commit w' ∧
        reachable polite_event w' ∧
        (gs ≠ [] → pending w' = [] ∧ isLoading (view w') = false) ∧
        length (issued w') ≤ length (issued w) + length (filter is_click gs).
Proof.
  revert w. induction gs as [|g gs IH]; intros w Hw.
  { exists w. split_and!; [done..|simpl; lia]. }
  destruct (exchange_polite g w Hw) as (w1 & H1 & (Hr1 & Hp1 & Hl1) & Hi1).
  destruct (IH w1 Hr1) as (w' & H' & Hr' & Hq' & Hi').
  exists w'. simpl. rewrite H1. split_and!; [done..| |].
  - intros _. destruct gs as [|g' gs']; [|by apply Hq'].
    simpl in H'. by injection H' as <-.
  - rewrite filter_cons. destruct (is_click g); simpl in *; lia.
Qed.

End Conversations.
End Polite.

(** ** One submission, from the click to the page *)

Section Submitting.
Context {engine : Engine} {dz : Dropzone} {laws : DropzoneLaws dz}.
Context {transport : Transport}.
Implicit Types (w : World) (r : ExtractionResult).

Lemma answer_pending (server : Request → HttpReply) request rest b :
  pending (world b) = request :: rest →
  answer server b = act (Settle 0 (axios_post (server request))) b.
Proof. unfold answer. by intros ->. Qed.

(** A successful reply with a result of the declared shape is a
    conforming outcome that delivers the result. *)
Lemma axios_post_delivers status fields payload r :
  validateStatus status = true →
  lookup_field "data" fields = Some payload → decode payload = Some r →
  let o := axios_post (Reply status (JObject fields)) in
  settle_result o = Ok payload ∧ conforming_outcome o = true.
Proof.
  intros Hs Hd Hr. simpl. rewrite Hs.
  assert (truthy payload = true) by (by destruct (decode_object _ _ Hr) as [? ->]).
  assert (settle_result (Fulfilled (JObject fields)) = Ok payload) as Ho.
  { unfold settle_result. by rewrite (classify_success _ payload). }
  split; [done|]. unfold conforming_outcome. rewrite Ho.
  apply bool_decide_eq_true. by rewrite Hr.
Qed.

(** At rest with a file and a text, a click puts the request in flight. *)
Lemma click_at_rest w file :
  reachable polite_event w → pending w = [] →
  resume (view w) = Some file → jobDescription (view w) ≠ "" →
  fire EvClick w =
    send w (in_flight (view w), Some (request_for file (jobDescription (view w)))).
Proof.
  intros Hw Hp Hr Hj.
  pose proof (ui_inv_reachable w (polite_is_ui_reachable w Hw)) as [_ Hl _ _ _ _ _].
  assert (isLoading (view w) = false) as Hload.
  { apply not_true_is_false. by intros Ht%Hl. }
  assert (submit_disabled (view w) = false) as Hd.
  { apply submit_disabled_false. by rewrite Hr. }
  destruct (click_enabled _ Hd) as (file' & Hr' & Hc). simpl. rewrite Hc.
  by replace file' with file by congruence.
Qed.

(** The same click, followed by the server's answer. *)
Lemma click_exchange (server : Request → HttpReply) w file :
  reachable polite_event w → pending w = [] →
  resume (view w) = Some file → jobDescription (view w) ≠ "" →
  let request := request_for file (jobDescription (view w)) in
  let o := axios_post (server request) in
  conforming_outcome o = true →
  ∃ w', exchange server Click (commit w) = commit w' ∧ reachable polite_event w' ∧
        view w' = handleSubmit_settle o (in_flight (view w)) ∧
        pending w' = [] ∧ issued w' = issued w ++ [request].
Proof.
  intros Hw Hp Hr Hj request o Ho. subst o. unfold exchange.
  destruct (act_polite (User Click) w Hw eq_refl) as (-> & Hw1).
  cbn [action_event event_of] in *. rewrite (click_at_rest w file) in * by done.
  fold request in Hw1 |- *. set (w1 := send w (in_flight (view w), Some request)) in *.
  assert (pending w1 = [request]) as Hp1 by (simpl; by rewrite Hp).
  rewrite (answer_pending server request [] (commit w1)) by done.
  destruct (act_polite (Settle 0 _) w1 Hw1 Ho) as (-> & Hw2).
  destruct (settle_oldest request [] (axios_post (server request)) w1 Hp1)
    as (Hp2 & Hi2 & _).
  exists (fire (EvSettle 0 (axios_post (server request))) w1).
  split_and!; [done|done| |done|by rewrite Hi2].
  by rewrite (settle_oldest_view request []).
Qed.

End Submitting.

(** ** The visit as a whole *)

Section VisitTheorems.
Context {engine : Engine} {dz : Dropzone}.


(** As long as the page is mounted, a visit is a run of the
    interface: if the screen shows a page after the actions, the world is
    the one the events of the actions lead to from the initial world, and
    the page is the one rendered for its state. *)
Theorem mounted_visit_is_run actions nodes :
  screen (visit actions boot) = Ok nodes →
  world (visit actions boot) = run (action_event <$> actions) initial_world ∧
  display (view (run (action_event <$> actions) initial_world)) = Ok nodes.
Proof.
  unfold boot. intros Hs.
  pose proof (visit_mounted actions initial_world nodes Hs) as Hv.
  rewrite Hv in Hs. by rewrite Hv.
Qed.

(** C24. Against a service that conforms the page never crashes: after
    any actions whose settlements carry conforming outcomes, with any
    picker that keeps its contract, the screen shows a page, and its
    texts are the left column's followed by those of the result held. *)
Theorem polite_visit_never_crashes {laws : DropzoneLaws dz} actions :
  forallb polite_action actions = true →
  let b := visit actions boot in
  reachable polite_event (world b) ∧
  ∃ nodes, screen b = Ok nodes ∧ all_texts nodes = expected_texts (view (world b)).
Proof.
  intros Ha. destruct (visit_polite actions initial_world) as (Hv & Hr);
    [constructor|done|].
  simpl. unfold boot. rewrite Hv. split; [done|]. by apply display_polite.
Qed.

(** Against a server whose answers conform, a conversation settles:
    after any gestures, each followed by the server's answer to the
    request in flight, the page is mounted, nothing is in flight and the
    loading flag is cleared, and no more requests were issued than the
    user clicked. *)
Theorem conversation_settles {laws : DropzoneLaws dz} {transport : Transport}
    (server : Request → HttpReply) gs :
  (∀ r, conforming_outcome (axios_post (server r)) = true) →
  let b := conversation server gs boot in
  (∃ nodes, screen b = Ok nodes) ∧
  pending (world b) = [] ∧ isLoading (view (world b)) = false ∧
  length (issued (world b)) ≤ length (filter is_click gs).
Proof.
  intros Hserver.
  destruct (conversation_polite server Hserver gs initial_world) as (w & Hb & Hw & Hq & Hi);
    [constructor|].
  simpl. unfold boot. rewrite Hb. simpl.
  destruct (display_polite w Hw) as (nodes & -> & _).
  split_and!; [by exists nodes| | |done];
    (destruct gs as [|g gs]; [by injection Hb as <-|by apply Hq]).
Qed.

(** Between the click and the answer the page says so: at rest with a
    file and a text, a click leaves the page mounted with the button
    disabled and labelled "Analyzing...". *)
Theorem click_shows_loading {laws : DropzoneLaws dz} w file :
  reachable polite_event w → pending w = [] →
  resume (view w) = Some file → jobDescription (view w) ≠ "" →
  let b := act (User Click) (commit w) in
  pending (world b) = [request_for file (jobDescription (view w))] ∧
  ∃ nodes, screen b = Ok nodes ∧ (HandleSubmit, true) ∈ all_listeners nodes ∧
           "Analyzing..." ∈ all_texts nodes.
Proof.
  intros Hw Hp Hr Hj. simpl.
  destruct (act_polite (User Click) w Hw eq_refl) as (-> & Hw1).
  cbn [action_event event_of] in *. rewrite (click_at_rest w file) in * by done.
  destruct (display_polite _ Hw1) as (nodes & Hd & Ht). simpl in *.
  rewrite Hp. split; [done|]. exists nodes.
  rewrite (display_listeners _ _ Hd), Ht. split; [done|]. split.
  - rewrite !elem_of_cons. naive_solver.
  - unfold expected_texts, left_texts. rewrite !elem_of_app, !elem_of_cons.
    naive_solver.
Qed.

(** C13. From the click to the page: at rest with a file and a text,
    when the server answers the request with a success status and a body
    whose [data] has the declared shape, a click ends with the result
    stored, nothing in flight, exactly that request issued, and the page
    mounted with the texts of the left column followed by those of the
    result. *)
Theorem click_shows_result {laws : DropzoneLaws dz} {transport : Transport}
    (server : Request → HttpReply) w file status fields payload r :
  reachable polite_event w → pending w = [] →
  resume (view w) = Some file → jobDescription (view w) ≠ "" →
  server (request_for file (jobDescription (view w))) = Reply status (JObject fields) →
  validateStatus status = true →
  lookup_field "data" fields = Some payload → decode payload = Some r →
  let b := exchange server Click (commit w) in
  view (world b) = succeeded_with payload (in_flight (view w)) ∧
  pending (world b) = [] ∧
  issued (world b) = issued w ++ [request_for file (jobDescription (view w))] ∧
  ∃ nodes, screen b = Ok nodes ∧
           all_texts nodes = left_texts (view (world b)) ++ result_texts r.
Proof.
  intros Hw Hp Hr Hj Hserver Hs Hd Hdec.
  destruct (axios_post_delivers status fields payload r Hs Hd Hdec) as (Ho & Hc).
  destruct (click_exchange server w file Hw Hp Hr Hj) as (w' & Hb & _ & Hv & Hp' & Hi');
    [by rewrite Hserver|].
  rewrite Hserver, handleSubmit_settle_spec, Ho in Hv.
  cbv zeta. rewrite Hb. cbn [world commit screen]. rewrite Hv.
  split_and!; [done..|]. by apply page_text_display, page_text_conforming.
Qed.

(** C26. The page and the interface reach the same worlds: against a
    service that conforms, with a picker that keeps its contract and
    hands on what is within its limits, the worlds of the visits are the
    worlds the interface reaches, each with its page on the screen. *)
Theorem visits_are_polite_runs {laws : DropzoneLaws dz}
    {transparent : DropzoneTransparent dz} w :
  reachable polite_event w ↔
  ∃ actions, forallb polite_action actions = true ∧ visit actions boot = commit w.
Proof.
  split; [apply reachable_is_visit|]. intros (actions & Ha & Hv).
  destruct (visit_polite actions initial_world) as (Hv' & Hr); [constructor|done|].
  unfold boot in Hv. rewrite Hv' in Hv. by injection Hv as <-.
Qed.

(** C14. A failure is shown and can be retried: at rest with a file and a
    text, when the exchange fails (no reply, or a status outside
    200-299), a click ends with the transport's message as the error, no
    result, nothing in flight, and the page mounted with the button
    enabled again. *)
Theorem click_shows_failure {laws : DropzoneLaws dz} {transport : Transport}
    (server : Request → HttpReply) w file :
  reachable polite_event w → pending w = [] →
  resume (view w) = Some file → jobDescription (view w) ≠ "" →
  let request := request_for file (jobDescription (view w)) in
  is_failure (server request) = true →
  let b := exchange server Click (commit w) in
  view (world b) = failed_with (failure_message (server request)) (view w) ∧
  pending (world b) = [] ∧ issued (world b) = issued w ++ [request] ∧
  ∃ nodes, screen b = Ok nodes ∧ (HandleSubmit, false) ∈ all_listeners nodes ∧
           all_texts nodes = left_texts (view (world b)).
Proof.
  intros Hw Hp Hr Hj request Hf.
  pose proof (axios_post_failure _ Hf) as Ho.
  destruct (click_exchange server w file Hw Hp Hr Hj) as (w' & Hb & Hw' & Hv & Hp' & Hi');
    [by fold request; rewrite Ho|].
  fold request in Hv. rewrite Ho, handleSubmit_settle_spec in Hv. simpl in Hv.
  cbv zeta. rewrite Hb. cbn [world commit screen]. rewrite Hv. split_and!; [done..|].
  destruct (display_polite w' Hw') as (nodes & Hd & Ht). rewrite Hv in Hd, Ht.
  exists nodes. rewrite (display_listeners _ _ Hd), Ht. split_and!; [done| |].
  - rewrite !elem_of_cons. do 3 right. left. f_equal. symmetry.
    apply submit_disabled_false. simpl. by rewrite Hr.
  - unfold expected_texts. simpl. by rewrite app_nil_r.
Qed.

End VisitTheorems.

(** ** On the samples *)

Section Samples.
#[local] Existing Instances sample_engine first_accepted sample_transport.

(** The sample conversation with the sample server: the page shows the
    result, and one request was issued. *)
Example sample_conversation_shows_result :
  let b := conversation sample_server sample_gestures boot in
  (screen b ≫= λ nodes, Ok (all_texts nodes)) = Ok (expected_texts (view (world b))) ∧
  extractedData (view (world b)) = encode sample_result ∧
  issued (world b) = [sample_request].
Proof. by vm_compute. Qed.

(** With the server that answers "ok" the page is gone after the first
    submission. *)
Example bad_server_crashes_page :
  screen (conversation sample_bad_server sample_gestures boot)
  = Throw (ThrownTypeError (ReadOfNullish JUndefined "matching")).
Proof. by vm_compute. Qed.

End Samples.


Lemma mounted_visit_is_run_witness :
  let actions := User <$> sample_gestures in
  let w := run (engine := sample_engine)
             (action_event (dz := first_accepted) <$> actions) initial_world in
  ∃ nodes,
    world (visit (engine := sample_engine) (dz := first_accepted) actions
             (boot (engine := sample_engine))) = w ∧
    display (engine := sample_engine) (view w) = Ok nodes.
Proof.
  eexists.
  apply (mounted_visit_is_run (engine := sample_engine) (dz := first_accepted)
           (User <$> sample_gestures)).
  reflexivity.
Defined.

Lemma polite_visit_never_crashes_witness :
  let b := visit (engine := sample_engine) (dz := first_accepted)
             ((User <$> sample_gestures) ++ [Settle 0 (sample_service sample_request)])
             (boot (engine := sample_engine)) in
  reachable (engine := sample_engine) (polite_event (engine := sample_engine))
    (world b) ∧
  ∃ nodes, screen b = Ok nodes ∧
           all_texts nodes = expected_texts (view (world b)).
Proof.
  apply (polite_visit_never_crashes (engine := sample_engine) (dz := first_accepted)).
  reflexivity.
Defined.

Lemma conversation_settles_witness :
  let b := conversation (engine := sample_engine) (dz := first_accepted)
             (transport := sample_transport) sample_server sample_gestures
             (boot (engine := sample_engine)) in
  (∃ nodes, screen b = Ok nodes) ∧
  pending (world b) = [] ∧ isLoading (view (world b)) = false ∧
  length (issued (world b)) ≤ 1.
Proof.
  apply (conversation_settles (engine := sample_engine) (dz := first_accepted)
           (transport := sample_transport) sample_server sample_gestures).
  reflexivity.
Defined.

Lemma click_shows_result_witness :
  let w := run (engine := sample_engine)
             [EvDrop [sample_pdf]; EvChange "Proof engineer"] initial_world in
  let b := exchange (engine := sample_engine) (dz := first_accepted)
             (transport := sample_transport) sample_server Click
             (commit (engine := sample_engine) w) in
  view (world b) = succeeded_with (encode sample_result) (in_flight (view w)) ∧
  pending (world b) = [] ∧
  issued (world b) = issued w ++ [request_for sample_pdf (jobDescription (view w))] ∧
  ∃ nodes, screen b = Ok nodes ∧
           all_texts nodes = left_texts (view (world b)) ++ result_texts sample_result.
Proof.
  apply (click_shows_result (engine := sample_engine) (dz := first_accepted)
           (transport := sample_transport) sample_server _ sample_pdf 200
           [("data", encode sample_result)] (encode sample_result) sample_result);
    [by apply reachable_run|reflexivity|reflexivity|discriminate|reflexivity..].
Defined.

Lemma click_shows_loading_witness :
  let w := run (engine := sample_engine)
             [EvDrop [sample_pdf]; EvChange "Proof engineer"] initial_world in
  let b := act (engine := sample_engine) (dz := first_accepted) (User Click)
             (commit (engine := sample_engine) w) in
  pending (world b) = [request_for sample_pdf (jobDescription (view w))] ∧
  ∃ nodes, screen b = Ok nodes ∧ (HandleSubmit, true) ∈ all_listeners nodes ∧
           "Analyzing..." ∈ all_texts nodes.
Proof.
  apply (click_shows_loading (engine := sample_engine) (dz := first_accepted));
    [by apply reachable_run|reflexivity|reflexivity|discriminate].
Defined.

Lemma click_shows_failure_witness :
  let w := run (engine := sample_engine)
             [EvDrop [sample_pdf]; EvChange "Proof engineer"] initial_world in
  let b := exchange (engine := sample_engine) (dz := first_accepted)
             (transport := sample_transport) sample_refusal Click
             (commit (engine := sample_engine) w) in
  view (world b) = failed_with "Request failed with status code 422" (view w) ∧
  pending (world b) = [] ∧
  issued (world b) = issued w ++ [request_for sample_pdf (jobDescription (view w))] ∧
  ∃ nodes, screen b = Ok nodes ∧ (HandleSubmit, false) ∈ all_listeners nodes ∧
           all_texts nodes = left_texts (view (world b)).
Proof.
  apply (click_shows_failure (engine := sample_engine) (dz := first_accepted)
           (transport := sample_transport) sample_refusal _ sample_pdf);
    [by apply reachable_run|reflexivity|reflexivity|discriminate|reflexivity].
Defined.

Lemma visits_are_polite_runs_witness :
  let w := run (engine := sample_engine) sample_session initial_world in
  reachable (engine := sample_engine) (polite_event (engine := sample_engine)) w ↔
  ∃ actions,
    forallb (polite_action (engine := sample_engine)) actions = true ∧
    visit (engine := sample_engine) (dz := first_accepted) actions
      (boot (engine := sample_engine)) = commit (engine := sample_engine) w.
Proof.
  apply (visits_are_polite_runs (engine := sample_engine) (dz := first_accepted)).
Defined.
