(* ===== verification/Service.v ===== *)
(** * Service: a remote service with a state of its own

    [Browser] has the server as a function from the request to the
    reply.  A service may answer the same request differently the
    second time: it is busy, then it is not.  Here the service is a
    machine ([Service]: a state and, for a state and a request, the next
    state and the reply), and a dialogue is a sequence of gestures, each
    followed by the service's answer to the request in flight.

    Nothing of the program changes: a turn of the dialogue is an
    exchange of [Browser] with the replies of the service's current
    state ([turn_exchange]).  The theorems: against a service whose
    replies conform in every state a dialogue settles
    ([dialogue_settles]); a server without state gives the conversations
    of [Browser] ([stateless_dialogue]); and a failure is not the end:
    when the service refuses the request and accepts it the next time,
    clicking again shows the result ([retry_shows_result]).  The program
    itself never retries ([failure_is_not_retried]). *)

From stdpp Require Import base tactics option list strings.
From S2P Require Import Prelude JsValue Model ViewState Transport Submission Exchange.
From S2P Require Import Chart Machine View Component Session Browser.

(** The service: its states, and its reaction to a request. *)
Record Service : Type := mkService {
  service_state : Type;
  service_reply : service_state → Request → service_state * HttpReply;
}.

(** A server that answers by the request alone. *)
Definition stateless (server : Request → HttpReply) : Service :=
  {| service_state := unit;
     service_reply _ request := (tt, server request) |}.

(** The replies of the service in one of its states. *)
Definition replies (sv : Service) (st : service_state sv) (request : Request) : HttpReply :=
  (service_reply sv st request).2.

(** A service that refuses the first [n] requests with status 503 and
    answers the later ones with the sample result. *)
Definition busy_then_ready : Service :=
  {| service_state := nat;
     service_reply n request :=
       match n with
       | 0 => (0, sample_server request)
       | S n' => (n', Reply 503 (JObject [("error", JString "busy")]))
       end |}.

(** A click of the user among the actions. *)
Definition is_user_click (a : Action) : bool :=
  match a with
  | User Click => true
  | _ => false
  end.

Section WithService.
Context {engine : Engine} {dz : Dropzone} {transport : Transport}.
Variable sv : Service.

(** A gesture, followed by the service's answer to the oldest request
    in flight, which moves the service on. *)
Definition turn (g : Gesture) (c : service_state sv * Browser) : service_state sv * Browser :=
  let b := act (User g) c.2 in
  match pending (world b) with
  | request :: _ =>
      let r := service_reply sv c.1 request in
      (r.1, act (Settle 0 (axios_post r.2)) b)
  | [] => (c.1, b)
  end.

Definition dialogue (gs : list Gesture) (c : service_state sv * Browser) :
    service_state sv * Browser :=
  foldl (λ c g, turn g c) c gs.

(** A service whose replies conform in every state. *)
Definition conforming_service : Prop :=
  ∀ st request, conforming_outcome (axios_post (replies sv st request)) = true.

End WithService.

(** ** Turns are exchanges *)

Section Dialogues.
Context {engine : Engine} {dz : Dropzone} {laws : DropzoneLaws dz}.
Context {transport : Transport}.
Variable sv : Service.
Implicit Types (st : service_state sv) (b : Browser) (w : World) (g : Gesture).

Lemma turn_exchange g st b : (turn sv g (st, b)).2 = exchange (replies sv st) g b.
Proof.
  unfold turn, exchange, answer, replies. simpl.
  by destruct (pending (world (act (User g) b))).
Qed.

Lemma dialogue_cons g gs c : dialogue sv (g :: gs) c = dialogue sv gs (turn sv g c).
Proof. done. Qed.

(** The state of the service moves only when a request is answered. *)
Lemma turn_idle g st b :
  pending (world (act (User g) b)) = [] → turn sv g (st, b) = (st, act (User g) b).
Proof. unfold turn. simpl. by intros ->. Qed.

Lemma turn_polite g st w :
  conforming_service sv → reachable polite_event w →
  ∃ st' w', turn sv g (st, commit w) = (st', commit w') ∧ at_rest w' ∧
            length (issued w') ≤ length (issued w) + (if is_click g then 1 else 0).
Proof.
  intros Hsv Hw.
  destruct (exchange_polite (replies sv st) (Hsv st) g w Hw) as (w' & He & Hr & Hi).
  exists (turn sv g (st, commit w)).1, w'. split; [|done].
  by rewrite <-He, <-turn_exchange, <-surjective_pairing.
Qed.

Lemma dialogue_polite gs st w :
  conforming_service sv → reachable polite_event w →
  ∃ st' w', dialogue sv gs (st, commit w) = (st', commit w') ∧
            reachable polite_event w' ∧
            (gs ≠ [] → pending w' = [] ∧ isLoading (view w') = false) ∧
            length (issued w') ≤ length (issued w) + length (filter is_click gs).
Proof.
  intros Hsv. revert st w. induction gs as [|g gs IH]; intros st w Hw.
  { exists st, w. split_and!; [done..|simpl; lia]. }
  destruct (turn_polite g st w Hsv Hw) as (st1 & w1 & H1 & (Hr1 & Hp1 & Hl1) & Hi1).
  destruct (IH st1 w1 Hr1) as (st' & w' & H' & Hr' & Hq' & Hi').
  exists st', w'. rewrite dialogue_cons, H1. split_and!; [done..| |].
  - intros _. destruct gs as [|g' gs']; [|by apply Hq'].
    by injection H' as _ <-.
  - rewrite filter_cons. destruct (is_click g); simpl in *; lia.
Qed.

Lemma turn_pending g st b request rest :
  pending (world (act (User g) b)) = request :: rest →
  turn sv g (st, b) = ((service_reply sv st request).1, exchange (replies sv st) g b).
Proof.
  intros Hp. rewrite <-turn_exchange. unfold turn. simpl. by rewrite Hp.
Qed.

(** A click at rest with a file and a text, answered by the service. *)
Lemma click_turn st w file :
  reachable polite_event w → pending w = [] →
  resume (view w) = Some file → jobDescription (view w) ≠ "" →
  let request := request_for file (jobDescription (view w)) in
  let o := axios_post (replies sv st request) in
  conforming_outcome o = true →
  ∃ w', turn sv Click (st, commit w) = ((service_reply sv st request).1, commit w') ∧
        reachable polite_event w' ∧
        view w' = handleSubmit_settle o (in_flight (view w)) ∧
        pending w' = [] ∧ issued w' = issued w ++ [request].
Proof.
  intros Hw Hp Hr Hj request o Ho.
  destruct (click_shows_loading w file Hw Hp Hr Hj) as (Hp1 & _).
  destruct (click_exchange (replies sv st) w file Hw Hp Hr Hj Ho) as (w' & He & Hrest).
  exists w'. by rewrite (turn_pending _ _ _ request []), He.
Qed.

(** An action issues a request only when it is a click. *)
Lemma act_issued a b :
  length (issued (world (act a b)))
  ≤ length (issued (world b)) + (if is_user_click a then 1 else 0).
Proof.
  unfold act. destruct (screen b) as [nodes|], a as [g|n o]; simpl; try lia.
  - unfold interact. destruct (reaches nodes g); [|destruct g; simpl; lia].
    destruct g; simpl; rewrite length_app; simpl; try lia.
    destruct (handleSubmit_begin _) as [? []]; simpl; lia.
  - case_decide; simpl; lia.
Qed.

End Dialogues.

(** ** What the dialogues come to *)

Section DialogueTheorems.
Context {engine : Engine} {dz : Dropzone} {laws : DropzoneLaws dz}.
Context {transport : Transport}.

(** C28. Against a service whose replies conform in every state, after
    any gestures, each followed by the service's answer to the request in
    flight, the page is mounted, nothing is in flight, the loading flag
    is cleared, and no more requests were issued than the user clicked. *)
Theorem dialogue_settles (sv : Service) st gs :
  conforming_service sv →
  let b := (dialogue sv gs (st, boot)).2 in
  (∃ nodes, screen b = Ok nodes) ∧
  pending (world b) = [] ∧ isLoading (view (world b)) = false ∧
  length (issued (world b)) ≤ length (filter is_click gs).
Proof.
  intros Hsv.
  destruct (dialogue_polite sv gs st initial_world Hsv) as (st' & w & Hd & Hw & Hq & Hi);
    [constructor|].
  simpl. unfold boot. rewrite Hd. simpl.
  destruct (display_polite w Hw) as (nodes & -> & _).
  split_and!; [by exists nodes| | |done];
    (destruct gs as [|g gs]; [by injection Hd as _ <-|by apply Hq]).
Qed.

(** A server without a state gives the conversations of [Browser]. *)
Theorem stateless_dialogue (server : Request → HttpReply) gs b :
  (dialogue (stateless server) gs (tt, b)).2 = conversation server gs b.
Proof.
  revert b. induction gs as [|g gs IH]; intros b; [done|].
  assert (turn (stateless server) g (tt, b) = (tt, exchange server g b)) as Ht.
  { unfold turn, exchange, answer. simpl.
    by destruct (pending (world (act (User g) b))). }
  by rewrite dialogue_cons, Ht, IH.
Qed.

(** C15. A failure is not the end: at rest with a file and a text, when
    the service refuses the request (no reply, or a status outside
    200-299) and in the state it is in afterwards answers the same
    request with a result of the declared shape, two clicks end with the
    result stored, no error, nothing in flight, the request issued
    twice, and the page showing the result. *)
Theorem retry_shows_result (sv : Service) st w file status fields payload r :
  reachable polite_event w → pending w = [] →
  resume (view w) = Some file → jobDescription (view w) ≠ "" →
  let request := request_for file (jobDescription (view w)) in
  let refused := service_reply sv st request in
  is_failure refused.2 = true →
  replies sv refused.1 request = Reply status (JObject fields) →
  validateStatus status = true →
  lookup_field "data" fields = Some payload → decode payload = Some r →
  let b := (dialogue sv [Click; Click] (st, commit w)).2 in
  view (world b) = succeeded_with payload (in_flight (view w)) ∧
  pending (world b) = [] ∧ issued (world b) = issued w ++ [request; request] ∧
  ∃ nodes, screen b = Ok nodes ∧
           all_texts nodes = left_texts (view (world b)) ++ result_texts r.
Proof.
  intros Hw Hp Hr Hj request refused Hf Hreply Hs Hd Hdec.
  pose proof (axios_post_failure _ Hf) as Ho1.
  destruct (axios_post_delivers status fields payload r Hs Hd Hdec) as (Ho2 & Hc2).
  destruct (click_turn sv st w file Hw Hp Hr Hj) as (w1 & Ht1 & Hw1 & Hv1 & Hp1 & Hi1);
    [by unfold replies; fold request refused; rewrite Ho1|].
  unfold replies in Hv1. fold request refused in Ht1, Hv1, Hi1.
  rewrite Ho1, handleSubmit_settle_spec in Hv1. simpl in Hv1.
  destruct (click_turn sv refused.1 w1 file Hw1 Hp1) as (w2 & Ht2 & Hw2 & Hv2 & Hp2 & Hi2);
    [by rewrite Hv1..|by rewrite Hv1; simpl; fold request; rewrite Hreply|].
  rewrite Hv1 in Ht2, Hv2, Hi2. simpl in Ht2, Hv2, Hi2. fold request in Ht2, Hv2, Hi2.
  rewrite Hreply, handleSubmit_settle_spec, Ho2 in Hv2.
  cbv zeta. rewrite !dialogue_cons, Ht1, Ht2. cbn [dialogue foldl snd world commit screen].
  rewrite Hv2, Hi2, Hi1, <-app_assoc. split_and!; [done..|].
  by apply page_text_display, page_text_conforming.
Qed.

(** C29. The program never asks on its own: whatever the outcomes and
    whatever is on the screen, a visit issues at most one request for
    each click of the user; settlements, typing and drops issue none, so
    that nothing is retried and nothing polled. *)
Theorem requests_need_clicks actions b :
  length (issued (world (visit actions b)))
  ≤ length (issued (world b)) + length (filter is_user_click actions).
Proof.
  revert b. induction actions as [|a actions IH]; intros b; [simpl; lia|].
  rewrite visit_cons, filter_cons. pose proof (act_issued a b). specialize (IH (act a b)).
  destruct (is_user_click a); simpl in *; lia.
Qed.

End DialogueTheorems.

(** ** On the samples *)

Section Samples.
#[local] Existing Instances sample_engine first_accepted sample_transport.

(** The busy service refuses the first submission: the user reads the
    transport's message, and the service has moved on. *)
Example busy_service_refuses_once :
  let c := dialogue busy_then_ready sample_gestures (1, boot) in
  c.1 = 0 ∧
  error (view (world c.2)) = Some "Request failed with status code 503" ∧
  issued (world c.2) = [sample_request].
Proof. by vm_compute. Qed.

End Samples.

Lemma dialogue_settles_witness :
  let b := (dialogue (engine := sample_engine) (dz := first_accepted)
              (transport := sample_transport) busy_then_ready
              (sample_gestures ++ [Click]) (1, boot (engine := sample_engine))).2 in
  (∃ nodes, screen b = Ok nodes) ∧
  pending (world b) = [] ∧ isLoading (view (world b)) = false ∧
  length (issued (world b)) ≤ 2.
Proof.
  apply (dialogue_settles (engine := sample_engine) (dz := first_accepted)
           (transport := sample_transport) busy_then_ready 1
           (sample_gestures ++ [Click])).
  by intros [|n] request.
Defined.

Lemma retry_shows_result_witness :
  let w := run (engine := sample_engine)
             [EvDrop [sample_pdf]; EvChange "Proof engineer"] initial_world in
  let b := (dialogue (engine := sample_engine) (dz := first_accepted)
              (transport := sample_transport) busy_then_ready [Click; Click]
              (1, commit (engine := sample_engine) w)).2 in
  view (world b) = succeeded_with (encode sample_result) (in_flight (view w)) ∧
  pending (world b) = [] ∧
  issued (world b)
  = issued w ++ [request_for sample_pdf (jobDescription (view w));
                 request_for sample_pdf (jobDescription (view w))] ∧
  ∃ nodes, screen b = Ok nodes ∧
           all_texts nodes = left_texts (view (world b)) ++ result_texts sample_result.
Proof.
  apply (retry_shows_result (engine := sample_engine) (dz := first_accepted)
           (transport := sample_transport) busy_then_ready 1
           (run (engine := sample_engine)
              [EvDrop [sample_pdf]; EvChange "Proof engineer"] initial_world)
           sample_pdf 200
           [("data", encode sample_result)] (encode sample_result) sample_result);
    [by apply reachable_run|reflexivity|reflexivity|discriminate|reflexivity..].
Defined.
