(* ===== verification/Refinement.v ===== *)
(** * Refinement: the interface implements the specified state machine

    The specification describes the submission lifecycle as a state
    machine over [Idle], [Validating], [InFlight], [Succeeded] and
    [Failed], with at most one request in flight.  The program has no such
    state: it has a loading flag, an error cell and a result cell.  This
    file states the machine ([spec_step]), reads the machine's state off
    the program's ([abstract]), and proves that every event of the
    interface is a transition of the machine or leaves its state
    unchanged.  [Validating] is never observed: validation runs inside the
    handler, between two renderings. *)

From stdpp Require Import base tactics option list strings.
From S2P Require Import Prelude JsValue Model ViewState Transport.
From S2P Require Import Submission Machine.

Inductive SubmissionState : Type :=
| Idle
| Validating
| InFlight
| Succeeded (result : JsValue)
| Failed (message : string).

(** The machine's state: the inputs, the lifecycle state, and the request
    in flight. *)
Record Spec : Type := mkSpec {
  spec_file : option File;
  spec_text : string;
  spec_sub : SubmissionState;
  spec_request : option Request;
}.

Definition spec_initial : Spec :=
  {| spec_file := None; spec_text := ""; spec_sub := Idle; spec_request := None |}.

(** Picking a file dismisses a reported failure. *)
Definition dismiss (sub : SubmissionState) : SubmissionState :=
  match sub with
  | Failed _ => Idle
  | _ => sub
  end.

(** A validator: the file to submit, or nothing when the inputs are
    rejected. *)
Definition Validator : Type := option File → string → option File.

(** The guards of [handleSubmit] as a validator. *)
Definition code_validator : Validator :=
  λ file text, match validate file text with Ok f => Some f | Throw _ => None end.

(** The specified validator: rejects white space too. *)
Definition strict_validator : Validator :=
  λ file text, match spec_validate file text with Ok f => Some f | Throw _ => None end.

Section Machine.
Variable accepts : Validator.

(** The transitions.  A submission starts only when none is in flight; a
    valid one puts its request in flight, an invalid one fails at once; a
    request in flight ends in [Succeeded] or [Failed]. *)
Inductive spec_step : Spec → Spec → Prop :=
| spec_pick a file :
    spec_step a {| spec_file := file; spec_text := spec_text a;
                   spec_sub := dismiss (spec_sub a);
                   spec_request := spec_request a |}
| spec_edit a text :
    spec_step a {| spec_file := spec_file a; spec_text := text;
                   spec_sub := spec_sub a; spec_request := spec_request a |}
| spec_submit a file :
    spec_sub a ≠ InFlight → accepts (spec_file a) (spec_text a) = Some file →
    spec_step a {| spec_file := spec_file a; spec_text := spec_text a;
                   spec_sub := InFlight;
                   spec_request := Some (request_for file (spec_text a)) |}
| spec_reject a message :
    spec_sub a ≠ InFlight → accepts (spec_file a) (spec_text a) = None →
    spec_step a {| spec_file := spec_file a; spec_text := spec_text a;
                   spec_sub := Failed message; spec_request := spec_request a |}
| spec_succeed a result :
    spec_sub a = InFlight → truthy result = true →
    spec_step a {| spec_file := spec_file a; spec_text := spec_text a;
                   spec_sub := Succeeded result; spec_request := None |}
| spec_fail a message :
    spec_sub a = InFlight →
    spec_step a {| spec_file := spec_file a; spec_text := spec_text a;
                   spec_sub := Failed message; spec_request := None |}.

(** Zero or more transitions. *)
Inductive spec_steps : Spec → Spec → Prop :=
| spec_steps_refl a : spec_steps a a
| spec_steps_step a b c : spec_steps a b → spec_step b c → spec_steps a c.

End Machine.

(** The lifecycle state the three cells stand for. *)
Definition phase (s : ViewState) : SubmissionState :=
  if isLoading s then InFlight
  else match error s with
       | Some message => Failed message
       | None =>
           if truthy (extractedData s) then Succeeded (extractedData s) else Idle
       end.

(** The machine's state read off a world. *)
Definition abstract (w : World) : Spec :=
  {| spec_file := resume (view w);
     spec_text := jobDescription (view w);
     spec_sub := phase (view w);
     spec_request := head (pending w) |}.

(** What the machine guarantees in each of its states. *)
Definition spec_inv (a : Spec) : Prop :=
  (spec_sub a = InFlight ↔ is_Some (spec_request a)) ∧
  spec_sub a ≠ Validating ∧
  (∀ result, spec_sub a = Succeeded result → truthy result = true).

(** A file picked and a text of three blanks typed. *)
Definition sample_blank_inputs : list Event :=
  [EvDrop [sample_pdf]; EvChange "   "].

(** ** The machine's own guarantees *)

Section SpecFacts.
Variable accepts : Validator.

Lemma spec_inv_initial : spec_inv spec_initial.
Proof.
  unfold spec_inv. simpl. rewrite is_Some_alt. naive_solver.
Qed.

Lemma spec_inv_step a b : spec_step accepts a b → spec_inv a → spec_inv b.
Proof.
  intros Hstep (Hreq & Hval & Htruthy). unfold spec_inv.
  destruct Hstep; simpl in *; rewrite ?is_Some_alt in *.
  - destruct (spec_sub a); naive_solver.
  - done.
  - naive_solver.
  - destruct (spec_request a); naive_solver.
  - naive_solver.
  - naive_solver.
Qed.

Lemma spec_inv_steps a b : spec_steps accepts a b → spec_inv a → spec_inv b.
Proof. induction 1; eauto using spec_inv_step. Qed.

End SpecFacts.

(** ** The simulation *)

Section Simulation.
Context {engine : Engine}.
Implicit Types (w : World) (e : Event) (s : ViewState).

Lemma phase_not_loading s :
  isLoading s = false →
  phase s = match error s with
            | Some message => Failed message
            | None => if truthy (extractedData s)
                      then Succeeded (extractedData s) else Idle
            end.
Proof. unfold phase. by intros ->. Qed.

Lemma phase_InFlight s : phase s = InFlight ↔ isLoading s = true.
Proof.
  unfold phase. destruct (isLoading s); [done|].
  by repeat case_match.
Qed.

Lemma phase_onDrop fs w :
  ui_inv w → phase (onDrop fs (view w)) = dismiss (phase (view w)).
Proof.
  intros [_ _ Hle Her _ _ _]. unfold phase, onDrop. simpl.
  destruct (isLoading (view w)); [done|].
  destruct (error (view w)) as [m|]; simpl; [|by case_match].
  by rewrite Her.
Qed.

Lemma simulate_drop fs w :
  ui_inv w →
  spec_step code_validator (abstract w) (abstract (fire (EvDrop fs) w)).
Proof.
  intros Hw. unfold abstract. simpl. fold (onDrop fs (view w)).
  rewrite (phase_onDrop _ _ Hw). apply (spec_pick _ (abstract w)).
Qed.

Lemma simulate_change t w :
  spec_step code_validator (abstract w) (abstract (fire (EvChange t) w)).
Proof. apply (spec_edit _ (abstract w)). Qed.

Lemma simulate_click w :
  ui_inv w →
  spec_step code_validator (abstract w) (abstract (fire EvClick w)) ∨
  abstract (fire EvClick w) = abstract w.
Proof.
  intros [H1 H2 _ _ _ _ _]. simpl.
  destruct (submit_disabled (view w)) eqn:Hd.
  { right. by rewrite click_disabled, send_nothing. }
  left. destruct (click_enabled _ Hd) as (file & Hr & ->).
  apply submit_disabled_false in Hd as (Hl & _ & Hj).
  assert (pending w = []) as Hp.
  { destruct (pending w) eqn:Hp; [done|]. rewrite (proj2 H2) in Hl; done. }
  replace (abstract (send w _)) with
    {| spec_file := spec_file (abstract w); spec_text := spec_text (abstract w);
       spec_sub := InFlight;
       spec_request := Some (request_for file (spec_text (abstract w))) |}
    by (unfold abstract, send; simpl; by rewrite Hp).
  apply spec_submit; simpl.
  - by rewrite phase_InFlight, Hl.
  - unfold code_validator. by rewrite Hr, (proj2 (validate_ok_iff _ _ file)).
Qed.

Lemma simulate_settle n o w :
  ui_inv w →
  spec_step code_validator (abstract w) (abstract (fire (EvSettle n o) w)) ∨
  abstract (fire (EvSettle n o) w) = abstract w.
Proof.
  intros [H1 H2 H3 _ _ _ _]. simpl. case_decide as Hn; [left|by right].
  destruct (pending w) as [|r [|??]] eqn:Hp; simpl in *; try lia.
  assert (n = 0) as -> by lia.
  assert (isLoading (view w) = true) as Hl by (by apply H2).
  destruct (settle_shape o (view w)) as (Hl' & Hr & Hj & Hres).
  set (s' := handleSubmit_settle o (view w)) in *.
  change (delete 0 [r]) with (@nil Request).
  assert (∀ sub, phase s' = sub →
    abstract {| view := s'; pending := []; issued := issued w |} =
    {| spec_file := spec_file (abstract w); spec_text := spec_text (abstract w);
       spec_sub := sub; spec_request := None |}) as Habs.
  { intros sub <-. unfold abstract. simpl. by rewrite Hr, Hj. }
  rewrite (phase_not_loading _ Hl') in Habs.
  destruct Hres as [[Ht He]|[Hv [m Hm]]].
  - rewrite (Habs (Succeeded (extractedData s'))) by (by rewrite He, (H3 Hl), Ht).
    apply spec_succeed; [by apply phase_InFlight|done].
  - rewrite (Habs (Failed m)) by (by rewrite Hm).
    apply spec_fail. by apply phase_InFlight.
Qed.

Lemma simulate e w :
  ui_inv w → ui_event e = true →
  spec_step code_validator (abstract w) (abstract (fire e w)) ∨
  abstract (fire e w) = abstract w.
Proof.
  intros Hw He. destruct e;
    eauto using simulate_drop, simulate_change, simulate_click, simulate_settle.
  done.
Qed.

Lemma simulate_run w :
  reachable ui_event w → spec_steps code_validator spec_initial (abstract w).
Proof.
  induction 1 as [|w e Hw IH He]; [constructor|].
  destruct (simulate e w (ui_inv_reachable w Hw) He) as [Hstep| ->]; [|done].
  by econstructor.
Qed.

End Simulation.

(** ** The refinement *)

Section RefinementTheorems.
Context {engine : Engine}.
Implicit Types (w : World) (e : Event).

(** C3. Every event of the interface, in every state it reaches, is one
    transition of the specified lifecycle machine (with the guards of
    [handleSubmit] as its validator) or leaves the machine's state
    unchanged. *)
Theorem interface_refines_lifecycle w e :
  reachable ui_event w → ui_event e = true →
  spec_step code_validator (abstract w) (abstract (fire e w)) ∨
  abstract (fire e w) = abstract w.
Proof. intros Hw He. by apply simulate; [apply ui_inv_reachable|]. Qed.

(** Every state the interface reaches is, read as a state of the
    machine, reachable by the machine from its initial state; so it is
    in flight exactly when it holds a request, never observed validating,
    and holds only truthy results. *)
Theorem interface_runs_are_lifecycle_runs w :
  reachable ui_event w →
  spec_steps code_validator spec_initial (abstract w) ∧ spec_inv (abstract w).
Proof.
  intros Hw. pose proof (simulate_run w Hw) as Hrun.
  eauto using spec_inv_steps, spec_inv_initial.
Qed.

(** With the validator as specified the refinement fails: after a
    file and a text of three blanks, a click puts a request in flight,
    which is neither a transition of that machine nor a stutter. *)
Theorem strict_lifecycle_not_refined :
  let w := run sample_blank_inputs initial_world in
  reachable ui_event w ∧
  ¬ (spec_step strict_validator (abstract w) (abstract (fire EvClick w)) ∨
     abstract (fire EvClick w) = abstract w).
Proof.
  split; [by apply reachable_run|].
  intros [Hstep|Heq]; [|done]. by inversion Hstep.
Qed.

End RefinementTheorems.

(** ** On the samples *)

Lemma interface_refines_lifecycle_witness :
  let w := run (engine := sample_engine) sample_session initial_world in
  let e := EvSettle 0 (sample_service sample_request) in
  spec_step code_validator (abstract w) (abstract (fire (engine := sample_engine) e w)) ∨
  abstract (fire (engine := sample_engine) e w) = abstract w.
Proof.
  apply (interface_refines_lifecycle (engine := sample_engine));
    [apply reachable_run; reflexivity | reflexivity].
Defined.

Lemma interface_runs_are_lifecycle_runs_witness :
  let w := run (engine := sample_engine) sample_resubmission initial_world in
  spec_steps code_validator spec_initial (abstract w) ∧ spec_inv (abstract w).
Proof.
  apply (interface_runs_are_lifecycle_runs (engine := sample_engine)).
  apply reachable_run. reflexivity.
Defined.
